(** * Timetable builders of the remedial-system school application

    A shallow embedding of the timetable code of [lessons/views.py] and
    [lessons/models.py]: the two fixed day/slot structures, the normal and
    the remedial builder views (selection parsing, grid scan, validation,
    delete-then-recreate, rebuild of the [current] map, joint
    configuration), the two master timetables, the statistics views with
    their read-side collapsers and counters, the two week generators, the
    teachers' colour grids and the payment overview.

    Conventions.  Python [int] is [Z]; [str] is [string], each character
    standing for the code point of the same number; a [dict] whose
    iteration order is observable is an insertion-ordered association
    list, other dicts are [gmap]s; a Python [set] is a [gset]; the ORM
    tables are lists of records in primary-key order, threaded explicitly
    through the views.

    Requests are those of a logged-in staff member (the
    [staff_member_required] decorator is outside the model), every
    statement is committed as it runs (no view opens a transaction), and
    the tables that refer to [Timetable] rows and lose records by cascade
    when a row is deleted are not part of the builders' state [DB]; the
    generators and the teachers' views read and write them in a state of
    their own, [Lessons]. *)

From Stdlib Require Import ZArith Ascii String List Lia.
From stdpp Require Import base decidable option list gmap strings pretty.

Local Open Scope string_scope.
Local Open Scope Z_scope.

#[local] Set Warnings "-clear-no-such-hyp".

(** ** Python string primitives *)

Module Py.

(** [str.isspace] on one character, for the code points below 256. *)
Definition is_space (c : ascii) : bool :=
  let n := Z.of_nat (nat_of_ascii c) in
  ((9 <=? n) && (n <=? 13)) || ((28 <=? n) && (n <=? 32))
  || (n =? 133) || (n =? 160).

Fixpoint lstrip (s : string) : string :=
  match s with
  | String c s' => if is_space c then lstrip s' else s
  | EmptyString => EmptyString
  end.

Fixpoint rstrip (s : string) : string :=
  match s with
  | EmptyString => EmptyString
  | String c s' =>
      let r := rstrip s' in
      if is_space c && bool_decide (r = EmptyString) then EmptyString
      else String c r
  end.

(** [s.strip()] *)
Definition strip (s : string) : string := rstrip (lstrip s).

Definition digit_value (c : ascii) : option Z :=
  let n := Z.of_nat (nat_of_ascii c) in
  if (48 <=? n) && (n <=? 57) then Some (n - 48) else None.

(** The digits of a decimal literal; a single underscore may separate two
    digits.  [prev] tells whether the previous character was a digit. *)
Fixpoint int_digits (acc : Z) (prev : bool) (s : string) : option Z :=
  match s with
  | EmptyString => if prev then Some acc else None
  | String c s' =>
      match digit_value c with
      | Some d => int_digits (10 * acc + d) true s'
      | None =>
          if bool_decide (c = "_"%char) && prev then int_digits acc false s'
          else None
      end
  end.

(** The white space [int] skips around a literal: the six blanks of
    ASCII and, below code point 256, the two other white-space characters
    of Unicode, which the conversion first turns into a blank.  The
    separators 28-31 are white space for [str.isspace] and [strip] but
    not here: [int] raises [ValueError] on them. *)
Definition is_int_space (c : ascii) : bool :=
  let n := Z.of_nat (nat_of_ascii c) in
  ((9 <=? n) && (n <=? 13)) || (n =? 32) || (n =? 133) || (n =? 160).

Fixpoint int_lstrip (s : string) : string :=
  match s with
  | String c s' => if is_int_space c then int_lstrip s' else s
  | EmptyString => EmptyString
  end.

Fixpoint int_rstrip (s : string) : string :=
  match s with
  | EmptyString => EmptyString
  | String c s' =>
      let r := int_rstrip s' in
      if is_int_space c && bool_decide (r = EmptyString) then EmptyString
      else String c r
  end.

(** [sys.get_int_max_str_digits()], at the interpreter's default. *)
Definition max_str_digits : Z := 4300.

(** The number of digits of a literal, underscores apart. *)
Fixpoint count_digits (s : string) : Z :=
  match s with
  | EmptyString => 0
  | String c s' =>
      match digit_value c with
      | Some _ => 1 + count_digits s'
      | None => count_digits s'
      end
  end.

(** The literal after the sign: its value, unless it has more digits
    than the interpreter converts. *)
Definition int_literal (r : string) : option Z :=
  match int_digits 0 false r with
  | Some v =>
      if bool_decide (count_digits r ≤ max_str_digits) then Some v else None
  | None => None
  end.

(** [int(s)] in base ten; [None] stands for [ValueError].  Below code
    point 256 the decimal digits are 0-9. *)
Definition int (s : string) : option Z :=
  match int_rstrip (int_lstrip s) with
  | String "+" r => int_literal r
  | String "-" r => Z.opp <$> int_literal r
  | r => int_literal r
  end.

(** [a, b = s.split("-", 1)]; [None] when the unpacking raises
    [ValueError] because [s] has no dash. *)
Fixpoint split_dash (s : string) : option (string * string) :=
  match s with
  | EmptyString => None
  | String c s' =>
      if bool_decide (c = "-"%char) then Some (EmptyString, s')
      else match split_dash s' with
           | Some (a, b) => Some (String c a, b)
           | None => None
           end
  end.

(** [str(n)] and the [{n}] of an f-string. *)
Definition str (n : Z) : string := pretty n.

End Py.

(** ** Times and the two fixed structures *)

Record time := Time { hour : Z; minute : Z }.

Global Instance time_eq_dec : EqDecision time.
Proof. solve_decision. Defined.

Global Instance time_countable : Countable time.
Proof.
  refine (inj_countable' (fun t => (hour t, minute t))
                         (fun p => Time p.1 p.2) _).
  by intros [].
Defined.

Definition two_digits (n : Z) : string :=
  if n <? 10 then "0" +:+ Py.str n else Py.str n.

(** [t.strftime("%H%M")] *)
Definition strftime_HHMM (t : time) : string :=
  two_digits (hour t) +:+ two_digits (minute t).

Definition structure : Type := list string * list (time * time).

(** Lines 959-992: Mon-Fri, nine 40-minute lessons. *)
Definition _fixed_timetable_structure : structure :=
  ( ["Mon"; "Tue"; "Wed"; "Thu"; "Fri"],
    [ (Time 8 0, Time 8 40);
      (Time 8 40, Time 9 20);
      (Time 9 40, Time 10 20);
      (Time 10 20, Time 11 0);
      (Time 11 10, Time 11 50);
      (Time 11 50, Time 12 30);
      (Time 14 20, Time 15 0);
      (Time 15 0, Time 15 40);
      (Time 15 40, Time 16 20) ] ).

(** Lines 995-1023: Mon-Sat, six remedial slots. *)
Definition _fixed_remedial_structure : structure :=
  ( ["Mon"; "Tue"; "Wed"; "Thu"; "Fri"; "Sat"],
    [ (Time 16 30, Time 17 30);
      (Time 19 0, Time 20 0);
      (Time 13 30, Time 14 20);
      (Time 7 0, Time 8 0);
      (Time 8 0, Time 9 0);
      (Time 9 0, Time 10 0) ] ).

(** ** Persisted tables ([lessons/models.py]) *)

(** [Timetable]; [class_groups] lists the ids linked to the row through
    the many-to-many table. *)
Record Timetable := {
  pk : Z;
  subject_fk_id : option Z;
  teacher_id : Z;
  day : string;
  start_time : time;
  end_time : time;
  class_groups : list Z
}.

Record JointSubject := { js_subject_id : Z; js_active : bool }.

Record JointClassGroupSet := {
  jcgs_name : string;
  jcgs_class_groups : list Z;
  jcgs_active : bool
}.

(** The tables the builders read and write.  [Subject], [Teacher] and
    [ClassGroup] are kept as the lists of their primary keys, in table
    order; [next_pk] is the auto-increment counter of [Timetable]. *)
Record DB := {
  Subject_ids : list Z;
  Teacher_ids : list Z;
  ClassGroup_ids : list Z;
  JointSubjects : list JointSubject;
  JointClassGroupSets : list JointClassGroupSet;
  Timetables : list Timetable;
  next_pk : Z
}.

Definition set_Timetables (db : DB) (rows : list Timetable) : DB :=
  {| Subject_ids := Subject_ids db; Teacher_ids := Teacher_ids db;
     ClassGroup_ids := ClassGroup_ids db; JointSubjects := JointSubjects db;
     JointClassGroupSets := JointClassGroupSets db;
     Timetables := rows; next_pk := next_pk db |}.

(** [Timetable.objects.create(subject_fk_id=.., teacher_id=.., day=..,
    start_time=.., end_time=..)]: the row gets the next primary key and no
    class group yet.  Both foreign keys are enforced by the database, so
    the insert raises [IntegrityError] ([None]) when the subject or the
    teacher does not exist. *)
Definition Timetable_create (db : DB) (subj_id teacher : Z) (d : string)
    (st et : time) : option (DB * Z) :=
  if bool_decide (subj_id ∈ Subject_ids db ∧ teacher ∈ Teacher_ids db) then
    let tt := {| pk := next_pk db; subject_fk_id := Some subj_id;
                 teacher_id := teacher; day := d; start_time := st;
                 end_time := et; class_groups := [] |} in
    Some ({| Subject_ids := Subject_ids db; Teacher_ids := Teacher_ids db;
             ClassGroup_ids := ClassGroup_ids db;
             JointSubjects := JointSubjects db;
             JointClassGroupSets := JointClassGroupSets db;
             Timetables := Timetables db ++ [tt];
             next_pk := next_pk db + 1 |}, next_pk db)
  else None.

Definition add_class_group (cg : Z) (tt : Timetable) : Timetable :=
  {| pk := pk tt; subject_fk_id := subject_fk_id tt;
     teacher_id := teacher_id tt; day := day tt;
     start_time := start_time tt; end_time := end_time tt;
     class_groups := if bool_decide (cg ∈ class_groups tt)
                     then class_groups tt else class_groups tt ++ [cg] |}.

(** [tt.class_groups.add(cg)] for the row with primary key [tt_pk]. *)
Definition class_groups_add (db : DB) (tt_pk cg : Z) : DB :=
  set_Timetables db
    ((fun tt => if bool_decide (pk tt = tt_pk) then add_class_group cg tt
                else tt) <$> Timetables db).

(** ** Requests *)

(** A [QueryDict]: every key carries the list of its submitted values. *)
Abbreviation QueryDict := (gmap string (list string)).

Record HttpRequest := {
  method : string;
  GET : QueryDict;
  POST : QueryDict
}.

(** [q.getlist(key)] *)
Definition getlist (q : QueryDict) (key : string) : list string :=
  default [] (q !! key).

(** [q.get(key)]: the last value of the key, [None] when it is absent. *)
Definition get (q : QueryDict) (key : string) : option string :=
  q !! key ≫= last.

(** [q.get(key, dflt)] *)
Definition get_default (q : QueryDict) (key dflt : string) : string :=
  default dflt (get q key).

(** ** The grid of cells *)

(** A cell of the builder grid: class group id, day, slot, sub-index. *)
Definition cell : Type := Z * string * (time * time) * Z.

(** The four nested loops
    [for cg in class_groups: for day in days: for (st, et) in slots:
     for idx in (1, 2, 3)], as the list of cells in visiting order. *)
Definition grid (S : structure) (cgs : list Z) : list cell :=
  cg ← cgs; d ← S.1; slot ← S.2; idx ← [1; 2; 3]; [(cg, d, slot, idx)].

(** [f"{cg.id}_{day}_{st_key}_{et_key}"] *)
Definition base_key (cg : Z) (d : string) (st et : time) : string :=
  Py.str cg +:+ "_" +:+ d +:+ "_" +:+ strftime_HHMM st +:+ "_"
  +:+ strftime_HHMM et.

(** [f"{base}_{idx}"] *)
Definition indexed_key (base : string) (idx : Z) : string :=
  base +:+ "_" +:+ Py.str idx.

(** [f"cell_{cg.id}_{day}_{st_key}_{et_key}_{idx}"] *)
Definition field_name (c : cell) : string :=
  let '(cg, d, (st, et), idx) := c in
  "cell_" +:+ indexed_key (base_key cg d st et) idx.

(** [request.POST.get(field_name, "").strip()] *)
Definition cell_value (post : QueryDict) (c : cell) : string :=
  Py.strip (get_default post (field_name c) "").

(** The [try] block of a cell: split at the first dash and convert both
    halves; [None] when [ValueError] is caught. *)
Definition parse_value (val : string) : option (Z * Z) :=
  '(subj_id_str, teacher_id_str) ← Py.split_dash val;
  subj_id ← Py.int subj_id_str;
  teacher ← Py.int teacher_id_str;
  Some (subj_id, teacher).

(** ** Validation (lines 1090-1171 and 1781-1853) *)

(** [defaultdict(set)] in insertion order, and [d[k].add(x)]. *)
Fixpoint dd_add {K : Type} `{EqDecision K} (k : K) (x : Z)
    (d : list (K * gset Z)) : list (K * gset Z) :=
  match d with
  | [] => [(k, {[ x ]})]
  | (k', s) :: d' =>
      if bool_decide (k = k') then (k', {[ x ]} ∪ s) :: d'
      else (k', s) :: dd_add k x d'
  end.

(** Key of [block_subjects]: (teacher_id, day, start_time, end_time). *)
Definition tkey : Type := Z * string * time * time.
(** Key of [block_classes]:
    (teacher_id, day, start_time, end_time, subject_id). *)
Definition bkey : Type := Z * string * time * time * Z.

Record scan_state := {
  sc_error : option string;
  block_classes : list (bkey * gset Z);
  block_subjects : list (tkey * gset Z)
}.

Definition msg_invalid : string :=
  "Invalid subject/teacher selection received.".

(** The body of the innermost loop of the validation scan. *)
Definition scan_cell (post : QueryDict) (s : scan_state) (c : cell)
    : scan_state :=
  let '(cg, d, (st, et), idx) := c in
  let val := cell_value post c in
  if bool_decide (val = "") then s
  else match parse_value val with
       | None =>
           {| sc_error := Some msg_invalid;
              block_classes := block_classes s;
              block_subjects := block_subjects s |}
       | Some (subj_id, teacher) =>
           {| sc_error := sc_error s;
              block_classes :=
                dd_add (teacher, d, st, et, subj_id) cg (block_classes s);
              block_subjects :=
                dd_add (teacher, d, st, et) subj_id (block_subjects s) |}
       end.

Definition scan (post : QueryDict) (cells : list cell) : scan_state :=
  foldl (scan_cell post)
        {| sc_error := None; block_classes := []; block_subjects := [] |}
        cells.

(** A [for] loop that sets [error_message] and breaks at the first item
    for which [check] reports an error. *)
Fixpoint for_break {A : Type} (check : A → option string) (l : list A)
    : option string :=
  match l with
  | [] => None
  | x :: l' =>
      match check x with
      | Some e => Some e
      | None => for_break check l'
      end
  end.

Inductive mode := Normal | Remedial.

Definition structure_of (m : mode) : structure :=
  match m with
  | Normal => _fixed_timetable_structure
  | Remedial => _fixed_remedial_structure
  end.

Definition msg_slot_conflict (m : mode) : string :=
  match m with
  | Normal =>
      "A teacher cannot be assigned different subjects in the same " +:+
      "time slot. Adjust the timetable so each teacher has only one " +:+
      "subject per slot."
  | Remedial =>
      "A teacher cannot be assigned different subjects in the same " +:+
      "remedial time slot. Adjust the timetable so each teacher has only one " +:+
      "subject per slot."
  end.

Definition msg_not_joint : string :=
  "Cannot assign this teacher to multiple classes at the same time " +:+
  "unless the subject is configured as a joint subject.".

Definition msg_not_one_set : string :=
  "These classes are not configured as a single joint class group for this " +:+
  "subject and time. Please configure a JointClassGroupSet or select fewer " +:+
  "classes.".

Definition msg_unknown_action (m : mode) : string :=
  match m with
  | Normal => "Unknown action; timetable was not saved."
  | Remedial => "Unknown action; remedial timetable was not saved."
  end.

Definition check_slot (m : mode) (item : tkey * gset Z) : option string :=
  if bool_decide (1 < size item.2)%nat then Some (msg_slot_conflict m)
  else None.

(** [set(JointSubject.objects.filter(active=True)
          .values_list("subject_id", flat=True))] *)
Definition joint_subject_ids (db : DB) : gset Z :=
  list_to_set (js_subject_id <$> filter (fun j => js_active j = true)
                                        (JointSubjects db)).

(** [class_to_tag]: every member of an active set is mapped to the set's
    name; a later set overwrites an earlier one. *)
Definition class_to_tag (db : DB) : gmap Z string :=
  foldl (fun tags group_set =>
           foldl (fun tags cid => <[cid := jcgs_name group_set]> tags)
                 tags (jcgs_class_groups group_set))
        ∅
        (filter (fun g => jcgs_active g = true) (JointClassGroupSets db)).

Definition check_block (jsi : gset Z) (ctt : gmap Z string)
    (item : bkey * gset Z) : option string :=
  let '((teacher, d, st, et, subj_id), class_ids) := item in
  if bool_decide (size class_ids ≤ 1)%nat then None
  else if bool_decide (subj_id ∉ jsi) then Some msg_not_joint
  else
    let tags : gset (option string) :=
      set_map (fun cid => ctt !! cid) class_ids in
    if bool_decide (size tags ≠ 1%nat ∨ None ∈ tags)
    then Some msg_not_one_set else None.

(** The whole pre-validation of a save: the scan, then the two checks,
    each entered only while [error_message] is still unset. *)
Definition validate (m : mode) (db : DB) (post : QueryDict)
    (cgs : list Z) : option string :=
  let s := scan post (grid (structure_of m) cgs) in
  let e1 :=
    match sc_error s with
    | Some e => Some e
    | None => for_break (check_slot m) (block_subjects s)
    end in
  match e1 with
  | Some e => Some e
  | None =>
      for_break (check_block (joint_subject_ids db) (class_to_tag db))
                (block_classes s)
  end.

(** ** Delete and recreate (lines 1176-1222 and 1857-1900) *)

(** The scoping filter [day__in=days, start_time__in=[st for (st, _et) in
    slots]]. *)
Definition in_scope (S : structure) (tt : Timetable) : Prop :=
  day tt ∈ S.1 ∧ start_time tt ∈ (fst <$> S.2).

Global Instance in_scope_dec S tt : Decision (in_scope S tt) :=
  and_dec _ _.

(** [Timetable.objects.filter(class_groups=cg, day__in=..,
    start_time__in=..).delete()] *)
Definition delete_scoped (S : structure) (cg : Z) (rows : list Timetable)
    : list Timetable :=
  filter (fun tt => ¬ (cg ∈ class_groups tt ∧ in_scope S tt)) rows.

(** [for cg in class_groups: Timetable.objects.filter(...).delete()] *)
Definition clear_rows (S : structure) (cgs : list Z) (db : DB) : DB :=
  foldl (fun db cg => set_Timetables db (delete_scoped S cg (Timetables db)))
        db cgs.

(** Key of [created_keys]: (cg.id, day, st, et, subj_id, teacher_id). *)
Definition ckey : Type := Z * string * time * time * Z * Z.

Record save_state := {
  sv_db : DB;
  created_keys : gset ckey;
  sv_error : option string
}.

(** The body of the innermost loop of the recreate pass; [None] when
    [Timetable.objects.create] raises. *)
Definition create_cell (post : QueryDict) (s : save_state) (c : cell)
    : option save_state :=
  let '(cg, d, (st, et), idx) := c in
  let val := cell_value post c in
  if bool_decide (val = "") then Some s
  else match parse_value val with
       | None =>
           Some {| sv_db := sv_db s; created_keys := created_keys s;
                   sv_error := Some msg_invalid |}
       | Some (subj_id, teacher) =>
           let key : ckey := (cg, d, st, et, subj_id, teacher) in
           if bool_decide (key ∈ created_keys s) then Some s
           else match Timetable_create (sv_db s) subj_id teacher d st et with
                | None => None
                | Some (db', tt_pk) =>
                    Some {| sv_db := class_groups_add db' tt_pk cg;
                            created_keys := {[ key ]} ∪ created_keys s;
                            sv_error := sv_error s |}
                end
       end.

(** The recreate pass over the cells; [inr db] is the database as the
    uncaught [IntegrityError] leaves it. *)
Fixpoint create_rows (post : QueryDict) (cells : list cell) (s : save_state)
    : save_state + DB :=
  match cells with
  | [] => inl s
  | c :: cells' =>
      match create_cell post s c with
      | Some s' => create_rows post cells' s'
      | None => inr (sv_db s)
      end
  end.

(** The [action == "save"] branch. *)
Definition save (m : mode) (db : DB) (post : QueryDict) (cgs : list Z)
    : (DB * option string) + DB :=
  match validate m db post cgs with
  | Some e => inl (db, Some e)
  | None =>
      let db1 := clear_rows (structure_of m) cgs db in
      match create_rows post (grid (structure_of m) cgs)
              {| sv_db := db1; created_keys := ∅; sv_error := None |} with
      | inl s => inl (sv_db s, sv_error s)
      | inr db' => inr db'
      end
  end.

(** ** Rebuilding [current] (lines 1227-1266 and 1905-1941) *)

(** [Timetable.objects.filter(class_groups__in=class_groups, day__in=..,
    start_time__in=..)]: the join yields a row once for each of its class
    groups that is among [class_groups]. *)
Definition query_current (S : structure) (cgs : list Z)
    (rows : list Timetable) : list Timetable :=
  tt ← rows;
  if bool_decide (in_scope S tt)
  then cg ← class_groups tt; if bool_decide (cg ∈ cgs) then [tt] else []
  else [].

(** [for idx in (1, 2, 3)]: the value goes to the first free key. *)
Fixpoint place (base value : string) (idxs : list Z)
    (current : gmap string string) : gmap string string :=
  match idxs with
  | [] => current
  | idx :: idxs' =>
      let key := indexed_key base idx in
      if bool_decide (current !! key = None) then <[key := value]> current
      else place base value idxs' current
  end.

(** The body of [for tt in tts]. *)
Definition render_row (selected_class_ids : list Z)
    (current : gmap string string) (tt : Timetable) : gmap string string :=
  match subject_fk_id tt with
  | None => current
  | Some subj_id =>
      if bool_decide (subj_id = 0 ∨ teacher_id tt = 0) then current
      else
        let value := Py.str subj_id +:+ "-" +:+ Py.str (teacher_id tt) in
        foldl (fun current cg =>
                 if bool_decide (cg ∈ selected_class_ids)
                 then place (base_key cg (day tt) (start_time tt) (end_time tt))
                            value [1; 2; 3] current
                 else current)
              current (class_groups tt)
  end.

Definition build_current (S : structure) (selected_class_ids cgs : list Z)
    (db : DB) : gmap string string :=
  foldl (render_row selected_class_ids) ∅
        (query_current S cgs (Timetables db)).

(** ** The two builder views *)

(** [selected_class_ids]: the non-empty submitted ids converted with
    [int]; one failing conversion empties the whole list. *)
Definition selected_class_ids (request : HttpRequest) : list Z :=
  let selected_ids :=
    if bool_decide (method request = "POST")
    then getlist (POST request) "selected_classes"
    else getlist (GET request) "classes" in
  default [] (mapM Py.int (filter (fun cid => cid ≠ "") selected_ids)).

(** [ClassGroup.objects.filter(id__in=selected_class_ids)] or
    [ClassGroup.objects.none()]. *)
Definition selected_class_groups (db : DB) (ids : list Z) : list Z :=
  filter (fun cg => cg ∈ ids) (ClassGroup_ids db).

(** What a view leaves behind: the rendered page with the database after
    it, or an uncaught exception (a 500 response) with the database as the
    exception left it. *)
Inductive response :=
| Rendered (db : DB) (error_message : option string)
           (current : gmap string string)
| ServerError (db : DB).

(** The [if request.method == "POST" and selected_class_ids:] block.  The
    normal builder has the branches [clear], [save] and an [else]; the
    remedial builder has [save] and an [else]. *)
Definition handle_action (m : mode) (db : DB) (request : HttpRequest)
    (ids cgs : list Z) : (DB * option string) + DB :=
  if bool_decide (method request = "POST" ∧ ids ≠ []) then
    match m, get (POST request) "action" with
    | Normal, Some "clear" => inl (clear_rows (structure_of m) cgs db, None)
    | _, Some "save" => save m db (POST request) cgs
    | _, _ => inl (db, Some (msg_unknown_action m))
    end
  else inl (db, None).

(** Both views have the same body up to the structure, the [clear] branch
    and two messages; [builder_view] is that body. *)
Definition builder_view (m : mode) (db : DB) (request : HttpRequest)
    : response :=
  let ids := selected_class_ids request in
  let cgs := selected_class_groups db ids in
  match handle_action m db request ids cgs with
  | inr db' => ServerError db'
  | inl (db', error_message) =>
      Rendered db' error_message
        (if bool_decide (ids ≠ [])
         then build_current (structure_of m) ids cgs db'
         else ∅)
  end.

Definition timetable_builder : DB → HttpRequest → response :=
  builder_view Normal.

Definition remedial_timetable_builder : DB → HttpRequest → response :=
  builder_view Remedial.

(** The database a response leaves behind. *)
Definition db_after (r : response) : DB :=
  match r with
  | Rendered db _ _ => db
  | ServerError db => db
  end.

(** ** [Timetable.clean] ([lessons/models.py], lines 72-111) *)

(** [true] when [clean] raises [ValidationError]: another row of the same
    teacher, day, start and end has a different subject. *)
Definition Timetable_clean (db : DB) (self : Timetable) : bool :=
  if bool_decide (day self = "") then false
  else
    let clash_qs :=
      filter (fun tt => teacher_id tt = teacher_id self ∧ day tt = day self
                        ∧ start_time tt = start_time self
                        ∧ end_time tt = end_time self ∧ pk tt ≠ pk self)
             (Timetables db) in
    bool_decide
      (filter (fun tt => subject_fk_id tt ≠ subject_fk_id self) clash_qs ≠ []).

(** ** The read-side collapsers ([lessons/views.py], lines 88-148 and
    308-325) *)

(** [c.lower()] for the code points below 256. *)
Definition lower_char (c : ascii) : ascii :=
  let n := Z.of_nat (nat_of_ascii c) in
  if ((65 <=? n) && (n <=? 90))
     || ((192 <=? n) && (n <=? 222) && negb (n =? 215))
  then ascii_of_nat (nat_of_ascii c + 32) else c.

Fixpoint lower (s : string) : string :=
  match s with
  | EmptyString => EmptyString
  | String c s' => String (lower_char c) (lower s')
  end.

(** [val or dflt] on strings. *)
Definition or_str (val dflt : string) : string :=
  if bool_decide (val = "") then dflt else val.

Definition status_rank (val : string) : Z :=
  let v := lower (Py.strip (or_str val "")) in
  if bool_decide (v = "attended") then 3
  else if bool_decide (v = "not attended") then 2
  else if bool_decide (v = "pending") then 1
  else 0.

Definition payment_rank (val : string) : Z :=
  let v := lower (Py.strip (or_str val "")) in
  if bool_decide (v = "paid") then 2
  else if bool_decide (v = "unpaid") then 1
  else 0.

(** [LessonRecord]; [lr_amount] counts hundredths. *)
Record LessonRecord := {
  lr_timetable : option Timetable;
  lr_status : string;
  lr_payment_status : string;
  lr_amount : Z
}.

(** Key of a logical lesson:
    (teacher_id, day, start_time, end_time, subject_id). *)
Definition lkey : Type := Z * string * time * time * option Z.

Record agg := {
  agg_teacher_id : Z;
  agg_status : option string;
  agg_payment_status : option string;
  agg_paid_amount : Z;
  agg_unpaid_amount : Z
}.

(** The merge of one record into its aggregate (lines 132-148). *)
Definition merge_agg (a : agg) (rec : LessonRecord) : agg :=
  let new_status := Py.strip (or_str (lr_status rec) "Pending") in
  let status :=
    match agg_status a with
    | None => Some new_status
    | Some old =>
        if bool_decide (status_rank old < status_rank new_status)
        then Some new_status else Some old
    end in
  let new_pay := Py.strip (or_str (lr_payment_status rec) "") in
  let payment :=
    if bool_decide (new_pay = "") then agg_payment_status a
    else match agg_payment_status a with
         | None => Some new_pay
         | Some old =>
             if bool_decide (payment_rank old < payment_rank new_pay)
             then Some new_pay else Some old
         end in
  let p := lower (Py.strip (or_str (lr_payment_status rec) "")) in
  {| agg_teacher_id := agg_teacher_id a;
     agg_status := status;
     agg_payment_status := payment;
     agg_paid_amount :=
       if bool_decide (p = "paid") then agg_paid_amount a + lr_amount rec
       else agg_paid_amount a;
     agg_unpaid_amount :=
       if bool_decide (p = "paid") then agg_unpaid_amount a
       else if bool_decide (p = "unpaid")
            then agg_unpaid_amount a + lr_amount rec
            else agg_unpaid_amount a |}.

(** The body of [for rec in lessons] of [remedial_stats]. *)
Definition remedial_merge (logical_map : gmap lkey agg) (rec : LessonRecord)
    : gmap lkey agg :=
  match lr_timetable rec with
  | None => logical_map
  | Some row =>
      let key : lkey :=
        (teacher_id row, day row, start_time row, end_time row,
         subject_fk_id row) in
      let a :=
        default {| agg_teacher_id := teacher_id row; agg_status := None;
                   agg_payment_status := None; agg_paid_amount := 0;
                   agg_unpaid_amount := 0 |}
                (logical_map !! key) in
      <[key := merge_agg a rec]> logical_map
  end.

(** [logical_map] of [remedial_stats] after the loop over [lessons]. *)
Definition remedial_logical_map (lessons : list LessonRecord)
    : gmap lkey agg :=
  foldl remedial_merge ∅ lessons.

Record NormalLessonSlot := {
  slot_day : string;
  slot_start_time : time;
  slot_end_time : time;
  slot_class_group : Z;
  slot_subject_fk_id : Z;
  slot_teacher_id : Z
}.

Record NormalLessonAttendance := {
  att_slot : NormalLessonSlot;
  att_status : string
}.

Definition nkey : Type := Z * string * time * time * Z.

(** The body of [for att in attendances] of [deputy_normal_stats]:
    [logical_map[key] = att.status or "Pending"]. *)
Definition deputy_merge (logical_map : gmap nkey string)
    (att : NormalLessonAttendance) : gmap nkey string :=
  let slot := att_slot att in
  let key : nkey :=
    (slot_teacher_id slot, slot_day slot, slot_start_time slot,
     slot_end_time slot, slot_subject_fk_id slot) in
  <[key := or_str (att_status att) "Pending"]> logical_map.

(** [logical_map] of [deputy_normal_stats] after the loop. *)
Definition deputy_logical_map (attendances : list NormalLessonAttendance)
    : gmap nkey string :=
  foldl deputy_merge ∅ attendances.

(** ** Vocabulary of the statements *)

(** The cell [c] of the submission carries the pair (subject, teacher). *)
Definition assigned (post : QueryDict) (c : cell) (subj_id teacher : Z)
    : Prop :=
  parse_value (cell_value post c) = Some (subj_id, teacher).

(** The cells of [cells] that carry a parsable value, in visiting order,
    each as the tuple the recreate pass uses for [created_keys]. *)
Definition assignments (post : QueryDict) (cells : list cell) : list ckey :=
  omap (fun c : cell =>
          let '(cg, d, (st, et), idx) := c in
          match parse_value (cell_value post c) with
          | Some (subj_id, teacher) => Some (cg, d, st, et, subj_id, teacher)
          | None => None
          end) cells.

(** Some non-empty cell of [cells] fails to parse. *)
Definition parse_error (post : QueryDict) (cells : list cell) : Prop :=
  ∃ c, c ∈ cells ∧ cell_value post c ≠ "" ∧
       parse_value (cell_value post c) = None.

(** A (teacher, day, start, end) slot carries two different subjects. *)
Definition slot_conflict (post : QueryDict) (cells : list cell) : Prop :=
  ∃ cg1 cg2 d st et idx1 idx2 subj1 subj2 teacher,
    (cg1, d, (st, et), idx1) ∈ cells ∧ (cg2, d, (st, et), idx2) ∈ cells ∧
    assigned post (cg1, d, (st, et), idx1) subj1 teacher ∧
    assigned post (cg2, d, (st, et), idx2) subj2 teacher ∧
    subj1 ≠ subj2.

(** The class group [cg] takes part in the logical lesson [b]. *)
Definition in_block (post : QueryDict) (cells : list cell) (b : bkey)
    (cg : Z) : Prop :=
  let '(teacher, d, st, et, subj_id) := b in
  ∃ idx, (cg, d, (st, et), idx) ∈ cells ∧
         assigned post (cg, d, (st, et), idx) subj_id teacher.

(** The block [b] is a configured joint lesson: its subject is an active
    joint subject and all its class groups map to one tag. *)
Definition joint_ok (db : DB) (post : QueryDict) (cells : list cell)
    (b : bkey) : Prop :=
  b.2 ∈ joint_subject_ids db ∧
  ∃ tag, ∀ cg, in_block post cells b cg → class_to_tag db !! cg = Some tag.

(** Some block with more than one class group is not a configured joint
    lesson. *)
Definition joint_violation (db : DB) (post : QueryDict) (cells : list cell)
    : Prop :=
  ∃ b cg1 cg2, in_block post cells b cg1 ∧ in_block post cells b cg2 ∧
               cg1 ≠ cg2 ∧ ¬ joint_ok db post cells b.

(** A request that reaches the [save] branch. *)
Definition is_save (request : HttpRequest) : Prop :=
  method request = "POST" ∧ selected_class_ids request ≠ [] ∧
  get (POST request) "action" = Some "save".

(** The cells a save of [request] visits. *)
Definition cells_of (m : mode) (db : DB) (request : HttpRequest)
    : list cell :=
  grid (structure_of m)
       (selected_class_groups db (selected_class_ids request)).

(** Primary keys below the auto-increment counter. *)
Definition pks_fresh (db : DB) : Prop :=
  Forall (fun tt => pk tt < next_pk db) (Timetables db).

(** The first occurrences of the elements of [l] not in [seen], as the
    recreate pass keeps them with [created_keys]. *)
Fixpoint first_occurrences (seen : gset ckey) (l : list ckey) : list ckey :=
  match l with
  | [] => []
  | k :: l' =>
      if bool_decide (k ∈ seen) then first_occurrences seen l'
      else k :: first_occurrences ({[ k ]} ∪ seen) l'
  end.

(** A row without its primary key. *)
Definition content (tt : Timetable)
    : list Z * option Z * Z * string * time * time :=
  (class_groups tt, subject_fk_id tt, teacher_id tt, day tt, start_time tt,
   end_time tt).

(** The content of the row the recreate pass makes for a key. *)
Definition content_of_key (k : ckey)
    : list Z * option Z * Z * string * time * time :=
  let '(cg, d, st, et, subj_id, teacher) := k in
  ([cg], Some subj_id, teacher, d, st, et).

(** The row the recreate pass makes for a key. *)
Definition row_of_key (tt_pk : Z) (k : ckey) : Timetable :=
  let '(cg, d, st, et, subj_id, teacher) := k in
  {| pk := tt_pk; subject_fk_id := Some subj_id; teacher_id := teacher;
     day := d; start_time := st; end_time := et; class_groups := [cg] |}.

(** Rows for the keys, numbered from [tt_pk]. *)
Fixpoint rows_of_keys (tt_pk : Z) (keys : list ckey) : list Timetable :=
  match keys with
  | [] => []
  | k :: keys' => row_of_key tt_pk k :: rows_of_keys (tt_pk + 1) keys'
  end.

(** The persisted entries of one class group. *)
Definition entries_of (cg : Z) (db : DB) : list Timetable :=
  filter (fun tt => cg ∈ class_groups tt) (Timetables db).

(** No teacher has two subjects in one (day, start, end) slot. *)
Definition one_subject_per_slot (db : DB) : Prop :=
  ∀ t1 t2, t1 ∈ Timetables db → t2 ∈ Timetables db →
    teacher_id t1 = teacher_id t2 → day t1 = day t2 →
    start_time t1 = start_time t2 → end_time t1 = end_time t2 →
    subject_fk_id t1 = subject_fk_id t2.

(** The key of [current] for a cell: its field name without [cell_]. *)
Definition current_key (c : cell) : string :=
  let '(cg, d, (st, et), idx) := c in
  indexed_key (base_key cg d st et) idx.

(** The submitted value of a cell is what the rebuild writes for it:
    [{subject_id}-{teacher_id}] for non-zero ids, nothing around it. *)
Definition canonical (post : QueryDict) (c : cell) : Prop :=
  let raw := get_default post (field_name c) "" in
  raw = "" ∨
  (Py.strip raw = raw ∧
   match parse_value raw with
   | Some (subj_id, teacher) =>
       raw = Py.str subj_id +:+ "-" +:+ Py.str teacher
       ∧ subj_id ≠ 0 ∧ teacher ≠ 0
   | None => False
   end).

Global Instance canonical_dec post c : Decision (canonical post c).
Proof.
  unfold canonical. apply or_dec; [apply _|]. apply and_dec; [apply _|].
  destruct (parse_value _) as [[subj_id teacher]|]; apply _.
Defined.

(** The submitted map at a cell: its value, or nothing when it is empty. *)
Definition submitted (post : QueryDict) (c : cell) : option string :=
  let raw := get_default post (field_name c) "" in
  if bool_decide (raw = "") then None else Some raw.

(** The three sub-cells of a (class group, day, slot) are filled from
    sub-index 1 on, without a gap and without a repeated value. *)
Definition filled_in_order (post : QueryDict) (c : cell) : Prop :=
  let v := fun idx => cell_value post (c.1, idx) in
  (v 2 ≠ "" → v 1 ≠ "" ∧ v 1 ≠ v 2) ∧
  (v 3 ≠ "" → v 2 ≠ "" ∧ v 3 ≠ v 1 ∧ v 3 ≠ v 2).

Global Instance filled_in_order_dec post c : Decision (filled_in_order post c).
Proof. unfold filled_in_order. apply _. Defined.

(** The three sub-cells of a (class group, day, slot). *)
Definition three (T : Z * string * (time * time)) : list cell :=
  [(T, 1); (T, 2); (T, 3)].

(** The (class group, day, slot) triples of the grid, in visiting order. *)
Definition triples (S : structure) (cgs : list Z)
    : list (Z * string * (time * time)) :=
  cg ← cgs; d ← S.1; slot ← S.2; [(cg, d, slot)].

(** What follows the class group id in a [current] key. *)
Definition key_suffix (x : string * (time * time) * Z) : string :=
  let '(d, (st, et), idx) := x in
  "_" +:+ d +:+ "_" +:+ strftime_HHMM st +:+ "_" +:+ strftime_HHMM et
  +:+ "_" +:+ Py.str idx.

(** The (day, slot, sub-index) combinations of a structure. *)
Definition sub_cells (S : structure) : list (string * (time * time) * Z) :=
  d ← S.1; slot ← S.2; idx ← [1; 2; 3]; [(d, slot, idx)].

Fixpoint has_underscore (s : string) : bool :=
  match s with
  | EmptyString => false
  | String c s' => bool_decide (c = "_"%char) || has_underscore s'
  end.

(** What the rebuild does for the row of a key of a selected class. *)
Definition place_key (current : gmap string string) (k : ckey)
    : gmap string string :=
  let '(cg, d, st, et, subj_id, teacher) := k in
  place (base_key cg d st et) (Py.str subj_id +:+ "-" +:+ Py.str teacher)
        [1; 2; 3] current.

(** [d[k]] of a [defaultdict(set)]. *)
Fixpoint dd_get {K : Type} `{EqDecision K} (k : K) (d : list (K * gset Z))
    : gset Z :=
  match d with
  | [] => ∅
  | (k', s) :: d' => if bool_decide (k = k') then s else dd_get k d'
  end.

(** The [block_subjects] entry and the [block_classes] entry fed by an
    assignment. *)
Definition slot_entry (k : ckey) : tkey * Z :=
  let '(cg, d, st, et, subj_id, teacher) := k in
  ((teacher, d, st, et), subj_id).

Definition block_entry (k : ckey) : bkey * Z :=
  let '(cg, d, st, et, subj_id, teacher) := k in
  ((teacher, d, st, et, subj_id), cg).

(** A [defaultdict(set)] filled from a list of (key, element) entries. *)
Definition dd_fill {K : Type} `{EqDecision K} (d : list (K * gset Z))
    (entries : list (K * Z)) : list (K * gset Z) :=
  foldl (fun d e => dd_add e.1 e.2 d) d entries.

(** Both foreign keys of the row for [k] exist. *)
Definition fk_ok (db : DB) (k : ckey) : Prop :=
  let '(cg, d, st, et, subj_id, teacher) := k in
  subj_id ∈ Subject_ids db ∧ teacher ∈ Teacher_ids db.

Global Instance fk_ok_dec db k : Decision (fk_ok db k).
Proof. destruct k as [[[[[cg d] st] et] s] t]. apply and_dec; apply _. Defined.

(** The database with [rows] inserted at the end of [Timetable]. *)
Definition add_rows (db : DB) (rows : list Timetable) : DB :=
  {| Subject_ids := Subject_ids db; Teacher_ids := Teacher_ids db;
     ClassGroup_ids := ClassGroup_ids db; JointSubjects := JointSubjects db;
     JointClassGroupSets := JointClassGroupSets db;
     Timetables := Timetables db ++ rows;
     next_pk := next_pk db + Z.of_nat (length rows) |}.

(** The row is inside the structure and attached to one of [cgs]: the
    rows the delete loop removes. *)
Definition selected_in_scope (S : structure) (cgs : list Z) (tt : Timetable)
    : Prop :=
  in_scope S tt ∧ Exists (fun cg => cg ∈ class_groups tt) cgs.

Global Instance selected_in_scope_dec S cgs tt
    : Decision (selected_in_scope S cgs tt) := and_dec _ _.

(** The rows the delete loop leaves. *)
Definition kept_rows (S : structure) (cgs : list Z) (rows : list Timetable)
    : list Timetable :=
  filter (fun tt => ¬ selected_in_scope S cgs tt) rows.

(** The status a record contributes to the merge of [remedial_stats]. *)
Definition rec_status (rec : LessonRecord) : string :=
  Py.strip (or_str (lr_status rec) "Pending").

(** The payment status a record contributes; empty ones are skipped. *)
Definition rec_payment (rec : LessonRecord) : string :=
  Py.strip (or_str (lr_payment_status rec) "").

(** The logical-lesson key of a row. *)
Definition lkey_of (row : Timetable) : lkey :=
  (teacher_id row, day row, start_time row, end_time row, subject_fk_id row).

(** ** Scenario data *)

(** A [QueryDict] with one value per key. *)
Definition qd (l : list (string * string)) : QueryDict :=
  list_to_map ((fun p => (p.1, [p.2])) <$> l).

(** A POST with the given selected classes, action and cells. *)
Definition post_request (selected : list string) (action : string)
    (cells : list (string * string)) : HttpRequest :=
  {| method := "POST"; GET := ∅;
     POST := <["selected_classes" := selected]>
               (qd (("action", action) :: cells)) |}.

(** Subjects 1 (Math) and 2 (Physics), teacher 1, class groups 1 (F2N) and
    2 (F2S); Math is an active joint subject and "F2" = {F2N, F2S} an
    active joint set. *)
Definition school (rows : list Timetable) (next : Z) : DB :=
  {| Subject_ids := [1; 2]; Teacher_ids := [1]; ClassGroup_ids := [1; 2];
     JointSubjects := [ {| js_subject_id := 1; js_active := true |} ];
     JointClassGroupSets :=
       [ {| jcgs_name := "F2"; jcgs_class_groups := [1; 2];
            jcgs_active := true |} ];
     Timetables := rows; next_pk := next |}.

Definition lesson (tt_pk subj_id : Z) (d : string) (st et : time)
    (cgs : list Z) : Timetable :=
  {| pk := tt_pk; subject_fk_id := Some subj_id; teacher_id := 1; day := d;
     start_time := st; end_time := et; class_groups := cgs |}.

(** Scenario B: F2N and F2S both get Math with teacher 1, Mon 08:00. *)
Definition scenario_B : HttpRequest :=
  post_request ["1"; "2"] "save"
    [ ("cell_1_Mon_0800_0840_1", "1-1"); ("cell_2_Mon_0800_0840_1", "1-1") ].
(** The same school with Math not an active joint subject. *)
Definition school_no_joint (rows : list Timetable) (next : Z) : DB :=
  {| Subject_ids := [1; 2]; Teacher_ids := [1]; ClassGroup_ids := [1; 2];
     JointSubjects := [ {| js_subject_id := 1; js_active := false |} ];
     JointClassGroupSets :=
       [ {| jcgs_name := "F2"; jcgs_class_groups := [1; 2];
            jcgs_active := true |} ];
     Timetables := rows; next_pk := next |}.

(** Scenario D: F2N gets Math and Physics with teacher 1 in one slot. *)
Definition scenario_D : HttpRequest :=
  post_request ["1"] "save"
    [ ("cell_1_Mon_0800_0840_1", "1-1"); ("cell_1_Mon_0800_0840_2", "2-1") ].

(** A save with no class selected, one that selects nothing [int]
    accepts, and an action neither builder knows. *)
Definition save_without_classes : HttpRequest :=
  post_request [] "save" [ ("cell_1_Mon_0800_0840_1", "1-1") ].

Definition save_unparsable_classes : HttpRequest :=
  post_request ["F2N"; ""] "save" [ ("cell_1_Mon_0800_0840_1", "1-1") ].

Definition publish_request : HttpRequest :=
  post_request ["1"] "publish" [ ("cell_1_Mon_0800_0840_1", "1-1") ].

(** The id 1 behind the file separator (code point 28), which [strip]
    would remove and [int] does not accept. *)
Definition publish_separator_class : HttpRequest :=
  post_request [String "028"%char "1"] "publish"
    [ ("cell_1_Mon_0800_0840_1", "1-1") ].

(** Two saves for different selections: F2N gets Math, then F2S gets
    Physics, with the same teacher in the same slot. *)
Definition save_math_F2N : HttpRequest :=
  post_request ["1"] "save" [ ("cell_1_Mon_0800_0840_1", "1-1") ].

Definition save_physics_F2S : HttpRequest :=
  post_request ["2"] "save" [ ("cell_2_Mon_0800_0840_1", "2-1") ].

(** A remedial save for F2N with an empty grid. *)
Definition save_empty_remedial : HttpRequest :=
  post_request ["1"] "save" [].

(** A save that fills only sub-index 2 of a cell. *)
Definition save_second_sub_cell : HttpRequest :=
  post_request ["1"] "save" [ ("cell_1_Mon_0800_0840_2", "1-1") ].

(** A save whose second cell names subject 9, which does not exist. *)
Definition save_missing_subject : HttpRequest :=
  post_request ["1"] "save"
    [ ("cell_1_Mon_0800_0840_1", "1-1"); ("cell_1_Tue_0800_0840_1", "9-1") ].

(** A clear for F2N alone. *)
Definition clear_F2N : HttpRequest := post_request ["1"] "clear" [].

(** Attendance of one normal lesson slot of teacher 1, Math, Mon 08:00. *)
Definition attendance (cg : Z) (status : string) : NormalLessonAttendance :=
  {| att_slot := {| slot_day := "Mon"; slot_start_time := Time 8 0;
                    slot_end_time := Time 8 40; slot_class_group := cg;
                    slot_subject_fk_id := 1; slot_teacher_id := 1 |};
     att_status := status |}.

(** A request that reaches the [clear] branch of the normal builder. *)
Definition is_clear (request : HttpRequest) : Prop :=
  method request = "POST" ∧ selected_class_ids request ≠ [] ∧
  get (POST request) "action" = Some "clear".

(** Every cell the request visits is empty or missing. *)
Definition all_cells_empty (m : mode) (db : DB) (request : HttpRequest)
    : Prop :=
  ∀ c, c ∈ cells_of m db request → cell_value (POST request) c = "".

(** A stored row is displayed for class group [cg]: it is in scope, has a
    subject, non-zero ids, and is attached to [cg]. *)
Definition displayed_at (S : structure) (db : DB) (cg : Z) (tt : Timetable)
    (key value : string) : Prop :=
  tt ∈ Timetables db ∧ in_scope S tt ∧ cg ∈ class_groups tt ∧
  ∃ subj_id idx,
    subject_fk_id tt = Some subj_id ∧ idx ∈ [1; 2; 3] ∧
    key = indexed_key (base_key cg (day tt) (start_time tt) (end_time tt)) idx ∧
    value = Py.str subj_id +:+ "-" +:+ Py.str (teacher_id tt).

(** A clear for F2N and F2S over two lessons of theirs and one of a third
    class. *)
Definition clear_F2 : HttpRequest := post_request ["1"; "2"] "clear" [].

Definition save_empty_normal : HttpRequest := post_request ["1"] "save" [].

(** A GET of the builder page for F2N. *)
Definition get_F2N : HttpRequest :=
  {| method := "GET"; GET := {[ "classes" := ["1"] ]}; POST := ∅ |}.

Definition three_lessons : list Timetable :=
  [ lesson 1 1 "Mon" (Time 8 0) (Time 8 40) [1];
    lesson 2 2 "Tue" (Time 8 0) (Time 8 40) [2];
    lesson 3 1 "Sat" (Time 7 0) (Time 8 0) [1] ].

(** Every character of the string is a decimal digit. *)
Fixpoint all_digits (s : string) : bool :=
  match s with
  | EmptyString => true
  | String c s' => bool_decide (is_Some (Py.digit_value c)) && all_digits s'
  end.

(** ** The joint configuration handed to the templates (lines 1268-1292
    and 1943-1964) *)

(** [d[k] = v] on a [dict] in insertion order: a key that is already
    there keeps its place. *)
Fixpoint dict_set {V : Type} (k : string) (v : V) (d : list (string * V))
    : list (string * V) :=
  match d with
  | [] => [(k, v)]
  | (k', v') :: d' =>
      if bool_decide (k = k') then (k', v) :: d'
      else (k', v') :: dict_set k v d'
  end.

(** [members_by_tag]: the member ids of every active set with at least
    two members, under the set's name. *)
Definition members_by_tag (db : DB) : list (string * list Z) :=
  foldl (fun d group_set =>
           let ids := jcgs_class_groups group_set in
           if bool_decide (length ids < 2)%nat then d
           else dict_set (jcgs_name group_set) ids d)
        []
        (filter (fun g => jcgs_active g = true) (JointClassGroupSets db)).

Record joint_config := {
  joint_group_members : gmap string (list Z);
  joint_class_group_tags : gmap Z string
}.

(** The loop [for tag, ids in members_by_tag.items()]. *)
Definition joint_configuration (db : DB) : joint_config :=
  foldl (fun c item =>
           {| joint_group_members := <[item.1 := item.2]> (joint_group_members c);
              joint_class_group_tags :=
                foldl (fun tags cid => <[cid := item.1]> tags)
                      (joint_class_group_tags c) item.2 |})
        {| joint_group_members := ∅; joint_class_group_tags := ∅ |}
        (members_by_tag db).

(** ** The master timetables (lines 1311-1343 and 1982-2013) *)

(** The body of [for tt in tts]:
    [grid.setdefault(key, []).append(tt)] for every class group of the
    row. *)
Definition master_add (grid : gmap string (list Timetable)) (tt : Timetable)
    : gmap string (list Timetable) :=
  foldl (fun grid cg =>
           let key := base_key cg (day tt) (start_time tt) (end_time tt) in
           <[key := (default [] (grid !! key) ++ [tt])%list]> grid)
        grid (class_groups tt).

(** [grid] of a master view: the rows inside the structure, in table
    order, under the key of each of their class groups. *)
Definition master_grid (S : structure) (db : DB)
    : gmap string (list Timetable) :=
  foldl master_add ∅ (filter (in_scope S) (Timetables db)).

Definition timetable_master (db : DB) : gmap string (list Timetable) :=
  master_grid _fixed_timetable_structure db.

Definition remedial_timetable_master (db : DB)
    : gmap string (list Timetable) :=
  master_grid _fixed_remedial_structure db.

(** The active joint sets, in table order. *)
Definition active_sets (db : DB) : list JointClassGroupSet :=
  filter (fun g => jcgs_active g = true) (JointClassGroupSets db).

(** The rows a master grid holds under a key. *)
Definition master_cell (S : structure) (db : DB) (key : string)
    : list Timetable :=
  default [] (master_grid S db !! key).

(** ** The totals of [remedial_stats] (lines 150-215) *)

(** The counters of the page and of one teacher; amounts count
    hundredths. *)
Record counters := {
  c_total : Z;
  c_attended : Z;
  c_not_attended : Z;
  c_pending : Z;
  c_paid : Z;
  c_unpaid : Z;
  c_paid_amount : Z;
  c_unpaid_amount : Z
}.

Definition no_counts : counters :=
  {| c_total := 0; c_attended := 0; c_not_attended := 0; c_pending := 0;
     c_paid := 0; c_unpaid := 0; c_paid_amount := 0; c_unpaid_amount := 0 |}.

Definition set_total (n : Z) (c : counters) : counters :=
  {| c_total := n; c_attended := c_attended c;
     c_not_attended := c_not_attended c; c_pending := c_pending c;
     c_paid := c_paid c; c_unpaid := c_unpaid c;
     c_paid_amount := c_paid_amount c;
     c_unpaid_amount := c_unpaid_amount c |}.

(** [(agg["status"] or "Pending").strip().lower()] *)
Definition agg_st (a : agg) : string :=
  lower (Py.strip (or_str (default "" (agg_status a)) "Pending")).

(** [(agg["payment_status"] or "").strip().lower()] *)
Definition agg_pay (a : agg) : string :=
  lower (Py.strip (or_str (default "" (agg_payment_status a)) "")).

(** The classification of one logical lesson (lines 161-176 and
    200-215); [c_total] is left alone. *)
Definition count_agg (c : counters) (a : agg) : counters :=
  let st := agg_st a in
  let pay := agg_pay a in
  {| c_total := c_total c;
     c_attended :=
       if bool_decide (st = "attended") then c_attended c + 1
       else c_attended c;
     c_not_attended :=
       if bool_decide (st = "attended") then c_not_attended c
       else if bool_decide (st = "not attended") then c_not_attended c + 1
            else c_not_attended c;
     c_pending :=
       if bool_decide (st = "attended") then c_pending c
       else if bool_decide (st = "not attended") then c_pending c
            else c_pending c + 1;
     c_paid :=
       if bool_decide (pay = "paid") then c_paid c + 1 else c_paid c;
     c_unpaid :=
       if bool_decide (pay = "paid") then c_unpaid c
       else if bool_decide (pay = "unpaid") then c_unpaid c + 1
            else c_unpaid c;
     c_paid_amount := c_paid_amount c + agg_paid_amount a;
     c_unpaid_amount := c_unpaid_amount c + agg_unpaid_amount a |}.

(** [logical_map.values()], in some order; the totals do not depend on
    it. *)
Definition values {K A : Type} `{Countable K} (m : gmap K A) : list A :=
  (map_to_list m).*2.

(** The global totals: [total = len(logical_map)] and the loop over the
    values. *)
Definition remedial_totals (logical_map : gmap lkey agg) : counters :=
  set_total (Z.of_nat (size logical_map))
            (foldl count_agg no_counts (values logical_map)).

(** The body of the per-teacher loop: [setdefault] of the teacher's
    counters, one more lesson, and the same classification. *)
Definition count_teacher (per_teacher_counters : gmap Z counters) (a : agg)
    : gmap Z counters :=
  let tid := agg_teacher_id a in
  let c := default no_counts (per_teacher_counters !! tid) in
  <[tid := count_agg (set_total (c_total c + 1) c) a]> per_teacher_counters.

(** [per_teacher_counters] after the loop; the order of the list built
    from it is not part of the model. *)
Definition remedial_per_teacher (logical_map : gmap lkey agg)
    : gmap Z counters :=
  foldl count_teacher ∅ (values logical_map).

(** ** The counts of [deputy_normal_stats] (lines 322-339) *)

Record deputy_counts := {
  d_total : Z;
  d_attended : Z;
  d_not_attended : Z;
  d_pending : Z
}.

(** [sum(1 for s in l if str(s).lower() == v)] *)
Definition count_status (v : string) (l : list string) : Z :=
  Z.of_nat (length (filter (fun s => lower s = v) l)).

Definition deputy_totals (logical_map : gmap nkey string) : deputy_counts :=
  {| d_total := Z.of_nat (size logical_map);
     d_attended := count_status "attended" (values logical_map);
     d_not_attended := count_status "not attended" (values logical_map);
     d_pending := count_status "pending" (values logical_map) |}.

(** The body of the per-teacher loop over [logical_map.items()]. *)
Definition deputy_count_teacher (per_teacher_counters : gmap Z deputy_counts)
    (item : nkey * string) : gmap Z deputy_counts :=
  let teacher := item.1.1.1.1.1 in
  let status := item.2 in
  let c := default {| d_total := 0; d_attended := 0; d_not_attended := 0;
                      d_pending := 0 |}
                   (per_teacher_counters !! teacher) in
  <[teacher :=
      {| d_total := d_total c + 1;
         d_attended :=
           if bool_decide (lower status = "attended") then d_attended c + 1
           else d_attended c;
         d_not_attended :=
           if bool_decide (lower status = "attended") then d_not_attended c
           else if bool_decide (lower status = "not attended")
                then d_not_attended c + 1 else d_not_attended c;
         d_pending :=
           if bool_decide (lower status = "attended") then d_pending c
           else if bool_decide (lower status = "not attended")
                then d_pending c else d_pending c + 1 |}]>
    per_teacher_counters.

Definition deputy_per_teacher (logical_map : gmap nkey string)
    : gmap Z deputy_counts :=
  foldl deputy_count_teacher ∅ (map_to_list logical_map).

(** ** Vocabulary of the statistics statements *)

(** The record belongs to the logical lesson [k]. *)
Definition has_lkey (k : lkey) (rec : LessonRecord) : Prop :=
  lkey_of <$> lr_timetable rec = Some k.

Global Instance has_lkey_dec k rec : Decision (has_lkey k rec).
Proof. unfold has_lkey. apply _. Defined.

(** The sum of [f] over a list. *)
Definition sumZ {A : Type} (f : A → Z) (l : list A) : Z :=
  foldr (fun a s => f a + s) 0 l.

(** What a record adds to the paid and to the unpaid amount of its
    logical lesson. *)
Definition paid_part (rec : LessonRecord) : Z :=
  if bool_decide (lower (rec_payment rec) = "paid") then lr_amount rec else 0.

Definition unpaid_part (rec : LessonRecord) : Z :=
  if bool_decide (lower (rec_payment rec) = "paid") then 0
  else if bool_decide (lower (rec_payment rec) = "unpaid")
       then lr_amount rec else 0.

(** The records that have a timetable row. *)
Definition with_timetable (lessons : list LessonRecord) : list LessonRecord :=
  filter (fun rec => is_Some (lr_timetable rec)) lessons.

(** The logical-lesson keys of the records that have a timetable row. *)
Definition lesson_keys (lessons : list LessonRecord) : list lkey :=
  omap (fun rec => lkey_of <$> lr_timetable rec) lessons.

(** What one logical lesson adds to a counter of its teacher. *)
Definition part (p : counters → Z) (a : agg) : Z :=
  p (count_agg (set_total 1 no_counts) a).

(** What one logical lesson adds to a counter of a teacher in the deputy
    view. *)
Definition deputy_part (p : deputy_counts → Z) (status : string) : Z :=
  p {| d_total := 1;
       d_attended := if bool_decide (lower status = "attended") then 1 else 0;
       d_not_attended :=
         if bool_decide (lower status = "attended") then 0
         else if bool_decide (lower status = "not attended") then 1 else 0;
       d_pending :=
         if bool_decide (lower status = "attended") then 0
         else if bool_decide (lower status = "not attended") then 0 else 1 |}.

(** A record of the lesson of teacher 1, subject 1, Mon 16:30, for the
    given class group. *)
Definition remedial_record (tt_pk cg : Z) (status payment : string)
    (amount : Z) : LessonRecord :=
  {| lr_timetable :=
       Some (lesson tt_pk 1 "Mon" (Time 16 30) (Time 17 30) [cg]);
     lr_status := status; lr_payment_status := payment;
     lr_amount := amount |}.

(** ** Weeks, lesson records, slots and attendance ([lessons/models.py]) *)

(** [Week]; dates are day numbers.  The week's [number] plays no part in
    the views below. *)
Record Week := {
  week_pk : Z;
  start_date : Z;
  end_date : Z
}.

(** A row of the [LessonRecord] table; [lrr_amount] counts hundredths. *)
Record LessonRecordRow := {
  lrr_pk : Z;
  lrr_timetable_id : Z;
  lrr_week_id : Z;
  lrr_created_by_id : Z;
  lrr_teacher_id : option Z;
  lrr_status : string;
  lrr_payment_status : string;
  lrr_amount : Z
}.

(** A row of the [NormalLessonSlot] table. *)
Record SlotRow := {
  srow_pk : Z;
  srow_slot : NormalLessonSlot
}.

(** A row of the [NormalLessonAttendance] table. *)
Record AttendanceRow := {
  arow_pk : Z;
  arow_slot_id : Z;
  arow_date : Z;
  arow_status : string
}.

Global Instance NormalLessonSlot_eq_dec : EqDecision NormalLessonSlot.
Proof. solve_decision. Defined.

(** The tables of the lesson views, each in primary-key order with its
    auto-increment counter. *)
Record Lessons := {
  Weeks : list Week;
  LessonRecords : list LessonRecordRow;
  next_record_pk : Z;
  NormalLessonSlots : list SlotRow;
  next_slot_pk : Z;
  NormalLessonAttendances : list AttendanceRow;
  next_attendance_pk : Z
}.

(** [Model.objects.get_or_create] with lookup fields and defaults: the
    rows whose lookup fields equal [k] are fetched; one row is returned as
    it is, no row makes the table gain [new], several rows raise
    [MultipleObjectsReturned] ([None]).  The flag is [created]. *)
Definition get_or_create {A K : Type} `{EqDecision K} (key : A → K) (k : K)
    (new : A) (table : list A) : option (list A * A * bool) :=
  match filter (fun row => key row = k) table with
  | [] => Some ((table ++ [new])%list, new, true)
  | [row] => Some (table, row, false)
  | _ => None
  end.

(** [Week.objects.get(id=week_id)] for a submitted string.  The outer
    [None] is an uncaught exception: [ValueError] for a string that is not
    a number (the field converts with [int]), or several rows; the inner
    [None] is [Week.DoesNotExist], which the views catch. *)
Definition Week_get (ls : Lessons) (week_id : string)
    : option (option Week) :=
  i ← Py.int week_id;
  match filter (fun w => week_pk w = i) (Weeks ls) with
  | [] => Some None
  | [w] => Some (Some w)
  | _ => None
  end.

(** ** [generate_remedial_week_lessons] (lines 2016-2065) *)

(** The lookup fields of a lesson record: (timetable, week). *)
Definition record_key (r : LessonRecordRow) : Z * Z :=
  (lrr_timetable_id r, lrr_week_id r).

(** The record [get_or_create] inserts for a timetable row: the defaults
    of the call and of the model (Pending, Unpaid, 400.00). *)
Definition new_record (ls : Lessons) (tt : Timetable) (w : Week)
    : LessonRecordRow :=
  {| lrr_pk := next_record_pk ls; lrr_timetable_id := pk tt;
     lrr_week_id := week_pk w; lrr_created_by_id := teacher_id tt;
     lrr_teacher_id := Some (teacher_id tt); lrr_status := "Pending";
     lrr_payment_status := "Unpaid"; lrr_amount := 40000 |}.

Definition set_LessonRecords (ls : Lessons) (rows : list LessonRecordRow)
    (next : Z) : Lessons :=
  {| Weeks := Weeks ls; LessonRecords := rows; next_record_pk := next;
     NormalLessonSlots := NormalLessonSlots ls;
     next_slot_pk := next_slot_pk ls;
     NormalLessonAttendances := NormalLessonAttendances ls;
     next_attendance_pk := next_attendance_pk ls |}.

(** The body of [for tt in timetables]; [inr] when [get_or_create]
    raises, with the state the exception leaves behind. *)
Definition generate_record (w : Week) (st : Lessons * Z) (tt : Timetable)
    : (Lessons * Z) + (Lessons * Z) :=
  let '(ls, created_count) := st in
  match get_or_create record_key (pk tt, week_pk w) (new_record ls tt w)
          (LessonRecords ls) with
  | None => inr st
  | Some (rows, obj, created) =>
      inl (if created
           then (set_LessonRecords ls rows (next_record_pk ls + 1),
                 created_count + 1)
           else (ls, created_count))
  end.

(** A loop whose body may raise: the first [inr] ends it. *)
Fixpoint for_each {St A : Type} (body : St → A → St + St) (st : St)
    (l : list A) : St + St :=
  match l with
  | [] => inl st
  | x :: l' =>
      match body st x with
      | inl st' => for_each body st' l'
      | inr st' => inr st'
      end
  end.

(** What a generation view leaves behind: the page with [selected_week]
    and [created_att], or an uncaught exception. *)
Inductive generation :=
| GenerationPage (ls : Lessons) (selected_week : option Week)
                 (created_att : option Z)
| GenerationError (ls : Lessons).

(** The common frame of the two generation views: the week is looked up
    for a POST that names one, and [run] is the generation proper. *)
Definition generation_view
    (run : Week → Lessons → (Lessons * Z) + (Lessons * Z))
    (ls : Lessons) (request : HttpRequest) : generation :=
  if bool_decide (method request = "POST") then
    match get (POST request) "week" with
    | None => GenerationPage ls None (Some 0)
    | Some week_id =>
        if bool_decide (week_id = "") then GenerationPage ls None (Some 0)
        else match Week_get ls week_id with
             | None => GenerationError ls
             | Some None => GenerationPage ls None (Some 0)
             | Some (Some selected_week) =>
                 match run selected_week ls with
                 | inl (ls', created_count) =>
                     GenerationPage ls' (Some selected_week)
                                    (Some created_count)
                 | inr (ls', _) => GenerationError ls'
                 end
             end
    end
  else GenerationPage ls None None.

Definition generate_remedial_week_lessons (db : DB)
    : Lessons → HttpRequest → generation :=
  generation_view
    (fun selected_week ls =>
       for_each (generate_record selected_week) (ls, 0) (Timetables db)).

(** ** [generate_week_lessons] (lines 1346-1427) *)

(** The lookup fields of the slot of a timetable row and a class group. *)
Definition slot_of (tt : Timetable) (subj_id cg : Z) : NormalLessonSlot :=
  {| slot_day := day tt; slot_start_time := start_time tt;
     slot_end_time := end_time tt; slot_class_group := cg;
     slot_subject_fk_id := subj_id; slot_teacher_id := teacher_id tt |}.

Definition set_NormalLessonSlots (ls : Lessons) (rows : list SlotRow)
    (next : Z) : Lessons :=
  {| Weeks := Weeks ls; LessonRecords := LessonRecords ls;
     next_record_pk := next_record_pk ls;
     NormalLessonSlots := rows; next_slot_pk := next;
     NormalLessonAttendances := NormalLessonAttendances ls;
     next_attendance_pk := next_attendance_pk ls |}.

Definition set_NormalLessonAttendances (ls : Lessons)
    (rows : list AttendanceRow) (next : Z) : Lessons :=
  {| Weeks := Weeks ls; LessonRecords := LessonRecords ls;
     next_record_pk := next_record_pk ls;
     NormalLessonSlots := NormalLessonSlots ls;
     next_slot_pk := next_slot_pk ls;
     NormalLessonAttendances := rows; next_attendance_pk := next |}.

(** The body of [for cg in tt.class_groups.all()].  A slot needs a
    subject, so for a row without one the insert, and with it the view,
    fails. *)
Definition generate_slot (tt : Timetable) (st : Lessons * option SlotRow)
    (cg : Z) : (Lessons * option SlotRow) + (Lessons * option SlotRow) :=
  let '(ls, first_slot) := st in
  match subject_fk_id tt with
  | None => inr st
  | Some subj_id =>
      match get_or_create srow_slot (slot_of tt subj_id cg)
              {| srow_pk := next_slot_pk ls;
                 srow_slot := slot_of tt subj_id cg |}
              (NormalLessonSlots ls) with
      | None => inr st
      | Some (rows, slot, created) =>
          inl (if created
               then set_NormalLessonSlots ls rows (next_slot_pk ls + 1)
               else ls,
               match first_slot with
               | None => Some slot
               | Some first => Some first
               end)
      end
  end.

(** The lookup fields of an attendance: (slot, date). *)
Definition attendance_key (a : AttendanceRow) : Z * Z :=
  (arow_slot_id a, arow_date a).

(** The body of [for tt in tts]. *)
Definition generate_attendance (w : Week) (st : Lessons * Z) (tt : Timetable)
    : (Lessons * Z) + (Lessons * Z) :=
  let '(ls, created_count) := st in
  match for_each (generate_slot tt) (ls, None) (class_groups tt) with
  | inr (ls1, _) => inr (ls1, created_count)
  | inl (ls1, None) => inl (ls1, created_count)
  | inl (ls1, Some first_slot) =>
      match get_or_create attendance_key (srow_pk first_slot, start_date w)
              {| arow_pk := next_attendance_pk ls1;
                 arow_slot_id := srow_pk first_slot;
                 arow_date := start_date w; arow_status := "Pending" |}
              (NormalLessonAttendances ls1) with
      | None => inr (ls1, created_count)
      | Some (rows, att, created) =>
          inl (if created
               then (set_NormalLessonAttendances ls1 rows
                       (next_attendance_pk ls1 + 1),
                     created_count + 1)
               else (ls1, created_count))
      end
  end.

Definition generate_week_lessons (db : DB)
    : Lessons → HttpRequest → generation :=
  generation_view
    (fun selected_week ls =>
       for_each (generate_attendance selected_week) (ls, 0)
         (filter (in_scope _fixed_timetable_structure) (Timetables db))).

(** ** Vocabulary of the generation statements *)

(** The records of a timetable row in a week. *)
Definition records_of (ls : Lessons) (tt_pk : Z) (w : Week)
    : list LessonRecordRow :=
  filter (fun r => record_key r = (tt_pk, week_pk w)) (LessonRecords ls).


(** The slot rows with the given lookup fields. *)
Definition slots_of (ls : Lessons) (slot : NormalLessonSlot) : list SlotRow :=
  filter (fun r => srow_slot r = slot) (NormalLessonSlots ls).

(** The attendance rows of a slot on a date. *)
Definition attendances_of (ls : Lessons) (slot_pk date : Z)
    : list AttendanceRow :=
  filter (fun a => attendance_key a = (slot_pk, date))
         (NormalLessonAttendances ls).

(** The timetable row has its slots and its attendance for the week: one
    slot per class group, and one attendance on the week's first day for
    the slot of the row's first class group. *)
Definition covered (ls : Lessons) (w : Week) (tt : Timetable) : Prop :=
  class_groups tt = [] ∨
  ∃ subj_id,
    subject_fk_id tt = Some subj_id
    ∧ (∀ cg, cg ∈ class_groups tt →
             length (slots_of ls (slot_of tt subj_id cg)) = 1%nat)
    ∧ ∃ cg first_slot,
        head (class_groups tt) = Some cg
        ∧ slots_of ls (slot_of tt subj_id cg) = [first_slot]
        ∧ length (attendances_of ls (srow_pk first_slot) (start_date w))
          = 1%nat.

(** What is found once stays as it is. *)
Definition grows (ls ls' : Lessons) : Prop :=
  Weeks ls' = Weeks ls
  ∧ LessonRecords ls' = LessonRecords ls
  ∧ (∀ slot, slots_of ls slot ≠ [] → slots_of ls' slot = slots_of ls slot)
  ∧ (∀ slot_pk date, attendances_of ls slot_pk date ≠ [] →
       attendances_of ls' slot_pk date = attendances_of ls slot_pk date).

(** One week and a POST that selects it. *)
Definition term : Lessons :=
  {| Weeks := [ {| week_pk := 1; start_date := 100; end_date := 104 |} ];
     LessonRecords := []; next_record_pk := 1;
     NormalLessonSlots := []; next_slot_pk := 1;
     NormalLessonAttendances := []; next_attendance_pk := 1 |}.

Definition generate_week_1 : HttpRequest :=
  {| method := "POST"; GET := ∅; POST := {[ "week" := ["1"] ]} |}.

(** ** The teacher timetables (lines 1430-1576 and 1579-1726) *)

(** [rank] of the two views: no [strip], unlike [status_rank]. *)
Definition rank (val : string) : Z :=
  let val_l := lower val in
  if bool_decide (val_l = "attended") then 3
  else if bool_decide (val_l = "not attended") then 2
  else if bool_decide (val_l = "pending") then 1
  else 0.

(** [l.index(x)]; [None] stands for [ValueError]. *)
Definition index {A : Type} `{EqDecision A} (x : A) (l : list A)
    : option nat :=
  fst <$> list_find (fun y => y = x) l.

(** [{d: [[] for _ in slots] for d in days}] *)
Definition empty_grid {R : Type} (S : structure)
    : gmap string (list (list R)) :=
  list_to_map ((fun d => (d, replicate (length S.2) [])) <$> S.1).

(** [grid[d][time_index].append(x)].  A day that is no key of the grid
    gets nothing: the remedial view skips such a row, and the query of the
    normal view leaves none. *)
Definition grid_append {R : Type} (d : string) (time_index : nat) (x : R)
    (grid : gmap string (list (list R))) : gmap string (list (list R)) :=
  match grid !! d with
  | Some row =>
      <[d := alter (fun cell => (cell ++ [x])%list) time_index row]> grid
  | None => grid
  end.

(** The loop that files every item under its day and the index of its
    start time; an item whose start time is no slot start is skipped. *)
Definition build_grid {R : Type} (S : structure) (day_of : R → string)
    (start_of : R → time) (items : list R) : gmap string (list (list R)) :=
  foldl (fun grid x =>
           match index (start_of x) (fst <$> S.2) with
           | Some time_index => grid_append (day_of x) time_index x grid
           | None => grid
           end)
        (empty_grid S) items.

(** [grid[d][idx]] *)
Definition grid_cell {R : Type} (grid : gmap string (list (list R)))
    (d : string) (idx : nat) : list R :=
  default [] (grid !! d ≫= (fun row => row !! idx)).

(** One step of the [status_map] loop: the stripped status replaces the
    stored one when there is none or when it ranks higher. *)
Definition status_map_update {K : Type} `{Countable K}
    (status_map : gmap K string) (entry : K * string) : gmap K string :=
  let new_status := Py.strip (or_str entry.2 "Pending") in
  match status_map !! entry.1 with
  | None => <[entry.1 := new_status]> status_map
  | Some current =>
      if bool_decide (rank current < rank new_status)
      then <[entry.1 := new_status]> status_map
      else status_map
  end.

(** The loop over the items of a cell that computes
    [cell_status_rank]. *)
Definition cell_status_rank {R K : Type} `{Countable K}
    (status_map : gmap K string) (key : R → K) (cell : list R) : Z :=
  foldl (fun r x =>
           match status_map !! key x with
           | None => r
           | Some st_val =>
               if bool_decide (st_val = "") then r
               else
                 let st_l := lower st_val in
                 if bool_decide (st_l = "attended") then Z.max r 3
                 else if bool_decide (st_l = "not attended") then Z.max r 2
                 else if bool_decide (st_l = "pending") then Z.max r 1
                 else r
           end)
        0 cell.

(** The colour of one cell. *)
Definition cell_colour {R K : Type} `{Countable K} (selected_week : bool)
    (status_map : gmap K string) (key : R → K) (cell : list R) : string :=
  match cell with
  | [] => "grey"
  | _ :: _ =>
      if negb selected_week then "green"
      else
        let r := cell_status_rank status_map key cell in
        if bool_decide (r = 3) then "green"
        else if bool_decide (r = 2) then "red"
        else "grey"
  end.

(** The loop [for day_code in days] that fills the colour grid. *)
Definition color_grid {R K : Type} `{Countable K} (S : structure)
    (selected_week : bool) (status_map : gmap K string) (key : R → K)
    (grid : gmap string (list (list R))) : gmap string (list string) :=
  foldl (fun colors day_code =>
           <[day_code :=
               (fun idx => cell_colour selected_week status_map key
                             (grid_cell grid day_code idx))
               <$> seq 0 (length S.2)]> colors)
        ∅ S.1.

(** What the two views hand to their templates. *)
Record timetable_page (R : Type) := {
  tp_selected_week : option Z;
  tp_grid : gmap string (list (list R));
  tp_color_grid : gmap string (list string)
}.
Arguments tp_selected_week {R} _.
Arguments tp_grid {R} _.
Arguments tp_color_grid {R} _.

(** [Week.objects.get(id=selected_week_id) if selected_week_id else None]
    with [Week.DoesNotExist] caught; the outer [None] is an uncaught
    exception. *)
Definition selected_week_of (ls : Lessons) (request : HttpRequest)
    : option (option Week) :=
  match get (GET request) "week" with
  | None => Some None
  | Some selected_week_id =>
      if bool_decide (selected_week_id = "") then Some None
      else Week_get ls selected_week_id
  end.

(** [rec.timetable]: the row the foreign key points to. *)
Definition Timetable_of (db : DB) (tt_pk : Z) : option Timetable :=
  snd <$> list_find (fun tt => pk tt = tt_pk) (Timetables db).

(** The remedial rows of a teacher ([remedial_qs]). *)
Definition remedial_qs (db : DB) (teacher : Z) : list Timetable :=
  filter (fun tt => teacher_id tt = teacher
                    ∧ in_scope _fixed_remedial_structure tt)
         (Timetables db).

(** The (key, status) pairs the [status_map] loop of the remedial view
    reads: the teacher's records of the week whose timetable row is in
    [remedial_qs]. *)
Definition remedial_entries (db : DB) (ls : Lessons) (teacher : Z) (w : Week)
    : list (lkey * string) :=
  omap (fun rec =>
          (fun row => (lkey_of row, lrr_status rec))
          <$> Timetable_of db (lrr_timetable_id rec))
       (filter (fun rec => lrr_teacher_id rec = Some teacher
                           ∧ lrr_week_id rec = week_pk w
                           ∧ lrr_timetable_id rec
                             ∈ pk <$> remedial_qs db teacher)
               (LessonRecords ls)).

(** [teacher_remedial_timetable] for the logged-in teacher; [None] is an
    uncaught exception. *)
Definition teacher_remedial_timetable (db : DB) (ls : Lessons) (teacher : Z)
    (request : HttpRequest) : option (timetable_page Timetable) :=
  selected_week ← selected_week_of ls request;
  let S := _fixed_remedial_structure in
  let remedial_grid := build_grid S day start_time (remedial_qs db teacher) in
  let status_map :=
    match selected_week with
    | None => ∅
    | Some w =>
        foldl status_map_update ∅ (remedial_entries db ls teacher w)
    end in
  Some {| tp_selected_week := week_pk <$> selected_week;
          tp_grid := remedial_grid;
          tp_color_grid :=
            color_grid S (bool_decide (is_Some selected_week)) status_map
                       lkey_of remedial_grid |}.

(** The normal slots of a teacher ([slots_qs]). *)
Definition slots_qs (ls : Lessons) (teacher : Z) : list SlotRow :=
  filter (fun r => slot_teacher_id (srow_slot r) = teacher
                   ∧ slot_day (srow_slot r) ∈ _fixed_timetable_structure.1
                   ∧ slot_start_time (srow_slot r)
                     ∈ fst <$> _fixed_timetable_structure.2)
         (NormalLessonSlots ls).

(** Key of the normal status map: (day, start, end, subject). *)
Definition skey : Type := string * time * time * Z.

Definition skey_of (r : SlotRow) : skey :=
  (slot_day (srow_slot r), slot_start_time (srow_slot r),
   slot_end_time (srow_slot r), slot_subject_fk_id (srow_slot r)).

(** [att.slot]: the slot row the foreign key points to. *)
Definition Slot_of (ls : Lessons) (slot_pk : Z) : option SlotRow :=
  snd <$> list_find (fun r => srow_pk r = slot_pk) (NormalLessonSlots ls).

(** The (key, status) pairs the [status_map] loop of the normal view
    reads: the attendance of the teacher's slots dated inside the week. *)
Definition normal_entries (ls : Lessons) (teacher : Z) (w : Week)
    : list (skey * string) :=
  let slot_ids := srow_pk <$> slots_qs ls teacher in
  if bool_decide (slot_ids = []) then []
  else
    omap (fun att =>
            (fun s => (skey_of s, arow_status att))
            <$> Slot_of ls (arow_slot_id att))
         (filter (fun att => arow_slot_id att ∈ slot_ids
                             ∧ start_date w ≤ arow_date att
                             ∧ arow_date att ≤ end_date w)
                 (NormalLessonAttendances ls)).

(** [teacher_normal_timetable] for the logged-in teacher. *)
Definition teacher_normal_timetable (ls : Lessons) (teacher : Z)
    (request : HttpRequest) : option (timetable_page SlotRow) :=
  selected_week ← selected_week_of ls request;
  let S := _fixed_timetable_structure in
  let normal_timetable_grid :=
    build_grid S (fun r => slot_day (srow_slot r))
               (fun r => slot_start_time (srow_slot r))
               (slots_qs ls teacher) in
  let status_map :=
    match selected_week with
    | None => ∅
    | Some w => foldl status_map_update ∅ (normal_entries ls teacher w)
    end in
  Some {| tp_selected_week := week_pk <$> selected_week;
          tp_grid := normal_timetable_grid;
          tp_color_grid :=
            color_grid S (bool_decide (is_Some selected_week)) status_map
                       skey_of normal_timetable_grid |}.

(** ** Vocabulary of the colour statements *)

(** Some item of the cell has, among the entries of its logical lesson,
    one whose stripped status has rank [n]. *)
Definition has_rank {R K : Type} (key : R → K) (entries : list (K * string))
    (cell : list R) (n : Z) : Prop :=
  ∃ x e, x ∈ cell ∧ e ∈ entries ∧ e.1 = key x
         ∧ rank (Py.strip (or_str e.2 "Pending")) = n.

(** Every day of the structure has a row with one cell per slot. *)
Definition shaped {R : Type} (S : structure)
    (grid : gmap string (list (list R))) : Prop :=
  ∀ d, d ∈ S.1 → ∃ row, grid !! d = Some row ∧ length row = length S.2.

(** The stripped status an entry offers to the status map. *)
Definition entry_status {K : Type} (e : K * string) : string :=
  Py.strip (or_str e.2 "Pending").

(** What a colour means for a cell, given whether a week is selected and
    the entries read for it: green for a cell with a lesson when no week
    is selected or one of its lessons has an entry of rank 3, red when a
    week is selected and the best entry has rank 2, grey otherwise. *)
Definition colour_means {R K : Type} (key : R → K) (selected_week : bool)
    (entries : list (K * string)) (cell : list R) (colour : string) : Prop :=
  (colour = "green" ↔
   cell ≠ [] ∧ (selected_week = false ∨ has_rank key entries cell 3))
  ∧ (colour = "red" ↔
     cell ≠ [] ∧ selected_week = true ∧ ¬ has_rank key entries cell 3
     ∧ has_rank key entries cell 2)
  ∧ (colour = "green" ∨ colour = "red" ∨ colour = "grey").

(** The colour shown for day [d] and slot index [idx]. *)
Definition colour_at (colors : gmap string (list string)) (d : string)
    (idx : nat) : option string :=
  colors !! d ≫= (fun row => row !! idx).

(** Teacher 1 has a remedial lesson on Mon 16:30 with two class groups'
    rows and one on Tue 16:30; week 1 has a Not Attended record for the
    first row, an Attended one for the second and none for Tuesday. *)
Definition remedial_rows : list Timetable :=
  [ lesson 1 1 "Mon" (Time 16 30) (Time 17 30) [1];
    lesson 2 1 "Mon" (Time 16 30) (Time 17 30) [2];
    lesson 3 2 "Tue" (Time 16 30) (Time 17 30) [1] ].

Definition marked_term : Lessons :=
  {| Weeks := [ {| week_pk := 1; start_date := 100; end_date := 104 |} ];
     LessonRecords :=
       [ {| lrr_pk := 1; lrr_timetable_id := 1; lrr_week_id := 1;
            lrr_created_by_id := 1; lrr_teacher_id := Some 1;
            lrr_status := "Not Attended"; lrr_payment_status := "Unpaid";
            lrr_amount := 40000 |};
         {| lrr_pk := 2; lrr_timetable_id := 2; lrr_week_id := 1;
            lrr_created_by_id := 1; lrr_teacher_id := Some 1;
            lrr_status := "Attended"; lrr_payment_status := "Unpaid";
            lrr_amount := 40000 |} ];
     next_record_pk := 3;
     NormalLessonSlots :=
       [ {| srow_pk := 1;
            srow_slot := {| slot_day := "Mon"; slot_start_time := Time 8 0;
                            slot_end_time := Time 8 40; slot_class_group := 1;
                            slot_subject_fk_id := 1; slot_teacher_id := 1 |} |} ];
     next_slot_pk := 2;
     NormalLessonAttendances :=
       [ {| arow_pk := 1; arow_slot_id := 1; arow_date := 100;
            arow_status := "not attended" |} ];
     next_attendance_pk := 2 |}.

Definition get_week_1 : HttpRequest :=
  {| method := "GET"; GET := {[ "week" := ["1"] ]}; POST := ∅ |}.

(** ** [admin_payments] (lines 2231-2284) *)

(** The columns of [Student] the view reads; amounts are in hundredths
    (the fields have two decimal places). *)
Record Student := {
  student_pk : Z;
  class_group_id : Z;
  term_fee : Z;
  amount_paid : Z
}.

(** The [balance] property of the model. *)
Definition balance (s : Student) : Z := term_fee s - amount_paid s.

(** [ClassGroup.objects.get(id=selected_class_id)] for a submitted
    string.  The outer [None] is an uncaught exception ([ValueError] for a
    string that is not a number, or several rows); the inner [None] is
    [ClassGroup.DoesNotExist], which the view catches. *)
Definition ClassGroup_get (db : DB) (selected_class_id : string)
    : option (option Z) :=
  i ← Py.int selected_class_id;
  match filter (fun c => c = i) (ClassGroup_ids db) with
  | [] => Some None
  | [c] => Some (Some c)
  | _ => None
  end.

(** [qs.aggregate(total=Sum(field))["total"]]: [None] over no rows. *)
Definition Sum {A : Type} (field : A → Z) (qs : list A) : option Z :=
  match qs with
  | [] => None
  | _ :: _ => Some (sumZ field qs)
  end.

(** [qs.count()] *)
Definition count {A : Type} (qs : list A) : Z := Z.of_nat (length qs).

(** One row of [class_groups.annotate(...)]. *)
Record class_stat := {
  cs_class_group : Z;
  cs_total_students : Z;
  cs_total_paid : option Z;
  cs_total_fees : option Z
}.

Definition annotate (students : list Student) (c : Z) : class_stat :=
  let of_class := filter (fun s => class_group_id s = c) students in
  {| cs_class_group := c;
     cs_total_students := count of_class;
     cs_total_paid := Sum amount_paid of_class;
     cs_total_fees := Sum term_fee of_class |}.

(** The context of the page; [all_class_groups] is its [class_groups]. *)
Record payments_page := {
  all_class_groups : list Z;
  students : list Student;
  selected_class_id : option string;
  selected_class_obj : option Z;
  total_students : Z;
  total_paid : Z;
  total_fees : Z;
  total_unpaid : Z;
  fully_paid : Z;
  unpaid : Z;
  partial : Z;
  class_stats : list class_stat
}.

(** [admin_payments]; [None] is an uncaught exception. *)
Definition admin_payments (db : DB) (Students : list Student)
    (request : HttpRequest) : option payments_page :=
  let selected_class_id := get (GET request) "class" in
  selected_class_obj ←
    match selected_class_id with
    | None => Some None
    | Some id =>
        if bool_decide (id = "") then Some None else ClassGroup_get db id
    end;
  let students :=
    match selected_class_obj with
    | Some c => filter (fun s => class_group_id s = c) Students
    | None => Students
    end in
  let total_paid := default 0 (Sum amount_paid students) in
  let total_fees := default 0 (Sum term_fee students) in
  let total_students := count students in
  let fully_paid :=
    count (filter (fun s => term_fee s ≤ amount_paid s) students) in
  let unpaid := count (filter (fun s => amount_paid s = 0) students) in
  Some {| all_class_groups := ClassGroup_ids db;
          students := students;
          selected_class_id := selected_class_id;
          selected_class_obj := selected_class_obj;
          total_students := total_students;
          total_paid := total_paid;
          total_fees := total_fees;
          total_unpaid := total_fees - total_paid;
          fully_paid := fully_paid;
          unpaid := unpaid;
          partial := total_students - fully_paid - unpaid;
          class_stats := annotate Students <$> ClassGroup_ids db |}.

(** Three students of class 1 and one of class 2: one has paid in full,
    one a part, two nothing. *)
Definition four_students : list Student :=
  [ {| student_pk := 1; class_group_id := 1; term_fee := 150000;
       amount_paid := 150000 |};
    {| student_pk := 2; class_group_id := 1; term_fee := 150000;
       amount_paid := 50000 |};
    {| student_pk := 3; class_group_id := 1; term_fee := 150000;
       amount_paid := 0 |};
    {| student_pk := 4; class_group_id := 2; term_fee := 150000;
       amount_paid := 0 |} ].

Definition get_class (c : string) : HttpRequest :=
  {| method := "GET"; GET := {[ "class" := [c] ]}; POST := ∅ |}.

Definition get_plain : HttpRequest :=
  {| method := "GET"; GET := ∅; POST := ∅ |}.

(** * Proofs *)

(** Closes a decidable closed goal by evaluating its decision procedure. *)
Ltac compute_decide :=
  match goal with
  | |- ?P => apply (bool_decide_unpack P); vm_compute; exact I
  end.

(** ** Unfolding the views *)

Lemma mapM_all_None {A B} (f : A → option B) (l : list A) :
  (∀ x, x ∈ l → f x = None) → default [] (mapM f l) = [].
Proof.
  destruct l as [|x l]; [done|]. intros H. simpl.
  rewrite (H x) by left. done.
Qed.

Lemma selected_class_ids_unparsable request :
  method request = "POST" →
  Forall (fun cid => Py.int cid = None)
         (getlist (POST request) "selected_classes") →
  selected_class_ids request = [].
Proof.
  intros Hm H. rewrite Forall_forall in H. unfold selected_class_ids.
  rewrite bool_decide_eq_true_2 by done.
  apply mapM_all_None. intros x Hx.
  apply list_elem_of_filter in Hx as [_ Hx]. by apply H.
Qed.

Lemma builder_view_no_selection m db request :
  selected_class_ids request = [] →
  builder_view m db request = Rendered db None ∅.
Proof.
  intros H. unfold builder_view, handle_action. rewrite H.
  rewrite (bool_decide_eq_false_2 (_ ∧ _)) by (intros [_ Hne]; by apply Hne).
  by rewrite bool_decide_eq_false_2 by (intros Hne; by apply Hne).
Qed.

Lemma builder_view_save m db request :
  is_save request →
  builder_view m db request =
  let ids := selected_class_ids request in
  let cgs := selected_class_groups db ids in
  match save m db (POST request) cgs with
  | inr db' => ServerError db'
  | inl (db', e) =>
      Rendered db' e (build_current (structure_of m) ids cgs db')
  end.
Proof.
  intros (Hm & Hids & Ha). unfold builder_view, handle_action.
  rewrite bool_decide_eq_true_2 by done. rewrite Ha.
  rewrite (bool_decide_eq_true_2 (selected_class_ids request ≠ [])) by done.
  by destruct m.
Qed.

(** C10. A POST whose selected-class list is empty, or holds no id that
    [int] accepts, is a silent no-op whatever its action and cells: the
    database is returned as it was, no error message is set and [current]
    is empty.  A POST with classes selected and an action that is not
    [save] (nor [clear], for the normal builder) changes nothing either but
    carries the unknown-action message. *)
Theorem empty_selection_is_silent (m : mode) (db : DB)
    (request : HttpRequest) :
  method request = "POST" →
  (Forall (fun cid => Py.int cid = None)
          (getlist (POST request) "selected_classes") →
   builder_view m db request = Rendered db None ∅)
  ∧ (selected_class_ids request ≠ [] →
     get (POST request) "action" ≠ Some "save" →
     (m = Normal → get (POST request) "action" ≠ Some "clear") →
     ∃ current,
       builder_view m db request =
       Rendered db (Some (msg_unknown_action m)) current).
Proof.
  intros Hm. split.
  - intros H. apply builder_view_no_selection.
    by apply selected_class_ids_unparsable.
  - intros Hids Hsave Hclear. unfold builder_view, handle_action.
    rewrite bool_decide_eq_true_2 by done.
    eexists.
    destruct m.
    + specialize (Hclear eq_refl).
      destruct (get (POST request) "action") as [a|] eqn:Ha; [|done].
      destruct (decide (a = "save")) as [->|Hs]; [done|].
      destruct (decide (a = "clear")) as [->|Hc]; [done|].
      repeat (done || match goal with
                      | |- context [match ?x with _ => _ end] =>
                          is_var x; destruct x
                      end).
    + destruct (get (POST request) "action") as [a|] eqn:Ha; [|done].
      destruct (decide (a = "save")) as [->|Hs]; [done|].
      repeat (done || match goal with
                      | |- context [match ?x with _ => _ end] =>
                          is_var x; destruct x
                      end).
Qed.

Lemma empty_selection_is_silent_witness :
  timetable_builder (school [] 1) save_without_classes
  = Rendered (school [] 1) None ∅
  ∧ remedial_timetable_builder (school [] 1) save_unparsable_classes
    = Rendered (school [] 1) None ∅
  ∧ timetable_builder (school [] 1) publish_separator_class
    = Rendered (school [] 1) None ∅
  ∧ ∃ current,
      remedial_timetable_builder (school [] 1) publish_request
      = Rendered (school [] 1) (Some (msg_unknown_action Remedial)) current.
Proof.
  split; [|split; [|split]].
  - apply (empty_selection_is_silent Normal (school [] 1)
             save_without_classes); [reflexivity|].
    compute_decide.
  - apply (empty_selection_is_silent Remedial (school [] 1)
             save_unparsable_classes); [reflexivity|].
    compute_decide.
  - apply (empty_selection_is_silent Normal (school [] 1)
             publish_separator_class); [reflexivity|].
    compute_decide.
  - apply (empty_selection_is_silent Remedial (school [] 1)
             publish_request); [reflexivity| | |].
    + compute_decide.
    + compute_decide.
    + discriminate.
Defined.

(** ** Evaluations *)

(** C5. Two accepted saves over different selections leave teacher 1 with
    Math and Physics in the same Monday 08:00-08:40 slot, a state in which
    [Timetable.clean] raises for the second row: the validation of a save
    looks at the submitted batch only. *)
Theorem saves_over_disjoint_selections_double_book :
  let db0 := school [] 1 in
  let math_F2N := lesson 1 1 "Mon" (Time 8 0) (Time 8 40) [1] in
  let physics_F2S := lesson 2 2 "Mon" (Time 8 0) (Time 8 40) [2] in
  one_subject_per_slot db0
  ∧ timetable_builder db0 save_math_F2N
    = Rendered (school [math_F2N] 2) None
               {[ "1_Mon_0800_0840_1" := "1-1" ]}
  ∧ timetable_builder (school [math_F2N] 2) save_physics_F2S
    = Rendered (school [math_F2N; physics_F2S] 3) None
               {[ "2_Mon_0800_0840_1" := "2-1" ]}
  ∧ ¬ one_subject_per_slot (school [math_F2N; physics_F2S] 3)
  ∧ Timetable_clean (school [math_F2N; physics_F2S] 3) physics_F2S = true.
Proof.
  repeat split.
  - intros t1 t2 H. by apply elem_of_nil in H.
  - intros H.
    specialize (H (lesson 1 1 "Mon" (Time 8 0) (Time 8 40) [1])
                  (lesson 2 2 "Mon" (Time 8 0) (Time 8 40) [2])).
    simpl in H. unshelve epose proof (H _ _ eq_refl eq_refl eq_refl eq_refl) as H'.
    + left.
    + right; left.
    + discriminate.
Qed.

(** C6. The normal lesson of F2N on Monday 08:00-08:40 lies inside the
    remedial scoping filter (Monday is a remedial day and 08:00 a remedial
    start time), and a remedial save for F2N deletes it. *)
Theorem remedial_save_deletes_normal_lesson :
  let row := lesson 1 1 "Mon" (Time 8 0) (Time 8 40) [1] in
  timetable_builder (school [] 1) save_math_F2N
  = Rendered (school [row] 2) None {[ "1_Mon_0800_0840_1" := "1-1" ]}
  ∧ in_scope _fixed_timetable_structure row
  ∧ in_scope _fixed_remedial_structure row
  ∧ remedial_timetable_builder (school [row] 2) save_empty_remedial
    = Rendered (school [] 2) None ∅.
Proof.
  intros row. split; [by vm_compute|]. split; [|split].
  - by apply (bool_decide_unpack (in_scope _fixed_timetable_structure row)).
  - by apply (bool_decide_unpack (in_scope _fixed_remedial_structure row)).
  - by vm_compute.
Qed.

(** C9. [deputy_normal_stats] keeps the status of the row visited last:
    for the two attendance rows of one joint lesson it reports Pending when
    the Attended row comes first, and Attended in the other order. *)
Theorem deputy_collapse_keeps_last_status :
  let key : nkey := (1, "Mon", Time 8 0, Time 8 40, 1) in
  deputy_logical_map [attendance 1 "Attended"; attendance 2 "Pending"]
  = {[ key := "Pending" ]}
  ∧ deputy_logical_map [attendance 2 "Pending"; attendance 1 "Attended"]
    = {[ key := "Attended" ]}
  ∧ status_rank "Pending" < status_rank "Attended".
Proof. repeat split; by vm_compute. Qed.

(** ** Loops with [break] and [defaultdict(set)] *)

Lemma for_break_hit {A} (check : A → option string) (l : list A) (x : A) :
  x ∈ l → is_Some (check x) → is_Some (for_break check l).
Proof.
  induction 1 as [x l|x y l _ IH]; intros Hx; simpl.
  - destruct Hx as [e ->]. by eexists.
  - destruct (check y); [by eexists|]. by apply IH.
Qed.

Lemma for_break_clean {A} (check : A → option string) (l : list A) :
  (∀ x, x ∈ l → check x = None) → for_break check l = None.
Proof.
  induction l as [|x l IH]; intros H; simpl; [done|].
  rewrite (H x) by left. apply IH. intros y Hy. apply H. by right.
Qed.

Section defaultdict.
Context {K : Type} `{EqDecision K}.
Implicit Types (d : list (K * gset Z)) (k : K) (x : Z).

Lemma dd_get_add d k k' x :
  dd_get k' (dd_add k x d)
  = if bool_decide (k = k') then {[ x ]} ∪ dd_get k' d else dd_get k' d.
Proof.
  induction d as [|[k0 s] d IH]; simpl.
  - destruct (decide (k = k')) as [->|Hne].
    + rewrite !bool_decide_eq_true_2 by done.
      by rewrite (right_id_L ∅ (∪)).
    + by rewrite !bool_decide_eq_false_2 by done.
  - destruct (decide (k = k0)) as [->|Hk0].
    + rewrite (bool_decide_eq_true_2 (k0 = k0)) by done. simpl.
      destruct (decide (k' = k0)) as [->|Hk'].
      * by rewrite !bool_decide_eq_true_2 by done.
      * by rewrite !bool_decide_eq_false_2 by done.
    + rewrite (bool_decide_eq_false_2 (k = k0)) by done. simpl.
      destruct (decide (k' = k0)) as [->|Hk'].
      * rewrite (bool_decide_eq_true_2 (k0 = k0)) by done.
        by rewrite bool_decide_eq_false_2 by done.
      * rewrite (bool_decide_eq_false_2 (k' = k0)) by done. apply IH.
Qed.

Lemma dd_keys_add d k x :
  (dd_add k x d).*1 = if bool_decide (k ∈ d.*1) then d.*1 else (d.*1 ++ [k])%list.
Proof.
  induction d as [|[k0 s] d IH]; [done|].
  cbn [dd_add]. destruct (decide (k = k0)) as [->|Hk].
  - rewrite (bool_decide_eq_true_2 (k0 = k0)) by done.
    rewrite !fmap_cons. cbn [fst].
    rewrite bool_decide_eq_true_2; [done|left].
  - rewrite (bool_decide_eq_false_2 (k = k0)) by done.
    rewrite !fmap_cons, IH. cbn [fst].
    destruct (decide (k ∈ d.*1)).
    + rewrite !bool_decide_eq_true_2; [done|by right|done].
    + rewrite !bool_decide_eq_false_2; [done| |done].
      rewrite elem_of_cons. intros [?|?]; done.
Qed.

Lemma dd_NoDup_add d k x : NoDup d.*1 → NoDup (dd_add k x d).*1.
Proof.
  intros H. rewrite dd_keys_add.
  destruct (decide (k ∈ d.*1)) as [Hk|Hk];
    [by rewrite bool_decide_eq_true_2|rewrite bool_decide_eq_false_2 by done].
  apply NoDup_app. split; [done|]. split; [|apply NoDup_singleton].
  intros y Hy ->%list_elem_of_singleton. done.
Qed.

Lemma dd_elem_of_get d k s : NoDup d.*1 → (k, s) ∈ d → dd_get k d = s.
Proof.
  induction d as [|[k0 s0] d IH]; intros Hnd Hin.
  - by apply elem_of_nil in Hin.
  - simpl in *. apply NoDup_cons in Hnd as [Hk0 Hnd].
    apply elem_of_cons in Hin as [[= <- <-]|Hin].
    + by rewrite bool_decide_eq_true_2.
    + rewrite bool_decide_eq_false_2; [by apply IH|].
      intros ->. apply Hk0. apply list_elem_of_fmap. by exists (k0, s).
Qed.

Lemma dd_get_elem_of d k x : x ∈ dd_get k d → (k, dd_get k d) ∈ d.
Proof.
  induction d as [|[k0 s0] d IH]; simpl.
  - intros H. by apply not_elem_of_empty in H.
  - destruct (decide (k = k0)) as [->|Hne].
    + rewrite bool_decide_eq_true_2 by done. left.
    + rewrite bool_decide_eq_false_2 by done. intros. right. by apply IH.
Qed.

Lemma dd_fill_get d (entries : list (K * Z)) k x :
  x ∈ dd_get k (dd_fill d entries) ↔ x ∈ dd_get k d ∨ (k, x) ∈ entries.
Proof.
  revert d. induction entries as [|[k0 x0] l IH]; intros d; simpl.
  - rewrite elem_of_nil. naive_solver.
  - unfold dd_fill in *. simpl. rewrite IH, dd_get_add, elem_of_cons.
    destruct (decide (k0 = k)) as [->|Hne].
    + rewrite bool_decide_eq_true_2 by done.
      rewrite elem_of_union, elem_of_singleton. naive_solver.
    + rewrite bool_decide_eq_false_2 by done. naive_solver.
Qed.

Lemma dd_fill_NoDup d (entries : list (K * Z)) :
  NoDup d.*1 → NoDup (dd_fill d entries).*1.
Proof.
  revert d. induction entries as [|e l IH]; intros d Hd; [done|].
  apply IH. by apply dd_NoDup_add.
Qed.

End defaultdict.

Lemma two_elements_size (s : gset Z) (x y : Z) :
  x ∈ s → y ∈ s → x ≠ y → (1 < size s)%nat.
Proof.
  intros Hx Hy Hne.
  destruct (decide (size s ≤ 1)%nat) as [Hle|]; [|lia].
  exfalso. apply Hne.
  assert (size s ≠ 0%nat).
  { rewrite size_non_empty_iff. set_solver. }
  apply (size_singleton_inv s); [lia|done..].
Qed.

(** ** The validation scan *)

Lemma parse_value_empty : parse_value "" = None.
Proof. reflexivity. Qed.

Lemma elem_of_assignments post cells (k : ckey) :
  k ∈ assignments post cells ↔
  ∃ cg d st et idx subj_id teacher,
    (cg, d, (st, et), idx) ∈ cells ∧
    assigned post (cg, d, (st, et), idx) subj_id teacher ∧
    k = (cg, d, st, et, subj_id, teacher).
Proof.
  unfold assignments, assigned. rewrite list_elem_of_omap. split.
  - intros ([[[cg d] [st et]] idx] & Hin & Hk).
    destruct (parse_value _) as [[s t]|] eqn:Hp; [|done].
    injection Hk as <-. by exists cg, d, st, et, idx, s, t.
  - intros (cg & d & st & et & idx & s & t & Hin & Hp & ->).
    exists (cg, d, (st, et), idx). by rewrite Hp.
Qed.

Lemma scan_blocks post cells s :
  let s' := foldl (scan_cell post) s cells in
  block_subjects s'
  = dd_fill (block_subjects s) (slot_entry <$> assignments post cells)
  ∧ block_classes s'
    = dd_fill (block_classes s) (block_entry <$> assignments post cells).
Proof.
  revert s. induction cells as [|c cells IH]; intros s; [done|].
  cbn [foldl]. destruct (IH (scan_cell post s c)) as [IH1 IH2].
  cbn zeta. rewrite IH1, IH2. clear IH IH1 IH2.
  unfold assignments. cbn [omap list_omap].
  destruct c as [[[cg d] [st et]] idx]. unfold scan_cell.
  destruct (decide (cell_value post (cg, d, (st, et), idx) = "")) as [He|He].
  - rewrite bool_decide_eq_true_2 by done. rewrite He, parse_value_empty.
    done.
  - rewrite bool_decide_eq_false_2 by done.
    destruct (parse_value _) as [[subj t]|]; done.
Qed.

Lemma scan_error_keeps post cells s :
  is_Some (sc_error s) → is_Some (sc_error (foldl (scan_cell post) s cells)).
Proof.
  revert s. induction cells as [|c cells IH]; intros s Hs; [done|].
  cbn [foldl]. apply IH. destruct c as [[[cg d] [st et]] idx].
  unfold scan_cell. destruct (bool_decide _); [done|].
  destruct (parse_value _) as [[subj t]|]; [done|]. by eexists.
Qed.

Lemma scan_error_parse post cells s :
  parse_error post cells →
  is_Some (sc_error (foldl (scan_cell post) s cells)).
Proof.
  intros (c & Hin & Hne & Hp). revert s.
  induction Hin as [c cells|c c' cells _ IH]; intros s; cbn [foldl].
  - apply scan_error_keeps. destruct c as [[[cg d] [st et]] idx].
    unfold scan_cell. rewrite bool_decide_eq_false_2 by done.
    rewrite Hp. by eexists.
  - by apply IH.
Qed.

Lemma scan_error_none post cells s :
  ¬ parse_error post cells →
  sc_error (foldl (scan_cell post) s cells) = sc_error s.
Proof.
  revert s. induction cells as [|c cells IH]; intros s Hp; [done|].
  cbn [foldl]. rewrite IH.
  - destruct c as [[[cg d] [st et]] idx]. unfold scan_cell.
    destruct (decide (cell_value post (cg, d, (st, et), idx) = "")) as [He|He].
    + by rewrite bool_decide_eq_true_2.
    + rewrite bool_decide_eq_false_2 by done.
      destruct (parse_value _) as [[subj t]|] eqn:Hv; [done|].
      destruct Hp. exists (cg, d, (st, et), idx). split; [left|done].
  - intros (c' & Hin & H). apply Hp. exists c'. split; [by right|done].
Qed.

(** [block_subjects] and [block_classes] after the scan hold what the
    parsable cells assign. *)
Lemma scan_block_subjects post cells (k : tkey) (subj_id : Z) :
  subj_id ∈ dd_get k (block_subjects (scan post cells)) ↔
  ∃ cg idx, (cg, k.1.1.2, (k.1.2, k.2), idx) ∈ cells ∧
            assigned post (cg, k.1.1.2, (k.1.2, k.2), idx) subj_id k.1.1.1.
Proof.
  unfold scan. destruct (scan_blocks post cells
    {| sc_error := None; block_classes := []; block_subjects := [] |})
    as [-> _].
  cbn [block_subjects]. rewrite dd_fill_get. cbn [dd_get].
  rewrite list_elem_of_fmap. destruct k as [[[t d] st] et]. cbn [fst snd].
  split.
  - intros [H|(key & Hk & Hin)]; [by apply not_elem_of_empty in H|].
    apply elem_of_assignments in Hin
      as (cg & d' & st' & et' & idx & s & t' & Hin & Ha & ->).
    cbn in Hk. injection Hk as -> -> -> -> ->. by exists cg, idx.
  - intros (cg & idx & Hin & Ha). right.
    exists (cg, d, st, et, subj_id, t). split; [done|].
    apply elem_of_assignments. by exists cg, d, st, et, idx, subj_id, t.
Qed.

Lemma scan_block_classes post cells (b : bkey) (cg : Z) :
  cg ∈ dd_get b (block_classes (scan post cells)) ↔ in_block post cells b cg.
Proof.
  unfold scan. destruct (scan_blocks post cells
    {| sc_error := None; block_classes := []; block_subjects := [] |})
    as [_ ->].
  cbn [block_classes]. rewrite dd_fill_get. cbn [dd_get].
  rewrite list_elem_of_fmap. destruct b as [[[[t d] st] et] subj].
  unfold in_block. split.
  - intros [H|(key & Hk & Hin)]; [by apply not_elem_of_empty in H|].
    apply elem_of_assignments in Hin
      as (cg' & d' & st' & et' & idx & s & t' & Hin & Ha & ->).
    cbn in Hk. injection Hk as -> -> -> -> -> ->. by exists idx.
  - intros (idx & Hin & Ha). right.
    exists (cg, d, st, et, subj, t). split; [done|].
    apply elem_of_assignments. by exists cg, d, st, et, idx, subj, t.
Qed.

Lemma scan_NoDup post cells :
  NoDup (block_subjects (scan post cells)).*1
  ∧ NoDup (block_classes (scan post cells)).*1.
Proof.
  unfold scan. destruct (scan_blocks post cells
    {| sc_error := None; block_classes := []; block_subjects := [] |})
    as [-> ->].
  split; apply dd_fill_NoDup; apply NoDup_nil_2.
Qed.

(** ** The two checks *)

Lemma size_two_elements (s : gset Z) :
  (1 < size s)%nat → ∃ x y, x ∈ s ∧ y ∈ s ∧ x ≠ y.
Proof.
  intros Hs. destruct (size_pos_elem_of s) as [x Hx]; [lia|].
  destruct (size_pos_elem_of (s ∖ {[ x ]})) as [y Hy].
  { rewrite size_difference by set_solver. rewrite size_singleton. lia. }
  exists x, y. set_solver.
Qed.

Lemma check_slot_hit m post cells :
  slot_conflict post cells →
  is_Some (for_break (check_slot m) (block_subjects (scan post cells))).
Proof.
  intros (cg1 & cg2 & d & st & et & i1 & i2 & s1 & s2 & t
          & Hin1 & Hin2 & Ha1 & Ha2 & Hne).
  set (k := (t, d, st, et) : tkey).
  assert (s1 ∈ dd_get k (block_subjects (scan post cells))) as H1.
  { apply scan_block_subjects. by exists cg1, i1. }
  assert (s2 ∈ dd_get k (block_subjects (scan post cells))) as H2.
  { apply scan_block_subjects. by exists cg2, i2. }
  eapply for_break_hit; [by eapply dd_get_elem_of|].
  unfold check_slot. cbn [snd].
  rewrite bool_decide_eq_true_2; [by eexists|].
  exact (two_elements_size _ _ _ H1 H2 Hne).
Qed.

Lemma check_slot_clean m post cells :
  ¬ slot_conflict post cells →
  for_break (check_slot m) (block_subjects (scan post cells)) = None.
Proof.
  intros Hno. apply for_break_clean. intros [k s] Hin.
  unfold check_slot. cbn [snd].
  destruct (decide (1 < size s)%nat) as [Hs|Hs];
    [|by rewrite bool_decide_eq_false_2].
  destruct Hno. apply size_two_elements in Hs as (x & y & Hx & Hy & Hne).
  rewrite <-(dd_elem_of_get _ k s) in Hx, Hy
    by (done || apply scan_NoDup).
  apply scan_block_subjects in Hx as (cg1 & i1 & Hin1 & Ha1).
  apply scan_block_subjects in Hy as (cg2 & i2 & Hin2 & Ha2).
  destruct k as [[[t d] st] et]. cbn [fst snd] in *.
  by exists cg1, cg2, d, st, et, i1, i2, x, y, t.
Qed.

(** The tag test of a block passes exactly when all its class groups map
    to one tag. *)
Lemma tags_one (ctt : gmap Z string) (class_ids : gset Z) :
  class_ids ≠ ∅ →
  let tags : gset (option string) := set_map (fun cid => ctt !! cid) class_ids in
  ¬ (size tags ≠ 1%nat ∨ None ∈ tags) ↔
  ∃ tag, ∀ cid, cid ∈ class_ids → ctt !! cid = Some tag.
Proof.
  intros Hne tags. split.
  - intros H.
    assert (size tags = 1%nat) as Hsz.
    { destruct (decide (size tags = 1%nat)); [done|]. destruct H. by left. }
    apply size_1_elem_of in Hsz as [o Ho].
    destruct o as [tag|].
    + exists tag. intros cid Hcid.
      assert (ctt !! cid ∈ tags) as Hin
        by (apply elem_of_map; by exists cid).
      rewrite Ho in Hin. by apply elem_of_singleton in Hin.
    + destruct H. right. rewrite Ho. by apply elem_of_singleton.
  - intros [tag Htag] [Hsz|Hnone].
    + apply Hsz. assert (tags = {[ Some tag ]}) as ->.
      { apply set_eq. intros o. rewrite elem_of_singleton.
        unfold tags. rewrite elem_of_map. split.
        - intros (cid & -> & Hcid). by apply Htag.
        - intros ->. apply set_choose_L in Hne as [cid Hcid].
          exists cid. by rewrite Htag. }
      apply size_singleton.
    + unfold tags in Hnone. apply elem_of_map in Hnone as (cid & Hc & Hcid).
      rewrite Htag in Hc by done. done.
Qed.

Lemma check_block_spec db post cells (b : bkey) (s : gset Z) :
  (b, s) ∈ block_classes (scan post cells) →
  check_block (joint_subject_ids db) (class_to_tag db) (b, s) = None ↔
  ((size s ≤ 1)%nat ∨ joint_ok db post cells b).
Proof.
  intros Hin.
  assert (dd_get b (block_classes (scan post cells)) = s) as Hs
    by (apply dd_elem_of_get; [apply scan_NoDup|done]).
  assert (∀ cg, cg ∈ s ↔ in_block post cells b cg) as Hmem.
  { intros cg. rewrite <-Hs. apply scan_block_classes. }
  unfold joint_ok. setoid_rewrite <-Hmem. clear Hmem Hs Hin.
  destruct b as [[[[t d] st] et] subj]. unfold check_block. cbn [snd].
  destruct (decide (size s ≤ 1)%nat) as [Hsz|Hsz].
  { rewrite bool_decide_eq_true_2 by done. split; [by left|done]. }
  rewrite bool_decide_eq_false_2 by done.
  destruct (decide (subj ∈ joint_subject_ids db)) as [Hj|Hj].
  2:{ rewrite bool_decide_eq_true_2 by done.
      split; [done|]. intros [?|[? _]]; done. }
  rewrite bool_decide_eq_false_2 by (intros H; by apply H).
  assert (s ≠ ∅) as Hne.
  { intros ->. rewrite size_empty in Hsz. lia. }
  pose proof (tags_one (class_to_tag db) s Hne) as Ht. cbn zeta in Ht.
  destruct (decide (size (set_map (C:=gset Z) (D:=gset (option string))
                            (fun cid => class_to_tag db !! cid) s) ≠ 1%nat
                    ∨ None ∈ (set_map (fun cid => class_to_tag db !! cid) s
                              : gset (option string)))) as [Hbad|Hgood].
  - rewrite bool_decide_eq_true_2 by done. split; [done|].
    intros [?|[_ Htag]]; [done|]. apply Ht in Htag. done.
  - rewrite bool_decide_eq_false_2 by done. split; [|done].
    intros _. right. split; [done|]. by apply Ht.
Qed.

Lemma check_block_hit db post cells :
  joint_violation db post cells →
  is_Some (for_break (check_block (joint_subject_ids db) (class_to_tag db))
                     (block_classes (scan post cells))).
Proof.
  intros (b & cg1 & cg2 & H1 & H2 & Hne & Hbad).
  apply scan_block_classes in H1, H2.
  assert ((b, dd_get b (block_classes (scan post cells)))
          ∈ block_classes (scan post cells)) as Hin
    by (by eapply dd_get_elem_of).
  eapply for_break_hit; [exact Hin|].
  destruct (check_block _ _ _) eqn:Hc; [by eexists|].
  apply (check_block_spec db post cells) in Hc as [Hsz|Hok]; [|done..].
  pose proof (two_elements_size _ _ _ H1 H2 Hne). lia.
Qed.

Lemma check_block_clean db post cells :
  ¬ joint_violation db post cells →
  for_break (check_block (joint_subject_ids db) (class_to_tag db))
            (block_classes (scan post cells)) = None.
Proof.
  intros Hno. apply for_break_clean. intros [b s] Hin.
  destruct (check_block _ _ _) eqn:Hc; [|done]. exfalso.
  destruct (decide (size s ≤ 1)%nat) as [Hsz|Hsz].
  { assert (check_block (joint_subject_ids db) (class_to_tag db) (b, s) = None)
      as Hn by (apply (check_block_spec db post cells); [done|by left]).
    congruence. }
  apply Hno. destruct (size_two_elements s) as (x & y & Hx & Hy & Hne); [lia|].
  assert (dd_get b (block_classes (scan post cells)) = s) as Hs
    by (apply dd_elem_of_get; [apply scan_NoDup|done]).
  exists b, x, y. rewrite <-!scan_block_classes, Hs.
  split; [done|]. split; [done|]. split; [done|].
  intros Hok.
  assert (check_block (joint_subject_ids db) (class_to_tag db) (b, s) = None)
    as Hn by (apply (check_block_spec db post cells); [done|by right]).
  congruence.
Qed.

(** A save is accepted exactly when the scan met no unparsable cell, no
    slot carries two subjects and every shared block is a configured joint
    lesson. *)
Lemma validate_None m db post cgs :
  let cells := grid (structure_of m) cgs in
  validate m db post cgs = None ↔
  ¬ parse_error post cells ∧ ¬ slot_conflict post cells
  ∧ ¬ joint_violation db post cells.
Proof.
  intros cells. unfold validate. fold cells. split.
  - intros H. split; [|split].
    + intros Hp. eapply scan_error_parse in Hp as [e He].
      unfold scan in H. by rewrite He in H.
    + intros Hs. apply (check_slot_hit m) in Hs as [e He].
      rewrite He in H. by destruct (sc_error _).
    + intros Hj. apply check_block_hit in Hj as [e He].
      rewrite He in H. destruct (sc_error _); [done|].
      by destruct (for_break (check_slot m) _).
  - intros (Hp & Hs & Hj). unfold scan at 1.
    rewrite scan_error_none by done. cbn [sc_error].
    rewrite check_slot_clean by done. by apply check_block_clean.
Qed.

(** C1. A save whose batch has a (teacher, day, start, end) slot with two
    different subject ids, or a block of more than one class group that is
    not a configured joint lesson (subject not an active joint subject, or
    class groups not all mapped to one joint-set tag), is answered with an
    error message and the database exactly as it was, in both builders. *)
Theorem conflicting_save_is_rejected (m : mode) (db : DB)
    (request : HttpRequest) :
  is_save request →
  slot_conflict (POST request) (cells_of m db request)
  ∨ joint_violation db (POST request) (cells_of m db request) →
  ∃ msg current,
    builder_view m db request = Rendered db (Some msg) current.
Proof.
  intros Hsave Hbad. rewrite builder_view_save by done. cbn zeta.
  unfold save.
  destruct (validate m db (POST request) _) as [e|] eqn:Hv; [by eexists _, _|].
  apply validate_None in Hv as (_ & Hs & Hj).
  destruct Hbad; done.
Qed.

Lemma conflicting_save_is_rejected_witness :
  (∃ msg current,
     timetable_builder (school [] 1) scenario_D
     = Rendered (school [] 1) (Some msg) current)
  ∧ (∃ msg current,
       remedial_timetable_builder
         (school_no_joint [lesson 1 2 "Sat" (Time 7 0) (Time 8 0) [1]] 2)
         (post_request ["1"; "2"] "save"
            [ ("cell_1_Mon_1630_1730_1", "1-1");
              ("cell_2_Mon_1630_1730_3", "1-1") ])
       = Rendered
           (school_no_joint [lesson 1 2 "Sat" (Time 7 0) (Time 8 0) [1]] 2)
           (Some msg) current).
Proof.
  split.
  - apply (conflicting_save_is_rejected Normal (school [] 1) scenario_D).
    + split; [reflexivity|]. split; [by vm_compute|by vm_compute].
    + left. exists 1, 1, "Mon", (Time 8 0), (Time 8 40), 1, 2, 1, 2, 1.
      split; [compute_decide|].
      split; [compute_decide|].
      split; [by vm_compute|]. split; [by vm_compute|lia].
  - apply (conflicting_save_is_rejected Remedial).
    + split; [reflexivity|]. split; [by vm_compute|by vm_compute].
    + right. exists (1, "Mon", Time 16 30, Time 17 30, 1), 1, 2.
      split; [exists 1; split;
              [compute_decide|by vm_compute]|].
      split; [exists 3; split;
              [compute_decide|by vm_compute]|].
      split; [lia|]. intros [Hj _]. vm_compute in Hj.
      discriminate Hj.
Defined.

(** ** The delete loop *)

Lemma filter_all {A} (P : A → Prop) `{∀ x, Decision (P x)} (l : list A) :
  (∀ x, x ∈ l → P x) → filter P l = l.
Proof.
  induction l as [|x l IH]; intros Hl; [done|].
  rewrite filter_cons_True by (apply Hl; left).
  f_equal. apply IH. intros y Hy. apply Hl. by right.
Qed.

Lemma filter_ext_in {A} (P Q : A → Prop) `{∀ x, Decision (P x)}
    `{∀ x, Decision (Q x)} (l : list A) :
  (∀ x, x ∈ l → P x ↔ Q x) → filter P l = filter Q l.
Proof.
  induction l as [|x l IH]; intros Hl; [done|].
  rewrite !filter_cons, IH by (intros y Hy; apply Hl; by right).
  destruct (decide (P x)) as [HP|HP], (decide (Q x)) as [HQ|HQ]; try done.
  - destruct HQ. by apply (Hl x); [left|].
  - destruct HP. by apply (Hl x); [left|].
Qed.

Lemma filter_none {A} (P : A → Prop) `{∀ x, Decision (P x)} (l : list A) :
  (∀ x, x ∈ l → ¬ P x) → filter P l = [].
Proof.
  induction l as [|x l IH]; intros Hl; [done|].
  rewrite filter_cons_False by (apply Hl; left).
  apply IH. intros y Hy. apply Hl. by right.
Qed.

Lemma set_Timetables_same db : set_Timetables db (Timetables db) = db.
Proof. by destruct db. Qed.

Lemma clear_rows_spec S cgs db :
  clear_rows S cgs db = set_Timetables db (kept_rows S cgs (Timetables db)).
Proof.
  unfold clear_rows, kept_rows. revert db.
  induction cgs as [|cg cgs IH]; intros db; cbn [foldl].
  - rewrite <-(set_Timetables_same db) at 1. f_equal.
    symmetry. apply filter_all.
    intros tt _ [_ H]. by apply Exists_nil in H.
  - rewrite IH. unfold set_Timetables. cbn. f_equal.
    unfold delete_scoped. rewrite list_filter_filter.
    apply list_filter_iff. intros tt. unfold selected_in_scope.
    rewrite Exists_cons. naive_solver.
Qed.

Lemma kept_rows_subseteq S cgs rows tt :
  tt ∈ kept_rows S cgs rows → tt ∈ rows.
Proof. unfold kept_rows. rewrite list_elem_of_filter. by intros [_ ?]. Qed.

Lemma kept_rows_idemp S cgs rows :
  kept_rows S cgs (kept_rows S cgs rows) = kept_rows S cgs rows.
Proof.
  unfold kept_rows. rewrite list_filter_filter.
  apply list_filter_iff. naive_solver.
Qed.

(** ** The recreate loop *)

Lemma add_rows_nil db : add_rows db [] = db.
Proof.
  destruct db. unfold add_rows. cbn. f_equal; [apply app_nil_r|lia].
Qed.

Lemma add_rows_app db rows1 rows2 :
  add_rows (add_rows db rows1) rows2 = add_rows db (rows1 ++ rows2).
Proof.
  unfold add_rows. cbn. f_equal; [by rewrite app_assoc|].
  rewrite length_app. lia.
Qed.

Lemma create_then_add db subj_id teacher d st et cg db' tt_pk :
  pks_fresh db →
  Timetable_create db subj_id teacher d st et = Some (db', tt_pk) →
  class_groups_add db' tt_pk cg
  = add_rows db [row_of_key (next_pk db) (cg, d, st, et, subj_id, teacher)].
Proof.
  intros Hfresh. unfold Timetable_create.
  destruct (bool_decide _); [|done]. intros [= <- <-].
  unfold class_groups_add, set_Timetables, add_rows. cbn. f_equal.
  rewrite fmap_app. f_equal.
  - rewrite <-(list_fmap_id (Timetables db)) at 2.
    apply list_fmap_ext. intros i tt Hi.
    rewrite bool_decide_eq_false_2; [done|].
    unfold pks_fresh in Hfresh. rewrite Forall_forall in Hfresh.
    apply list_elem_of_lookup_2 in Hi. apply Hfresh in Hi. lia.
  - cbn. by rewrite bool_decide_eq_true_2.
Qed.

Lemma rows_of_keys_length tt_pk keys :
  length (rows_of_keys tt_pk keys) = length keys.
Proof.
  revert tt_pk. induction keys as [|k keys IH]; intros p; [done|].
  cbn. by rewrite IH.
Qed.

Lemma rows_of_keys_pk tt_pk keys tt :
  tt ∈ rows_of_keys tt_pk keys →
  tt_pk ≤ pk tt < tt_pk + Z.of_nat (length keys).
Proof.
  revert tt_pk. induction keys as [|k keys IH]; intros p Hin.
  - by apply elem_of_nil in Hin.
  - cbn in Hin. apply elem_of_cons in Hin as [->|Hin].
    + destruct k as [[[[[cg d] st] et] s] t]. cbn. lia.
    + apply IH in Hin. cbn. lia.
Qed.

Lemma pks_fresh_add_rows db keys :
  pks_fresh db → pks_fresh (add_rows db (rows_of_keys (next_pk db) keys)).
Proof.
  unfold pks_fresh. rewrite !Forall_forall. intros H tt. cbn.
  rewrite elem_of_app, rows_of_keys_length. intros [Hin|Hin].
  - apply H in Hin. lia.
  - apply rows_of_keys_pk in Hin. lia.
Qed.

Lemma content_rows_of_keys tt_pk keys :
  content <$> rows_of_keys tt_pk keys = content_of_key <$> keys.
Proof.
  revert tt_pk. induction keys as [|k keys IH]; intros p; [done|].
  cbn. rewrite IH. by destruct k as [[[[[cg d] st] et] s] t].
Qed.

Lemma fk_ok_add_rows db rows k : fk_ok (add_rows db rows) k ↔ fk_ok db k.
Proof. by destruct k as [[[[[cg d] st] et] s] t]. Qed.

Lemma Timetable_create_fk db cg d st et subj_id teacher :
  is_Some (Timetable_create db subj_id teacher d st et)
  ↔ fk_ok db (cg, d, st, et, subj_id, teacher).
Proof.
  unfold Timetable_create, fk_ok.
  destruct (decide (subj_id ∈ Subject_ids db ∧ teacher ∈ Teacher_ids db)).
  - rewrite bool_decide_eq_true_2 by done. split; [done|by eexists].
  - rewrite bool_decide_eq_false_2 by done. split; [by intros [? ?]|done].
Qed.

(** The recreate loop in closed form: it inserts the rows of the first
    occurrences of the submitted keys, in visiting order, and raises at the
    first such key whose subject or teacher is missing, leaving the rows
    inserted before it. *)
Lemma create_rows_spec post cells s :
  pks_fresh (sv_db s) →
  let db := sv_db s in
  let news := first_occurrences (created_keys s) (assignments post cells) in
  match create_rows post cells s with
  | inl s' =>
      Forall (fk_ok db) news
      ∧ sv_db s' = add_rows db (rows_of_keys (next_pk db) news)
      ∧ (¬ parse_error post cells → sv_error s' = sv_error s)
  | inr db' =>
      ∃ ok k rest,
        news = (ok ++ k :: rest)%list ∧ Forall (fk_ok db) ok ∧ ¬ fk_ok db k
        ∧ db' = add_rows db (rows_of_keys (next_pk db) ok)
  end.
Proof.
  revert s. induction cells as [|c cells IH]; intros s Hfresh; cbn zeta.
  { cbn. split; [constructor|]. split; [by rewrite add_rows_nil|done]. }
  destruct c as [[[cg d] [st et]] idx].
  cbn [create_rows]. unfold create_cell, assignments.
  cbn [omap list_omap]. fold (assignments post cells).
  destruct (decide (cell_value post (cg, d, (st, et), idx) = "")) as [He|He].
  { rewrite bool_decide_eq_true_2 by done. rewrite He, parse_value_empty.
    specialize (IH s Hfresh). cbn zeta in IH.
    destruct (create_rows post cells s) as [s'|db']; [|done].
    destruct IH as (? & ? & Hpe). split; [done|]. split; [done|].
    intros Hn. apply Hpe. intros (c' & Hin & H'). apply Hn.
    exists c'. split; [by right|done]. }
  rewrite bool_decide_eq_false_2 by done.
  destruct (parse_value _) as [[subj t]|] eqn:Hp.
  2:{ set (s1 := {| sv_db := sv_db s; created_keys := created_keys s;
                    sv_error := Some msg_invalid |}).
      specialize (IH s1 Hfresh). cbn zeta in IH.
      destruct (create_rows post cells s1) as [s'|db']; [|done].
      destruct IH as (? & ? & Hpe). split; [done|]. split; [done|].
      intros Hn. destruct Hn. exists (cg, d, (st, et), idx).
      split; [left|done]. }
  cbn [first_occurrences].
  destruct (decide ((cg, d, st, et, subj, t) ∈ created_keys s)) as [Hk|Hk].
  { rewrite !bool_decide_eq_true_2 by done.
    specialize (IH s Hfresh). cbn zeta in IH.
    destruct (create_rows post cells s) as [s'|db']; [|done].
    destruct IH as (? & ? & Hpe). split; [done|]. split; [done|].
    intros Hn. apply Hpe. intros (c' & Hin & H'). apply Hn.
    exists c'. split; [by right|done]. }
  rewrite !bool_decide_eq_false_2 by done.
  destruct (Timetable_create (sv_db s) subj t d st et) as [[db1 p]|] eqn:Hc.
  2:{ eexists [], (cg, d, st, et, subj, t), _. split; [done|].
      split; [constructor|]. split; [|by rewrite add_rows_nil].
      rewrite <-Timetable_create_fk, Hc. by intros [? ?]. }
  assert (fk_ok (sv_db s) (cg, d, st, et, subj, t)) as Hfk
    by (rewrite <-Timetable_create_fk, Hc; by eexists).
  rewrite (create_then_add _ _ _ _ _ _ cg _ _ Hfresh Hc).
  set (k := (cg, d, st, et, subj, t)).
  match goal with
  | |- context [create_rows post cells ?x] => set (s1 := x)
  end.
  assert (pks_fresh (sv_db s1)) as Hfresh1.
  { exact (pks_fresh_add_rows (sv_db s) (k :: nil) Hfresh). }
  specialize (IH s1 Hfresh1). cbn zeta in IH.
  cbn [sv_db created_keys sv_error s1] in IH.
  destruct (create_rows post cells s1) as [s'|db'].
  - destruct IH as (Hall & Hdb & Hpe). split; [|split].
    + constructor; [done|]. eapply Forall_impl; [exact Hall|].
      intros k'. apply fk_ok_add_rows.
    + rewrite Hdb, add_rows_app. reflexivity.
    + intros Hn. rewrite Hpe; [done|]. intros (c' & Hin & H'). apply Hn.
      exists c'. split; [by right|done].
  - destruct IH as (ok & k' & rest & Hnews & Hok & Hbad & Hdb).
    exists (k :: ok), k', rest. split; [by rewrite Hnews|].
    split; [|split].
    + constructor; [done|]. eapply Forall_impl; [exact Hok|].
      intros k''. apply fk_ok_add_rows.
    + by rewrite <-(fk_ok_add_rows (sv_db s)).
    + rewrite Hdb, add_rows_app. reflexivity.
Qed.

(** ** First occurrences and the grid *)

Lemma elem_of_first_occurrences seen l (k : ckey) :
  k ∈ first_occurrences seen l ↔ k ∈ l ∧ k ∉ seen.
Proof.
  revert seen. induction l as [|k' l IH]; intros seen; cbn.
  - rewrite elem_of_nil. naive_solver.
  - destruct (decide (k' ∈ seen)) as [Hs|Hs].
    + rewrite bool_decide_eq_true_2 by done.
      rewrite IH, elem_of_cons. naive_solver.
    + rewrite bool_decide_eq_false_2 by done.
      rewrite !elem_of_cons, IH, elem_of_union, elem_of_singleton.
      destruct (decide (k = k')); naive_solver.
Qed.

Lemma first_occurrences_NoDup seen l : NoDup (first_occurrences seen l).
Proof.
  revert seen. induction l as [|k l IH]; intros seen; cbn.
  - constructor.
  - destruct (bool_decide (k ∈ seen)); [apply IH|].
    constructor; [|apply IH].
    rewrite elem_of_first_occurrences, elem_of_union, elem_of_singleton.
    naive_solver.
Qed.

Lemma first_occurrences_id seen l :
  NoDup l → (∀ k, k ∈ l → k ∉ seen) → first_occurrences seen l = l.
Proof.
  revert seen. induction l as [|k l IH]; intros seen Hnd Hs; [done|].
  apply NoDup_cons in Hnd as [Hk Hnd]. cbn.
  rewrite bool_decide_eq_false_2 by (apply Hs; left). f_equal.
  apply IH; [done|]. intros k' Hk'.
  rewrite elem_of_union, elem_of_singleton. intros [->|H]; [done|].
  by apply (Hs k'); [right|].
Qed.

Lemma elem_of_grid S cgs cg d slot idx :
  (cg, d, slot, idx) ∈ grid S cgs ↔
  cg ∈ cgs ∧ d ∈ S.1 ∧ slot ∈ S.2 ∧ idx ∈ [1; 2; 3].
Proof.
  unfold grid. rewrite list_elem_of_bind. split.
  - intros (cg' & H & Hcg). apply list_elem_of_bind in H as (d' & H & Hd).
    apply list_elem_of_bind in H as (slot' & H & Hslot).
    apply list_elem_of_bind in H as (idx' & H & Hidx).
    apply list_elem_of_singleton in H. by simplify_eq.
  - intros (Hcg & Hd & Hslot & Hidx). exists cg. split; [|done].
    apply list_elem_of_bind. exists d. split; [|done].
    apply list_elem_of_bind. exists slot. split; [|done].
    apply list_elem_of_bind. exists idx. split; [|done].
    by apply list_elem_of_singleton.
Qed.

Lemma selected_class_groups_subseteq db ids cg :
  cg ∈ selected_class_groups db ids → cg ∈ ids.
Proof.
  unfold selected_class_groups. rewrite list_elem_of_filter. by intros [? _].
Qed.

(** A key submitted in the grid names a selected class group, a day of the
    structure and a slot of the structure. *)
Lemma assignments_in_grid post S cgs cg d st et subj_id teacher :
  (cg, d, st, et, subj_id, teacher) ∈ assignments post (grid S cgs) →
  cg ∈ cgs ∧ d ∈ S.1 ∧ (st, et) ∈ S.2.
Proof.
  rewrite elem_of_assignments.
  intros (cg' & d' & st' & et' & idx & s & t & Hin & _ & Heq).
  simplify_eq. apply elem_of_grid in Hin. naive_solver.
Qed.

Lemma rows_of_keys_elem_of tt_pk keys tt :
  tt ∈ rows_of_keys tt_pk keys →
  ∃ cg d st et subj_id teacher,
    (cg, d, st, et, subj_id, teacher) ∈ keys ∧ class_groups tt = [cg]
    ∧ day tt = d ∧ start_time tt = st ∧ end_time tt = et
    ∧ subject_fk_id tt = Some subj_id ∧ teacher_id tt = teacher.
Proof.
  revert tt_pk. induction keys as [|k keys IH]; intros p Hin.
  - by apply elem_of_nil in Hin.
  - cbn in Hin. apply elem_of_cons in Hin as [->|Hin].
    + destruct k as [[[[[cg d] st] et] s] t].
      exists cg, d, st, et, s, t. split; [left|done].
    + apply IH in Hin as (cg & d & st & et & s & t & Hin & H).
      exists cg, d, st, et, s, t. split; [by right|done].
Qed.

(** Every row made for a submitted key is one the delete loop of the same
    selection removes. *)
Lemma new_rows_selected_in_scope post S cgs tt_pk keys tt :
  (∀ k, k ∈ keys → k ∈ assignments post (grid S cgs)) →
  tt ∈ rows_of_keys tt_pk keys → selected_in_scope S cgs tt.
Proof.
  intros Hsub Hin.
  apply rows_of_keys_elem_of in Hin
    as (cg & d & st & et & s & t & Hk & Hcg & <- & <- & <- & _).
  apply Hsub, assignments_in_grid in Hk as (Hcgs & Hd & Hslot).
  split; [split; [done|]|].
  - apply list_elem_of_fmap. by exists (start_time tt, end_time tt).
  - apply Exists_exists. exists cg. split; [done|]. rewrite Hcg. left.
Qed.

(** ** The save branch in closed form *)

Lemma pks_fresh_clear S cgs db : pks_fresh db → pks_fresh (clear_rows S cgs db).
Proof.
  rewrite clear_rows_spec. unfold pks_fresh, set_Timetables. cbn.
  rewrite !Forall_forall. intros H tt Hin. apply H.
  by eapply kept_rows_subseteq.
Qed.

Lemma fk_ok_clear S cgs db k : fk_ok (clear_rows S cgs db) k ↔ fk_ok db k.
Proof. rewrite clear_rows_spec. by destruct k as [[[[[cg d] st] et] s] t]. Qed.

Lemma next_pk_clear S cgs db : next_pk (clear_rows S cgs db) = next_pk db.
Proof. by rewrite clear_rows_spec. Qed.

Lemma save_spec m db post cgs :
  pks_fresh db →
  validate m db post cgs = None →
  let S := structure_of m in
  let keys := first_occurrences ∅ (assignments post (grid S cgs)) in
  match save m db post cgs with
  | inl (db', e) =>
      Forall (fk_ok db) keys
      ∧ db' = add_rows (clear_rows S cgs db) (rows_of_keys (next_pk db) keys)
      ∧ e = None
  | inr db' =>
      ∃ ok k rest,
        keys = (ok ++ k :: rest)%list ∧ Forall (fk_ok db) ok ∧ ¬ fk_ok db k
        ∧ db' = add_rows (clear_rows S cgs db)
                         (rows_of_keys (next_pk db) ok)
  end.
Proof.
  intros Hfresh Hv S keys. unfold save. rewrite Hv.
  apply validate_None in Hv as (Hpe & _ & _).
  pose proof (create_rows_spec post (grid S cgs)
    {| sv_db := clear_rows S cgs db; created_keys := ∅; sv_error := None |}
    (pks_fresh_clear S cgs db Hfresh)) as H.
  cbn zeta in H. cbn [sv_db created_keys sv_error] in H.
  rewrite next_pk_clear in H. fold S.
  destruct (create_rows _ _ _) as [s'|db'].
  - destruct H as (Hall & Hdb & He). split; [|split; [done|by apply He]].
    eapply Forall_impl; [exact Hall|]. intros k. apply fk_ok_clear.
  - destruct H as (ok & k & rest & Hk & Hok & Hbad & Hdb).
    exists ok, k, rest. split; [done|]. split; [|split; [|done]].
    + eapply Forall_impl; [exact Hok|]. intros k'. apply fk_ok_clear.
    + by rewrite <-(fk_ok_clear S cgs).
Qed.

Lemma first_failure_unique {A} (P : A → Prop) (ok ok' : list A) k k' rest rest' :
  (ok ++ k :: rest = ok' ++ k' :: rest')%list →
  Forall P ok → ¬ P k → Forall P ok' → ¬ P k' → ok = ok'.
Proof.
  revert ok'. induction ok as [|x ok IH]; intros [|x' ok'] Heq Hok Hk Hok' Hk';
    cbn in Heq; simplify_eq.
  - done.
  - apply Forall_cons in Hok' as [? _]. done.
  - apply Forall_cons in Hok as [? _]. done.
  - apply Forall_cons in Hok as [_ Hok]. apply Forall_cons in Hok' as [_ Hok'].
    f_equal. by eapply IH.
Qed.

(** ** Accepted saves *)

Lemma cells_of_eq m db request :
  cells_of m db request
  = grid (structure_of m)
         (selected_class_groups db (selected_class_ids request)).
Proof. done. Qed.

(** The two ways an accepted save can end. *)
Lemma accepted_save_cases (m : mode) (db : DB) (request : HttpRequest) :
  is_save request → pks_fresh db →
  let cells := cells_of m db request in
  let cgs := selected_class_groups db (selected_class_ids request) in
  let cleared := clear_rows (structure_of m) cgs db in
  let keys := first_occurrences ∅ (assignments (POST request) cells) in
  ¬ parse_error (POST request) cells →
  ¬ slot_conflict (POST request) cells →
  ¬ joint_violation db (POST request) cells →
  (Forall (fk_ok db) keys →
   ∃ current,
     builder_view m db request
     = Rendered (add_rows cleared (rows_of_keys (next_pk db) keys)) None
                current)
  ∧ (∀ ok k rest,
       keys = (ok ++ k :: rest)%list → Forall (fk_ok db) ok → ¬ fk_ok db k →
       builder_view m db request
       = ServerError (add_rows cleared (rows_of_keys (next_pk db) ok))).
Proof.
  intros Hsave Hfresh cells cgs cleared keys Hpe Hsc Hjv.
  assert (validate m db (POST request) cgs = None) as Hv
    by (by apply validate_None).
  rewrite builder_view_save by done. cbn zeta.
  pose proof (save_spec m db (POST request) cgs Hfresh Hv) as H.
  cbn zeta in H. subst cleared keys cells cgs. unfold cells_of in *.
  destruct (save m db (POST request) _) as [[db' e]|db'].
  - destruct H as (Hall & -> & ->). split; [by eexists|].
    intros ok k rest Hk _ Hbad. exfalso. apply Hbad.
    rewrite Forall_forall in Hall. apply Hall. rewrite Hk.
    apply elem_of_app. right. left.
  - destruct H as (ok & k & rest & Hk & Hok & Hbad & ->). split.
    + intros Hall. exfalso. apply Hbad.
      rewrite Forall_forall in Hall. apply Hall. rewrite Hk.
      apply elem_of_app. right. left.
    + intros ok' k' rest' Hk' Hok' Hbad'.
      rewrite Hk in Hk'.
      by rewrite (first_failure_unique _ _ _ _ _ _ _ Hk' Hok Hbad Hok' Hbad').
Qed.

(** C4, as amended.  An accepted save is a delete followed by one insert
    per submitted key, with no transaction around them.  When every
    submitted subject and teacher exists the save completes and the table
    holds the kept rows followed by the new ones; when the row of some key
    names a missing subject or teacher the view fails at the first such
    key and the database keeps the deletions and the rows inserted before
    it. *)
Theorem accepted_save_is_delete_then_inserts (m : mode) (db : DB)
    (request : HttpRequest) :
  is_save request → pks_fresh db →
  let cells := cells_of m db request in
  let cgs := selected_class_groups db (selected_class_ids request) in
  let cleared := clear_rows (structure_of m) cgs db in
  let keys := first_occurrences ∅ (assignments (POST request) cells) in
  ¬ parse_error (POST request) cells →
  ¬ slot_conflict (POST request) cells →
  ¬ joint_violation db (POST request) cells →
  (Forall (fk_ok db) keys →
   ∃ current,
     builder_view m db request
     = Rendered (add_rows cleared (rows_of_keys (next_pk db) keys)) None
                current)
  ∧ (∀ ok k rest,
       keys = (ok ++ k :: rest)%list → Forall (fk_ok db) ok → ¬ fk_ok db k →
       builder_view m db request
       = ServerError (add_rows cleared (rows_of_keys (next_pk db) ok))).
Proof. exact (accepted_save_cases m db request). Qed.

(** What an accepted and completed save leaves behind. *)
Lemma completed_save m db request db' current :
  is_save request → pks_fresh db →
  builder_view m db request = Rendered db' None current →
  let cgs := selected_class_groups db (selected_class_ids request) in
  let keys :=
    first_occurrences ∅ (assignments (POST request) (cells_of m db request)) in
  validate m db (POST request) cgs = None
  ∧ Forall (fk_ok db) keys
  ∧ db' = add_rows (clear_rows (structure_of m) cgs db)
                   (rows_of_keys (next_pk db) keys).
Proof.
  intros Hsave Hfresh Hr cgs keys.
  rewrite builder_view_save in Hr by done. cbn zeta in Hr. fold cgs in Hr.
  destruct (validate m db (POST request) cgs) as [e|] eqn:Hv.
  { unfold save in Hr. by rewrite Hv in Hr. }
  pose proof (save_spec m db (POST request) cgs Hfresh Hv) as H.
  cbn zeta in H.
  destruct (save m db (POST request) cgs) as [[db1 e]|db1]; [|done].
  destruct H as (Hall & -> & ->). by simplify_eq.
Qed.

(** C3, as amended.  The recreate step of an accepted save appends, after
    the rows the delete loop kept, one row per distinct submitted
    (class group, day, start, end, subject, teacher) tuple: the row is
    attached to exactly that class group, and a value repeated in the
    sub-cells of one cell makes no second row.  Two class groups assigned
    the same subject, teacher and slot therefore get one row each, with the
    same teacher, day, start, end and subject. *)
Theorem save_creates_one_row_per_class_group_and_lesson (m : mode) (db db' : DB)
    (request : HttpRequest) (current : gmap string string) :
  is_save request → pks_fresh db →
  builder_view m db request = Rendered db' None current →
  let cgs := selected_class_groups db (selected_class_ids request) in
  let submitted := assignments (POST request) (cells_of m db request) in
  ∃ news keys,
    Timetables db' = (kept_rows (structure_of m) cgs (Timetables db) ++ news)%list
    ∧ content <$> news = content_of_key <$> keys
    ∧ NoDup keys
    ∧ (∀ k, k ∈ keys ↔ k ∈ submitted)
    ∧ (∀ tt, tt ∈ news → ∃ cg, cg ∈ cgs ∧ class_groups tt = [cg]).
Proof.
  intros Hsave Hfresh Hr cgs submitted.
  destruct (completed_save m db request db' current Hsave Hfresh Hr)
    as (_ & _ & ->).
  eexists _, _. split; [|split; [|split; [|split]]].
  - cbn. rewrite clear_rows_spec. reflexivity.
  - apply content_rows_of_keys.
  - apply first_occurrences_NoDup.
  - intros k. rewrite elem_of_first_occurrences. split; [by intros [? _]|].
    intros ?. split; [done|]. apply not_elem_of_empty.
  - intros tt Hin.
    apply rows_of_keys_elem_of in Hin
      as (cg & d & st & et & s & t & Hk & Hcg & _).
    apply elem_of_first_occurrences in Hk as [Hk _].
    apply assignments_in_grid in Hk as (Hcgs & _). by exists cg.
Qed.

Lemma kept_rows_app S cgs l1 l2 :
  kept_rows S cgs (l1 ++ l2)
  = (kept_rows S cgs l1 ++ kept_rows S cgs l2)%list.
Proof. apply filter_app. Qed.

Lemma kept_rows_none S cgs l :
  (∀ tt, tt ∈ l → selected_in_scope S cgs tt) → kept_rows S cgs l = [].
Proof. intros H. apply filter_none. intros tt Hin Hn. by apply Hn, H. Qed.

Lemma validate_same_config m db1 db2 post cgs :
  JointSubjects db1 = JointSubjects db2 →
  JointClassGroupSets db1 = JointClassGroupSets db2 →
  validate m db1 post cgs = validate m db2 post cgs.
Proof.
  intros H1 H2. unfold validate, joint_subject_ids, class_to_tag.
  by rewrite H1, H2.
Qed.

(** C7. Saving again the submission that was just accepted is accepted
    again and leaves a table with the same rows in the same order, equal in
    every field but the freshly assigned primary keys; in particular the
    number of rows does not change. *)
Theorem resave_is_idempotent (m : mode) (db db1 : DB)
    (request : HttpRequest) (current1 : gmap string string) :
  is_save request → pks_fresh db →
  builder_view m db request = Rendered db1 None current1 →
  ∃ db2 current2,
    builder_view m db1 request = Rendered db2 None current2
    ∧ content <$> Timetables db2 = content <$> Timetables db1
    ∧ length (Timetables db2) = length (Timetables db1).
Proof.
  intros Hsave Hfresh Hr.
  destruct (completed_save m db request db1 current1 Hsave Hfresh Hr)
    as (Hv & Hall & Hdb1).
  set (S := structure_of m) in *.
  set (cgs := selected_class_groups db (selected_class_ids request)) in *.
  set (keys := first_occurrences ∅ _) in *.
  rewrite clear_rows_spec in Hdb1.
  assert (pks_fresh db1) as Hfresh1.
  { subst db1. apply (pks_fresh_add_rows
      (set_Timetables db (kept_rows S cgs (Timetables db))) keys).
    rewrite <-clear_rows_spec. by apply pks_fresh_clear. }
  assert (ClassGroup_ids db1 = ClassGroup_ids db) as Hcg by (by subst db1).
  assert (cells_of m db1 request = cells_of m db request) as Hcells.
  { unfold cells_of, selected_class_groups. by rewrite Hcg. }
  assert (selected_class_groups db1 (selected_class_ids request) = cgs) as Hcgs.
  { unfold cgs, selected_class_groups. by rewrite Hcg. }
  assert (validate m db1 (POST request) cgs = None) as Hv1.
  { rewrite <-Hv. apply validate_same_config; by subst db1. }
  pose proof Hv1 as (Hpe & Hsc & Hjv)%validate_None.
  destruct (accepted_save_cases m db1 request Hsave Hfresh1)
    as [Hdone _].
  1-3: rewrite cells_of_eq, Hcgs; done.
  cbn zeta in Hdone. rewrite Hcells, Hcgs in Hdone. fold keys in Hdone.
  destruct Hdone as [current2 Hr2].
  { eapply Forall_impl; [exact Hall|]. intros k. subst db1.
    by destruct k as [[[[[cg d] st] et] s] t]. }
  eexists _, current2. split; [exact Hr2|].
  assert (Timetables db1
          = (kept_rows S cgs (Timetables db)
             ++ rows_of_keys (next_pk db) keys)%list) as Hrows
    by (by subst db1).
  assert (kept_rows S cgs (Timetables db1)
          = kept_rows S cgs (Timetables db)) as Hkept.
  { rewrite Hrows, kept_rows_app, kept_rows_idemp.
    rewrite (kept_rows_none _ _ (rows_of_keys _ _)); [apply app_nil_r|].
    intros tt Hin.
    eapply (new_rows_selected_in_scope (POST request)); [|exact Hin].
    intros k Hk. by apply elem_of_first_occurrences in Hk as [? _]. }
  assert (content <$> Timetables
            (add_rows (clear_rows S cgs db1)
                      (rows_of_keys (next_pk db1) keys))
          = content <$> Timetables db1) as Hc.
  { rewrite clear_rows_spec.
    change (Timetables (add_rows (set_Timetables db1 ?X) ?Y))
      with (X ++ Y)%list.
    rewrite Hkept, Hrows. by rewrite !fmap_app, !content_rows_of_keys. }
  split; [exact Hc|].
  apply (f_equal length) in Hc. rewrite !length_fmap in Hc. exact Hc.
Qed.

(** ** The frame of a builder request *)

Lemma handle_action_cases m db request ids cgs :
  handle_action m db request ids cgs = inl (db, None)
  ∨ handle_action m db request ids cgs = inl (db, Some (msg_unknown_action m))
  ∨ handle_action m db request ids cgs
    = inl (clear_rows (structure_of m) cgs db, None)
  ∨ handle_action m db request ids cgs = save m db (POST request) cgs.
Proof.
  unfold handle_action. destruct (bool_decide _); [|by left].
  destruct (get (POST request) "action") as [a|];
    [|right; left; by destruct m].
  destruct (decide (a = "save")) as [->|Hs];
    [do 3 right; by destruct m|].
  destruct (decide (a = "clear")) as [->|Hc];
    [destruct m; [do 2 right; by left|right; by left]|].
  right; left. destruct m;
    repeat (done || match goal with
                    | |- context [match ?x with _ => _ end] =>
                        is_var x; destruct x
                    end).
Qed.

(** Whatever the request, the table afterwards is the old table, or the
    rows the delete loop keeps, followed by rows made for submitted keys. *)
Lemma builder_effect m db request :
  pks_fresh db →
  let S := structure_of m in
  let cgs := selected_class_groups db (selected_class_ids request) in
  ∃ rows keys tt_pk,
    Timetables (db_after (builder_view m db request))
    = (rows ++ rows_of_keys tt_pk keys)%list
    ∧ (rows = Timetables db ∨ rows = kept_rows S cgs (Timetables db))
    ∧ ∀ k, k ∈ keys → k ∈ assignments (POST request) (grid S cgs).
Proof.
  intros Hfresh S cgs. unfold builder_view. fold cgs.
  assert (∀ (db' : DB) e,
    handle_action m db request (selected_class_ids request) cgs = inl (db', e) →
    db_after (match handle_action m db request (selected_class_ids request) cgs
              with
              | inl (db', error_message) =>
                  Rendered db' error_message
                    (if bool_decide (selected_class_ids request ≠ [])
                     then build_current (structure_of m)
                            (selected_class_ids request) cgs db'
                     else ∅)
              | inr db' => ServerError db'
              end) = db') as Hinl by (by intros db' e ->).
  destruct (handle_action_cases m db request (selected_class_ids request) cgs)
    as [H|[H|[H|H]]].
  - rewrite (Hinl _ _ H). exists (Timetables db), [], 0.
    split; [by rewrite app_nil_r|]. split; [by left|].
    intros k Hk. by apply elem_of_nil in Hk.
  - rewrite (Hinl _ _ H). exists (Timetables db), [], 0.
    split; [by rewrite app_nil_r|]. split; [by left|].
    intros k Hk. by apply elem_of_nil in Hk.
  - rewrite (Hinl _ _ H). rewrite clear_rows_spec.
    exists (kept_rows S cgs (Timetables db)), [], 0.
    split; [by rewrite app_nil_r|]. split; [by right|].
    intros k Hk. by apply elem_of_nil in Hk.
  - clear Hinl. rewrite H. clear H.
    destruct (validate m db (POST request) cgs) as [e|] eqn:Hv.
    { unfold save. rewrite Hv. exists (Timetables db), [], 0.
      split; [by rewrite app_nil_r|]. split; [by left|].
      intros k Hk. by apply elem_of_nil in Hk. }
    pose proof (save_spec m db (POST request) cgs Hfresh Hv) as Hs.
    cbn zeta in Hs. fold S in Hs.
    destruct (save m db (POST request) cgs) as [[db' e]|db'].
    + destruct Hs as (_ & -> & _). rewrite clear_rows_spec.
      eexists _, _, _. split; [reflexivity|]. split; [by right|].
      intros k Hk. by apply elem_of_first_occurrences in Hk as [? _].
    + destruct Hs as (ok & k & rest & Hk & _ & _ & ->).
      rewrite clear_rows_spec.
      eexists _, ok, _. split; [reflexivity|]. split; [by right|].
      intros k' Hk'.
      assert (k' ∈ first_occurrences ∅
                     (assignments (POST request) (grid S cgs))) as Hin
        by (rewrite Hk; apply elem_of_app; by left).
      by apply elem_of_first_occurrences in Hin as [? _].
Qed.

(** C8, as amended.  Whatever the request, a row attached to no selected
    class group stays as it is, so does a row outside the structure in use,
    and no row attached to an unselected class group is created or
    modified; when every row is attached to a single class group, as the
    rows the builders create are, the entries of every unselected class
    group are exactly what they were.  (A row shared between a selected
    and an unselected class group is a row of the selection and can be
    deleted as a whole.) *)
Theorem unselected_rows_are_untouched (m : mode) (db : DB)
    (request : HttpRequest) :
  pks_fresh db →
  let db' := db_after (builder_view m db request) in
  let ids := selected_class_ids request in
  (∀ tt, tt ∈ Timetables db →
         (∀ cg, cg ∈ class_groups tt → cg ∉ ids) → tt ∈ Timetables db')
  ∧ (∀ tt, tt ∈ Timetables db →
           ¬ in_scope (structure_of m) tt → tt ∈ Timetables db')
  ∧ (∀ tt cg, tt ∈ Timetables db' → cg ∈ class_groups tt → cg ∉ ids →
              tt ∈ Timetables db)
  ∧ ((∀ tt, tt ∈ Timetables db → ∃ cg, class_groups tt = [cg]) →
     ∀ cg, cg ∉ ids → entries_of cg db' = entries_of cg db).
Proof.
  intros Hfresh db' ids.
  destruct (builder_effect m db request Hfresh)
    as (rows & keys & p & Hdb' & Hrows & Hkeys).
  fold db' in Hdb'. unfold entries_of. rewrite Hdb'. clear Hdb'.
  split; [|split; [|split]]; cycle 3.
  { intros Hone cg Hcg. rewrite filter_app.
    rewrite (filter_none _ (rows_of_keys p keys)), app_nil_r.
    2:{ intros tt Hin Hatt.
        apply rows_of_keys_elem_of in Hin
          as (cg' & d & st & et & s & t & Hk & Hcgs & _).
        apply Hkeys, assignments_in_grid in Hk as (Hsel & _).
        rewrite Hcgs in Hatt. apply list_elem_of_singleton in Hatt as ->.
        destruct Hcg. by eapply selected_class_groups_subseteq. }
    destruct Hrows as [->| ->]; [done|].
    unfold kept_rows. rewrite list_filter_filter.
    apply filter_ext_in. intros tt Hin. split; [by intros [? _]|].
    intros Hatt. split; [done|].
    intros [_ (cg' & Hsel & Hatt')%Exists_exists].
    destruct (Hone tt Hin) as [cg0 Hcg0]. rewrite Hcg0 in Hatt, Hatt'.
    apply list_elem_of_singleton in Hatt, Hatt'. subst.
    destruct Hcg. by eapply selected_class_groups_subseteq. }
  - intros tt Hin Hcg. apply elem_of_app. left.
    destruct Hrows as [->| ->]; [done|].
    apply list_elem_of_filter. split; [|done].
    intros [_ (cg & Hsel & Hatt)%Exists_exists].
    apply (Hcg cg Hatt). by eapply selected_class_groups_subseteq.
  - intros tt Hin Hout. apply elem_of_app. left.
    destruct Hrows as [->| ->]; [done|].
    apply list_elem_of_filter. split; [|done]. by intros [? _].
  - intros tt cg [Hin|Hin]%elem_of_app Hcg Hno.
    + destruct Hrows as [->| ->]; [done|]. by eapply kept_rows_subseteq.
    + apply rows_of_keys_elem_of in Hin
        as (cg' & d & st & et & s & t & Hk & Hcgs & _).
      apply Hkeys, assignments_in_grid in Hk as (Hsel & _).
      rewrite Hcgs in Hcg. apply list_elem_of_singleton in Hcg as ->.
      destruct Hno. by eapply selected_class_groups_subseteq.
Qed.

(** ** Concrete runs *)

(** C3, counterexample.  Scenario B is accepted and leaves two rows, one
    attached to F2N and one to F2S; no row is attached to both. *)
Lemma scenario_B_makes_one_row_per_class_group :
  timetable_builder (school [] 1) scenario_B
  = Rendered
      (school [ lesson 1 1 "Mon" (Time 8 0) (Time 8 40) [1];
                lesson 2 1 "Mon" (Time 8 0) (Time 8 40) [2] ] 3)
      None
      {[ "1_Mon_0800_0840_1" := "1-1"; "2_Mon_0800_0840_1" := "1-1" ]}
  ∧ ¬ ∃ tt, tt ∈ Timetables (db_after (timetable_builder (school [] 1)
                                                           scenario_B))
            ∧ 1 ∈ class_groups tt ∧ 2 ∈ class_groups tt.
Proof.
  split; [by vm_compute|].
  intros (tt & Hin & H1 & H2).
  change (tt ∈ [ lesson 1 1 "Mon" (Time 8 0) (Time 8 40) [1];
                 lesson 2 1 "Mon" (Time 8 0) (Time 8 40) [2] ]) in Hin.
  rewrite !elem_of_cons, elem_of_nil in Hin.
  destruct Hin as [->|[->|[]]]; cbn in H1, H2.
  - apply list_elem_of_singleton in H2. done.
  - apply list_elem_of_singleton in H1. done.
Qed.

Lemma save_creates_one_row_per_class_group_and_lesson_witness :
  ∃ news keys,
    Timetables (school [ lesson 1 1 "Mon" (Time 8 0) (Time 8 40) [1];
                         lesson 2 1 "Mon" (Time 8 0) (Time 8 40) [2] ] 3)
    = (kept_rows _fixed_timetable_structure [1; 2] [] ++ news)%list
    ∧ content <$> news = content_of_key <$> keys
    ∧ NoDup keys
    ∧ (∀ k, k ∈ keys ↔
            k ∈ assignments (POST scenario_B)
                  (cells_of Normal (school [] 1) scenario_B))
    ∧ (∀ tt, tt ∈ news → ∃ cg, cg ∈ [1; 2] ∧ class_groups tt = [cg]).
Proof.
  apply (save_creates_one_row_per_class_group_and_lesson Normal
           (school [] 1)
           (school [ lesson 1 1 "Mon" (Time 8 0) (Time 8 40) [1];
                     lesson 2 1 "Mon" (Time 8 0) (Time 8 40) [2] ] 3)
           scenario_B
           {[ "1_Mon_0800_0840_1" := "1-1"; "2_Mon_0800_0840_1" := "1-1" ]}).
  - split; [reflexivity|]. split; by vm_compute.
  - constructor.
  - by vm_compute.
Defined.

(** C4, counterexample.  F2N has a Wednesday lesson; a save for F2N
    submits Math on Monday and, on Tuesday, subject 9, which does not
    exist.  The view fails, the Wednesday lesson is gone and the Monday row
    is there: a partial grid. *)
Lemma failed_save_leaves_partial_grid :
  let before := school [ lesson 1 2 "Wed" (Time 8 0) (Time 8 40) [1] ] 2 in
  timetable_builder before save_missing_subject
  = ServerError (school [ lesson 2 1 "Mon" (Time 8 0) (Time 8 40) [1] ] 3)
  ∧ Timetables (db_after (timetable_builder before save_missing_subject))
    ≠ Timetables before.
Proof.
  intros before. split; [by vm_compute|].
  intros H. vm_compute in H. discriminate H.
Qed.

Lemma accepted_save_is_delete_then_inserts_witness :
  timetable_builder (school [ lesson 1 2 "Wed" (Time 8 0) (Time 8 40) [1] ] 2)
                    save_missing_subject
  = ServerError (school [ lesson 2 1 "Mon" (Time 8 0) (Time 8 40) [1] ] 3).
Proof.
  set (before := school [ lesson 1 2 "Wed" (Time 8 0) (Time 8 40) [1] ] 2).
  assert (is_save save_missing_subject) as Hsave
    by (split; [reflexivity|]; split; by vm_compute).
  assert (pks_fresh before) as Hfresh by (repeat constructor).
  assert (validate Normal before (POST save_missing_subject) [1] = None)
    as (Hpe & Hsc & Hjv)%validate_None by (by vm_compute).
  exact (proj2 (accepted_save_is_delete_then_inserts Normal before
                  save_missing_subject Hsave Hfresh Hpe Hsc Hjv)
               [ (1, "Mon", Time 8 0, Time 8 40, 1, 1) ]
               (1, "Tue", Time 8 0, Time 8 40, 9, 1) []
               ltac:(by vm_compute)
               ltac:(repeat constructor; compute_decide)
               ltac:(compute_decide)).
Defined.

Lemma resave_is_idempotent_witness :
  ∃ db2 current2,
    timetable_builder
      (school [ lesson 1 1 "Mon" (Time 8 0) (Time 8 40) [1];
                lesson 2 1 "Mon" (Time 8 0) (Time 8 40) [2] ] 3) scenario_B
    = Rendered db2 None current2
    ∧ content <$> Timetables db2
      = content <$> [ lesson 1 1 "Mon" (Time 8 0) (Time 8 40) [1];
                      lesson 2 1 "Mon" (Time 8 0) (Time 8 40) [2] ]
    ∧ length (Timetables db2) = 2%nat.
Proof.
  apply (resave_is_idempotent Normal (school [] 1)
           (school [ lesson 1 1 "Mon" (Time 8 0) (Time 8 40) [1];
                     lesson 2 1 "Mon" (Time 8 0) (Time 8 40) [2] ] 3)
           scenario_B
           {[ "1_Mon_0800_0840_1" := "1-1"; "2_Mon_0800_0840_1" := "1-1" ]}).
  - split; [reflexivity|]. split; by vm_compute.
  - constructor.
  - by vm_compute.
Defined.

(** C8, counterexample.  One row is attached to F2N and F2S; clearing F2N
    alone deletes it, and with it the only entry of F2S. *)
Lemma clear_deletes_shared_row :
  let shared := lesson 1 1 "Mon" (Time 8 0) (Time 8 40) [1; 2] in
  selected_class_ids clear_F2N = [1]
  ∧ entries_of 2 (school [shared] 2) = [shared]
  ∧ timetable_builder (school [shared] 2) clear_F2N
    = Rendered (school [] 2) None ∅
  ∧ entries_of 2 (db_after (timetable_builder (school [shared] 2) clear_F2N))
    = [].
Proof. repeat split; by vm_compute. Qed.

Lemma unselected_rows_are_untouched_witness :
  let physics_F2S := lesson 1 2 "Tue" (Time 8 0) (Time 8 40) [2] in
  let math_F2N := lesson 2 1 "Mon" (Time 8 0) (Time 8 40) [1] in
  physics_F2S
  ∈ Timetables (db_after (timetable_builder (school [physics_F2S; math_F2N] 3)
                                            clear_F2N)).
Proof.
  intros physics_F2S math_F2N.
  apply (proj1 (unselected_rows_are_untouched Normal
                  (school [physics_F2S; math_F2N] 3) clear_F2N
                  ltac:(repeat constructor))).
  - left.
  - intros cg Hcg. apply list_elem_of_singleton in Hcg as ->.
    compute_decide.
Defined.

(** ** Keys of [current] *)

Lemma append_assoc (a b c : string) : (a +:+ b) +:+ c = a +:+ (b +:+ c).
Proof.
  induction a as [|x a IH]; [done|].
  change (String x ((a +:+ b) +:+ c) = String x (a +:+ (b +:+ c))).
  by rewrite IH.
Qed.

Lemma append_inv_head (a b c : string) : a +:+ b = a +:+ c → b = c.
Proof.
  induction a as [|x a IH]; [done|].
  change (String x (a +:+ b) = String x (a +:+ c) → b = c).
  intros [= H]. by apply IH.
Qed.

Lemma split_at_underscore (a a' r r' : string) :
  has_underscore a = false → has_underscore a' = false →
  a +:+ String "_" r = a' +:+ String "_" r' → a = a' ∧ r = r'.
Proof.
  revert a'. induction a as [|x a IH]; intros [|x' a'] Ha Ha' Heq;
    cbn in Ha, Ha', Heq.
  - by injection Heq as ->.
  - injection Heq as <- _. done.
  - injection Heq as -> _. done.
  - injection Heq as -> Heq.
    apply orb_false_iff in Ha as [_ Ha]. apply orb_false_iff in Ha' as [_ Ha'].
    destruct (IH a' Ha Ha' Heq) as [-> ->]. done.
Qed.

Lemma pretty_N_char_no_underscore (x : N) : pretty_N_char x ≠ "_"%char.
Proof. unfold pretty_N_char. by repeat case_match. Qed.

Lemma pretty_N_go_no_underscore (x : N) (s : string) :
  has_underscore s = false → has_underscore (pretty_N_go x s) = false.
Proof.
  revert s. induction (N.lt_wf_0 x) as [x _ IH]; intros s Hs.
  assert (x = 0 ∨ 0 < x)%N as [->|Hx] by lia.
  - by rewrite pretty_N_go_0.
  - rewrite pretty_N_go_step by done. apply IH.
    + by apply N.div_lt.
    + cbn. rewrite Hs, orb_false_r.
      apply bool_decide_eq_false_2, pretty_N_char_no_underscore.
Qed.

Lemma pretty_N_no_underscore (x : N) : has_underscore (pretty x) = false.
Proof.
  unfold pretty, pretty_N. destruct (decide (x = 0%N)); [done|].
  by apply pretty_N_go_no_underscore.
Qed.

Lemma str_no_underscore (z : Z) : has_underscore (Py.str z) = false.
Proof.
  unfold Py.str, pretty, pretty_Z. destruct z as [|p|p].
  - done.
  - apply pretty_N_no_underscore.
  - cbn. apply pretty_N_no_underscore.
Qed.

Lemma current_key_suffix cg d slot idx :
  current_key (cg, d, slot, idx) = Py.str cg +:+ key_suffix (d, slot, idx).
Proof.
  destruct slot as [st et].
  unfold current_key, indexed_key, base_key, key_suffix.
  by rewrite !append_assoc.
Qed.

Lemma key_suffix_underscore x : ∃ r, key_suffix x = String "_" r.
Proof. destruct x as [[d [st et]] idx]. by eexists. Qed.

Lemma NoDup_fmap_inj_on {A B} (f : A → B) (l : list A) (x y : A) :
  NoDup (f <$> l) → x ∈ l → y ∈ l → f x = f y → x = y.
Proof.
  induction l as [|z l IH]; intros Hnd Hx Hy Heq.
  - by apply elem_of_nil in Hx.
  - rewrite fmap_cons in Hnd. apply NoDup_cons in Hnd as [Hz Hnd].
    apply elem_of_cons in Hx as [->|Hx]; apply elem_of_cons in Hy as [->|Hy].
    + done.
    + destruct Hz. rewrite Heq. by apply list_elem_of_fmap_2.
    + destruct Hz. rewrite <-Heq. by apply list_elem_of_fmap_2.
    + by apply IH.
Qed.

Lemma key_suffixes_NoDup m : NoDup (key_suffix <$> sub_cells (structure_of m)).
Proof. destruct m; compute_decide. Qed.

Lemma elem_of_sub_cells S d slot idx :
  (d, slot, idx) ∈ sub_cells S ↔ d ∈ S.1 ∧ slot ∈ S.2 ∧ idx ∈ [1; 2; 3].
Proof.
  unfold sub_cells. rewrite list_elem_of_bind. split.
  - intros (d' & H & Hd). apply list_elem_of_bind in H as (slot' & H & Hslot).
    apply list_elem_of_bind in H as (idx' & H & Hidx).
    apply list_elem_of_singleton in H. by simplify_eq.
  - intros (Hd & Hslot & Hidx). exists d. split; [|done].
    apply list_elem_of_bind. exists slot. split; [|done].
    apply list_elem_of_bind. exists idx. split; [|done].
    by apply list_elem_of_singleton.
Qed.

(** Distinct cells of a grid have distinct keys in [current]. *)
Lemma current_key_inj m cgs (c c' : cell) :
  c ∈ grid (structure_of m) cgs → c' ∈ grid (structure_of m) cgs →
  current_key c = current_key c' → c = c'.
Proof.
  destruct c as [[[cg d] slot] idx], c' as [[[cg' d'] slot'] idx'].
  intros (_ & Hd & Hslot & Hidx)%elem_of_grid
         (_ & Hd' & Hslot' & Hidx')%elem_of_grid.
  rewrite !current_key_suffix.
  destruct (key_suffix_underscore (d, slot, idx)) as [r Hr].
  destruct (key_suffix_underscore (d', slot', idx')) as [r' Hr'].
  intros Heq. pose proof Heq as Heq'. rewrite Hr, Hr' in Heq'.
  apply split_at_underscore in Heq' as [Hcg _];
    [|apply str_no_underscore..].
  apply (inj pretty) in Hcg as <-.
  apply append_inv_head in Heq.
  apply (NoDup_fmap_inj_on key_suffix (sub_cells (structure_of m))) in Heq;
    [by simplify_eq|apply key_suffixes_NoDup|by apply elem_of_sub_cells..].
Qed.

(** ** The rebuild after a completed save *)

Lemma query_current_app S cgs rows1 rows2 :
  query_current S cgs (rows1 ++ rows2)
  = (query_current S cgs rows1 ++ query_current S cgs rows2)%list.
Proof. unfold query_current. apply bind_app. Qed.

Lemma query_current_kept S cgs rows :
  query_current S cgs (kept_rows S cgs rows) = [].
Proof.
  unfold query_current, kept_rows.
  induction rows as [|tt rows IH]; [done|].
  destruct (decide (¬ selected_in_scope S cgs tt)) as [Hk|Hk].
  - rewrite filter_cons_True by done. rewrite bind_cons, IH, app_nil_r.
    destruct (decide (in_scope S tt)) as [Hs|Hs];
      [|by rewrite bool_decide_eq_false_2].
    rewrite bool_decide_eq_true_2 by done.
    assert (∀ cg, cg ∈ class_groups tt → cg ∉ cgs) as Hno.
    { intros cg Hcg Hsel. apply Hk. split; [done|].
      apply Exists_exists. by exists cg. }
    induction (class_groups tt) as [|cg l IHl]; [done|].
    rewrite bind_cons, IHl by (intros cg' Hcg'; apply Hno; by right).
    rewrite bool_decide_eq_false_2; [done|]. apply Hno. left.
  - by rewrite filter_cons_False.
Qed.

Lemma query_current_new post S cgs tt_pk keys :
  (∀ k, k ∈ keys → k ∈ assignments post (grid S cgs)) →
  query_current S cgs (rows_of_keys tt_pk keys) = rows_of_keys tt_pk keys.
Proof.
  revert tt_pk. induction keys as [|k keys IH]; intros p Hsub; [done|].
  cbn [rows_of_keys]. unfold query_current in *. rewrite bind_cons.
  rewrite IH by (intros k' Hk'; apply Hsub; by right).
  assert (selected_in_scope S cgs (row_of_key p k)) as [Hs _].
  { eapply (new_rows_selected_in_scope post S cgs p [k]).
    - intros k' ->%list_elem_of_singleton. apply Hsub. left.
    - left. }
  rewrite bool_decide_eq_true_2 by done.
  destruct k as [[[[[cg d] st] et] s] t].
  assert (cg ∈ cgs) as Hcg.
  { eapply (assignments_in_grid post S cgs cg d st et s t). apply Hsub. left. }
  cbn. by rewrite bool_decide_eq_true_2.
Qed.

Lemma render_new_rows ids tt_pk keys current :
  (∀ cg d st et subj_id teacher,
     (cg, d, st, et, subj_id, teacher) ∈ keys →
     cg ∈ ids ∧ subj_id ≠ 0 ∧ teacher ≠ 0) →
  foldl (render_row ids) current (rows_of_keys tt_pk keys)
  = foldl place_key current keys.
Proof.
  revert tt_pk current.
  induction keys as [|k keys IH]; intros p current Hk; [done|].
  cbn [rows_of_keys foldl]. rewrite IH.
  2:{ intros cg d st et s t Hin. apply (Hk cg d st et s t). by right. }
  f_equal. destruct k as [[[[[cg d] st] et] s] t].
  destruct (Hk cg d st et s t) as (Hcg & Hs & Ht); [left|].
  unfold render_row, place_key. cbn.
  rewrite bool_decide_eq_false_2 by (intros [?|?]; done).
  by rewrite bool_decide_eq_true_2.
Qed.

(** [current] after a completed save, when every submitted id is
    non-zero: the values of the submitted keys, placed key by key. *)
Lemma current_after_save post S ids cgs db tt_pk keys :
  (∀ k, k ∈ keys → k ∈ assignments post (grid S cgs)) →
  (∀ cg, cg ∈ cgs → cg ∈ ids) →
  (∀ cg d st et subj_id teacher,
     (cg, d, st, et, subj_id, teacher) ∈ keys → subj_id ≠ 0 ∧ teacher ≠ 0) →
  build_current S ids cgs
    (add_rows (clear_rows S cgs db) (rows_of_keys tt_pk keys))
  = foldl place_key ∅ keys.
Proof.
  intros Hsub Hids Hnz. unfold build_current.
  rewrite clear_rows_spec.
  change (Timetables (add_rows (set_Timetables db ?X) ?Y)) with (X ++ Y)%list.
  rewrite query_current_app, query_current_kept, app_nil_l.
  rewrite (query_current_new post) by done.
  apply render_new_rows. intros cg d st et s t Hin.
  destruct (Hnz _ _ _ _ _ _ Hin). split; [|done].
  apply Hids. apply Hsub in Hin.
  by apply assignments_in_grid in Hin as (? & _).
Qed.

(** ** Placing the values of one cell *)

Ltac solve_lookup :=
  repeat (rewrite lookup_insert_eq || rewrite lookup_insert_ne by done);
  first [done | by eexists].

Lemma indexed_key_inj base i j : indexed_key base i = indexed_key base j → i = j.
Proof.
  unfold indexed_key. intros H%append_inv_head.
  apply append_inv_head in H. unfold Py.str in H. by apply (inj pretty) in H.
Qed.

Lemma place_first base v (current : gmap string string) :
  current !! indexed_key base 1 = None →
  place base v [1; 2; 3] current = <[indexed_key base 1 := v]> current.
Proof. intros H. cbn [place]. by rewrite bool_decide_eq_true_2. Qed.

Lemma place_second base v (current : gmap string string) :
  is_Some (current !! indexed_key base 1) →
  current !! indexed_key base 2 = None →
  place base v [1; 2; 3] current = <[indexed_key base 2 := v]> current.
Proof.
  intros [x H1] H2. cbn [place].
  rewrite bool_decide_eq_false_2 by (by rewrite H1).
  by rewrite bool_decide_eq_true_2.
Qed.

Lemma place_third base v (current : gmap string string) :
  is_Some (current !! indexed_key base 1) →
  is_Some (current !! indexed_key base 2) →
  current !! indexed_key base 3 = None →
  place base v [1; 2; 3] current = <[indexed_key base 3 := v]> current.
Proof.
  intros [x H1] [y H2] H3. cbn [place].
  rewrite bool_decide_eq_false_2 by (by rewrite H1).
  rewrite bool_decide_eq_false_2 by (by rewrite H2).
  by rewrite bool_decide_eq_true_2.
Qed.

Lemma assignments_cons post cg d st et idx cells :
  assignments post ((cg, d, (st, et), idx) :: cells)
  = match parse_value (cell_value post (cg, d, (st, et), idx)) with
    | Some (subj_id, teacher) =>
        (cg, d, st, et, subj_id, teacher) :: assignments post cells
    | None => assignments post cells
    end.
Proof.
  unfold assignments. cbn [omap list_omap].
  by destruct (parse_value _) as [[s t]|].
Qed.

Lemma assignments_app post cells1 cells2 :
  assignments post (cells1 ++ cells2)
  = (assignments post cells1 ++ assignments post cells2)%list.
Proof. apply omap_app. Qed.

(** A canonical cell is empty, or holds the rendering of its own pair. *)
Lemma canonical_cases post c :
  canonical post c →
  (cell_value post c = "" ∧ submitted post c = None
   ∧ parse_value (cell_value post c) = None)
  ∨ (∃ subj_id teacher,
       parse_value (cell_value post c) = Some (subj_id, teacher)
       ∧ cell_value post c ≠ ""
       ∧ cell_value post c = Py.str subj_id +:+ "-" +:+ Py.str teacher
       ∧ submitted post c
         = Some (Py.str subj_id +:+ "-" +:+ Py.str teacher)
       ∧ subj_id ≠ 0 ∧ teacher ≠ 0).
Proof.
  unfold canonical, cell_value, submitted.
  generalize (get_default post (field_name c) ""). intros raw [->|[Hs Hm]].
  - left. done.
  - right. rewrite Hs.
    destruct (parse_value raw) as [[s t]|] eqn:Hp; [|done].
    destruct Hm as (Hr & Hs0 & Ht0). exists s, t.
    assert (raw ≠ "") as Hne by (intros ->; by rewrite parse_value_empty in Hp).
    rewrite bool_decide_eq_false_2 by done. by rewrite <-Hr.
Qed.

Lemma place_triple post cg d st et (current : gmap string string) :
  let T := (cg, d, (st, et)) in
  (∀ i, i ∈ [1; 2; 3] → canonical post (T, i)) →
  filled_in_order post (T, 1) →
  (∀ i, i ∈ [1; 2; 3] → current !! current_key (T, i) = None) →
  let R := foldl place_key current (assignments post (three T)) in
  (∀ i, i ∈ [1; 2; 3] → R !! current_key (T, i) = submitted post (T, i))
  ∧ (∀ key, (∀ i, i ∈ [1; 2; 3] → key ≠ current_key (T, i)) →
            R !! key = current !! key).
Proof.
  intros T Hcan Hfill Hfree R. subst R. unfold three.
  set (base := base_key cg d st et).
  assert (∀ i, current_key (T, i) = indexed_key base i) as Hkey by done.
  setoid_rewrite Hkey. setoid_rewrite Hkey in Hfree. clear Hkey.
  assert (indexed_key base 1 ≠ indexed_key base 2) as H12
    by (by intros ?%indexed_key_inj).
  assert (indexed_key base 1 ≠ indexed_key base 3) as H13
    by (by intros ?%indexed_key_inj).
  assert (indexed_key base 2 ≠ indexed_key base 3) as H23
    by (by intros ?%indexed_key_inj).
  assert (indexed_key base 2 ≠ indexed_key base 1) as H21 by done.
  assert (indexed_key base 3 ≠ indexed_key base 1) as H31 by done.
  assert (indexed_key base 3 ≠ indexed_key base 2) as H32 by done.
  pose proof (Hfree 1 ltac:(set_solver)) as F1.
  pose proof (Hfree 2 ltac:(set_solver)) as F2.
  pose proof (Hfree 3 ltac:(set_solver)) as F3.
  pose proof (canonical_cases _ _ (Hcan 1 ltac:(set_solver))) as C1.
  pose proof (canonical_cases _ _ (Hcan 2 ltac:(set_solver))) as C2.
  pose proof (canonical_cases _ _ (Hcan 3 ltac:(set_solver))) as C3.
  destruct Hfill as [Hf2 Hf3]. cbn [fst] in Hf2, Hf3. fold T in Hf2, Hf3.
  subst T. rewrite !assignments_cons.
  change (assignments post []) with (@nil ckey).
  assert (∀ P : Z → Prop, P 1 → P 2 → P 3 → ∀ i, i ∈ [1; 2; 3] → P i) as Hall.
  { intros P ??? i Hi. rewrite !elem_of_cons, elem_of_nil in Hi.
    destruct Hi as [->|[->|[->|[]]]]; done. }
  match goal with
  | |- context [foldl place_key current ?l] => set (keys := l)
  end.
  cut (foldl place_key current keys !! indexed_key base 1
       = submitted post (cg, d, (st, et), 1)
       ∧ foldl place_key current keys !! indexed_key base 2
         = submitted post (cg, d, (st, et), 2)
       ∧ foldl place_key current keys !! indexed_key base 3
         = submitted post (cg, d, (st, et), 3)
       ∧ ∀ key, (∀ i, i ∈ [1; 2; 3] → key ≠ indexed_key base i) →
                foldl place_key current keys !! key = current !! key).
  { intros (H1 & H2 & H3 & HB). split; [apply Hall; done|done]. }
  subst keys.
  destruct C1 as [(E1 & S1 & P1)|(s1 & t1 & P1 & N1 & V1 & S1 & _)];
  destruct C2 as [(E2 & S2 & P2)|(s2 & t2 & P2 & N2 & V2 & S2 & _)];
  destruct C3 as [(E3 & S3 & P3)|(s3 & t3 & P3 & N3 & V3 & S3 & _)];
  rewrite P1, P2, P3, S1, S2, S3; cbn [foldl place_key].
  - done.
  - destruct (Hf3 N3) as [Hne _]. by destruct Hne.
  - destruct (Hf2 N2) as [Hne _]. by destruct Hne.
  - destruct (Hf2 N2) as [Hne _]. by destruct Hne.
  - fold base. rewrite (place_first base _ current) by exact F1.
    split_and!; [solve_lookup..|].
    intros key Hk. rewrite lookup_insert_ne; [done|].
    intros Hkey. apply (Hk 1); [set_solver|done].
  - destruct (Hf3 N3) as [Hne _]. by destruct Hne.
  - fold base. rewrite (place_first base _ current) by exact F1.
    rewrite (place_second base _ (<[_:=_]> current)) by solve_lookup.
    split_and!; [solve_lookup..|].
    intros key Hk. rewrite !lookup_insert_ne; [done|..].
    + intros Hkey. apply (Hk 1); [set_solver|done].
    + intros Hkey. apply (Hk 2); [set_solver|done].
  - fold base. rewrite (place_first base _ current) by exact F1.
    rewrite (place_second base _ (<[_:=_]> current)) by solve_lookup.
    rewrite (place_third base) by solve_lookup.
    split_and!; [solve_lookup..|].
    intros key Hk. rewrite !lookup_insert_ne; [done|..].
    + intros Hkey. apply (Hk 1); [set_solver|done].
    + intros Hkey. apply (Hk 2); [set_solver|done].
    + intros Hkey. apply (Hk 3); [set_solver|done].
Qed.

(** ** Placing the values of the whole grid *)

Lemma grid_triples S cgs : grid S cgs = triples S cgs ≫= three.
Proof.
  unfold grid, triples.
  induction cgs as [|cg cgs IH]; [done|].
  rewrite !bind_cons, bind_app, <-IH. f_equal. clear IH.
  induction (S.1) as [|d ds IHd]; [done|].
  rewrite !bind_cons, bind_app, <-IHd. f_equal. clear IHd.
  induction (S.2) as [|slot slots IHs]; [done|].
  rewrite !bind_cons, bind_app, <-IHs. done.
Qed.

Lemma elem_of_three T c : c ∈ three T ↔ ∃ i, i ∈ [1; 2; 3] ∧ c = (T, i).
Proof.
  unfold three. rewrite !elem_of_cons, elem_of_nil. split.
  - intros [->|[->|[->|[]]]]; eexists; (split; [|done]); set_solver.
  - intros (i & Hi & ->). rewrite !elem_of_cons, elem_of_nil in Hi.
    naive_solver.
Qed.

Lemma structure_NoDup m :
  NoDup (structure_of m).1 ∧ NoDup (structure_of m).2.
Proof. destruct m; split; compute_decide. Qed.

Lemma triples_NoDup m cgs : NoDup cgs → NoDup (triples (structure_of m) cgs).
Proof.
  intros Hcgs. destruct (structure_NoDup m) as [Hd Hs].
  unfold triples. apply NoDup_bind; [| |done].
  - intros cg1 cg2 [[cg d] slot] _ _ H1 H2.
    apply list_elem_of_bind in H1 as (d1 & H1 & _).
    apply list_elem_of_bind in H1 as (s1 & H1 & _).
    apply list_elem_of_singleton in H1.
    apply list_elem_of_bind in H2 as (d2 & H2 & _).
    apply list_elem_of_bind in H2 as (s2 & H2 & _).
    apply list_elem_of_singleton in H2. congruence.
  - intros cg _. apply NoDup_bind; [| |done].
    + intros d1 d2 [[cg' d] slot] _ _ H1 H2.
      apply list_elem_of_bind in H1 as (s1 & H1 & _).
      apply list_elem_of_singleton in H1.
      apply list_elem_of_bind in H2 as (s2 & H2 & _).
      apply list_elem_of_singleton in H2. congruence.
    + intros d _. apply NoDup_bind; [| |done].
      * intros s1 s2 y _ _ H1 H2.
        apply list_elem_of_singleton in H1, H2. congruence.
      * intros slot _. apply NoDup_singleton.
Qed.

Lemma grid_NoDup m cgs : NoDup cgs → NoDup (grid (structure_of m) cgs).
Proof.
  intros Hcgs. rewrite grid_triples. apply NoDup_bind.
  - intros T1 T2 c _ _ (i1 & _ & ->)%elem_of_three (i2 & _ & H)%elem_of_three.
    congruence.
  - intros T _. unfold three.
    repeat (apply NoDup_cons; split;
            [rewrite ?elem_of_cons, elem_of_nil; intros H;
             repeat destruct H as [H|H]; congruence|]).
    apply NoDup_nil_2.
  - by apply triples_NoDup.
Qed.

Lemma place_triples post (Ts : list (Z * string * (time * time)))
    (current : gmap string string) :
  NoDup Ts →
  (∀ T T' i i', T ∈ Ts → T' ∈ Ts → i ∈ [1; 2; 3] → i' ∈ [1; 2; 3] →
     current_key (T, i) = current_key (T', i') → T = T') →
  (∀ T i, T ∈ Ts → i ∈ [1; 2; 3] → canonical post (T, i)) →
  (∀ T, T ∈ Ts → filled_in_order post (T, 1)) →
  (∀ T i, T ∈ Ts → i ∈ [1; 2; 3] → current !! current_key (T, i) = None) →
  let R := foldl place_key current (assignments post (Ts ≫= three)) in
  (∀ T i, T ∈ Ts → i ∈ [1; 2; 3] →
          R !! current_key (T, i) = submitted post (T, i))
  ∧ (∀ key, (∀ T i, T ∈ Ts → i ∈ [1; 2; 3] → key ≠ current_key (T, i)) →
            R !! key = current !! key).
Proof.
  revert current. induction Ts as [|T Ts IH];
    intros current Hnd Hinj Hcan Hfill Hfree.
  { split; [|done]. intros T i HT. by apply elem_of_nil in HT. }
  apply NoDup_cons in Hnd as [HT Hnd].
  cbn zeta. rewrite bind_cons, assignments_app, foldl_app.
  set (M1 := foldl place_key current (assignments post (three T))).
  assert ((∀ i, i ∈ [1; 2; 3] → M1 !! current_key (T, i) = submitted post (T, i))
          ∧ (∀ key, (∀ i, i ∈ [1; 2; 3] → key ≠ current_key (T, i)) →
                    M1 !! key = current !! key)) as [Ha1 Hb1].
  { destruct T as [[cg d] [st et]].
    apply (place_triple post cg d st et current).
    - intros i Hi. apply Hcan; [left|done].
    - apply Hfill. left.
    - intros i Hi. apply Hfree; [left|done]. }
  assert (∀ T' i j, T' ∈ Ts → i ∈ [1; 2; 3] → j ∈ [1; 2; 3] →
            current_key (T', i) ≠ current_key (T, j)) as Hne.
  { intros T' i j HT' Hi Hj Heq. apply HT.
    rewrite <-(Hinj T' T i j); [done|by right|left|done..]. }
  destruct (IH M1) as [Ha2 Hb2]; [done|..].
  - intros T1 T2 i i' H1 H2. apply Hinj; by right.
  - intros T' i HT'. apply Hcan. by right.
  - intros T' HT'. apply Hfill. by right.
  - intros T' i HT' Hi. rewrite Hb1.
    + apply Hfree; [by right|done].
    + intros j Hj. by apply Hne.
  - split.
    + intros T0 i [->|HT0]%elem_of_cons Hi.
      * rewrite Hb2; [by apply Ha1|].
        intros T' j HT' Hj Heq. by apply (Hne T' j i).
      * by apply Ha2.
    + intros key Hk. rewrite Hb2, Hb1; [done|..].
      * intros i Hi. apply Hk; [left|done].
      * intros T' i HT' Hi. apply Hk; [by right|done].
Qed.

Lemma NoDup_omap_inj_on {A B} (f : A → option B) (l : list A) :
  NoDup l →
  (∀ x y z, x ∈ l → y ∈ l → f x = Some z → f y = Some z → x = y) →
  NoDup (omap f l).
Proof.
  induction l as [|x l IH]; intros Hnd Hinj; [constructor|].
  apply NoDup_cons in Hnd as [Hx Hnd]. cbn [omap list_omap].
  assert (NoDup (omap f l)) as IH'.
  { apply IH; [done|]. intros y1 y2 z H1 H2. apply Hinj; by right. }
  destruct (f x) as [z|] eqn:Hfx; [|done].
  apply NoDup_cons. split; [|done].
  intros (y & Hy & Hfy)%list_elem_of_omap.
  apply Hx. rewrite (Hinj x y z); [done|left|by right|done..].
Qed.

(** In a canonical grid filled in order, no key is submitted twice. *)
Lemma assignments_NoDup m post cgs :
  NoDup cgs →
  let cells := grid (structure_of m) cgs in
  Forall (canonical post) cells → Forall (filled_in_order post) cells →
  NoDup (assignments post cells).
Proof.
  intros Hcgs cells Hcan Hfill. rewrite Forall_forall in Hcan, Hfill.
  apply NoDup_omap_inj_on; [by apply grid_NoDup|].
  intros [[[cg d] [st et]] i] [[[cg' d'] [st' et']] j] k Hc Hc' Hk Hk'.
  pose proof (canonical_cases _ _ (Hcan _ Hc)) as C.
  pose proof (canonical_cases _ _ (Hcan _ Hc')) as C'.
  destruct C as [(_ & _ & P)|(s & t & P & N & V & _)]; rewrite P in Hk;
    [done|].
  destruct C' as [(_ & _ & P')|(s' & t' & P' & N' & V' & _)]; rewrite P' in Hk';
    [done|].
  simplify_eq.
  assert (i = j); [|by subst].
  pose proof (Hfill _ Hc) as [Hf2 Hf3]. cbn [fst] in Hf2, Hf3.
  apply elem_of_grid in Hc as (_ & _ & _ & Hi).
  apply elem_of_grid in Hc' as (_ & _ & _ & Hj).
  rewrite <-V' in V.
  rewrite !elem_of_cons, elem_of_nil in Hi, Hj.
  destruct Hi as [->|[->|[->|[]]]], Hj as [->|[->|[->|[]]]]; try done.
  - destruct (Hf2 N') as [_ H']; done.
  - destruct (Hf3 N') as (_ & H' & _); by destruct H'.
  - destruct (Hf2 N) as [_ H']; by destruct H'.
  - destruct (Hf3 N') as (_ & _ & H'); by destruct H'.
  - destruct (Hf3 N) as (_ & H' & _); done.
  - destruct (Hf3 N) as (_ & _ & H'); done.
Qed.

(** ** The round trip *)

(** C2, as amended.  A save in which every non-empty cell parses, no slot
    carries two subjects, every shared block is a configured joint lesson
    and every submitted subject and teacher exists is accepted.  If
    moreover every submitted value is the canonical [{subject}-{teacher}]
    of non-zero ids and the sub-cells of every cell are filled from
    sub-index 1 without gap or repetition, the map rebuilt from the
    persisted rows holds, at the key of each cell of the grid (its field
    name without [cell_]), exactly the submitted value of that cell, and
    has no other key. *)
Theorem accepted_save_round_trips (m : mode) (db : DB)
    (request : HttpRequest) :
  is_save request → pks_fresh db → NoDup (ClassGroup_ids db) →
  let post := POST request in
  let cells := cells_of m db request in
  ¬ parse_error post cells → ¬ slot_conflict post cells →
  ¬ joint_violation db post cells →
  Forall (fk_ok db) (assignments post cells) →
  ∃ db' current,
    builder_view m db request = Rendered db' None current
    ∧ (Forall (canonical post) cells → Forall (filled_in_order post) cells →
       (∀ c, c ∈ cells → current !! current_key c = submitted post c)
       ∧ (∀ key, is_Some (current !! key) →
                 ∃ c, c ∈ cells ∧ key = current_key c)).
Proof.
  intros Hsave Hfresh Hcgs post cells Hpe Hsc Hjv Hfk.
  set (S := structure_of m).
  set (ids := selected_class_ids request).
  set (cgs := selected_class_groups db ids).
  assert (cells = grid S cgs) as Hcells by done.
  assert (validate m db post cgs = None) as Hv by (by apply validate_None).
  rewrite builder_view_save by done. cbn zeta. fold ids cgs post S.
  pose proof (save_spec m db post cgs Hfresh Hv) as Hs. cbn zeta in Hs.
  fold S in Hs. rewrite <-Hcells in Hs.
  set (keys := first_occurrences ∅ (assignments post cells)) in *.
  assert (∀ k, k ∈ keys → k ∈ assignments post cells) as Hsub.
  { intros k Hk. by apply elem_of_first_occurrences in Hk as [? _]. }
  destruct (save m db post cgs) as [[db' e]|db'].
  2:{ exfalso. destruct Hs as (ok & k & rest & Hk & _ & Hbad & _).
      apply Hbad. rewrite Forall_forall in Hfk. apply Hfk, Hsub.
      rewrite Hk. apply elem_of_app. right. left. }
  destruct Hs as (_ & -> & ->). eexists _, _. split; [reflexivity|].
  intros Hcan Hfill.
  assert (NoDup cgs) as Hnd by (by apply NoDup_filter).
  assert (keys = assignments post cells) as Hkeys.
  { apply first_occurrences_id; [|intros k _; apply not_elem_of_empty].
    rewrite Hcells. by apply assignments_NoDup; rewrite <-?Hcells. }
  rewrite (current_after_save post); [|by rewrite <-Hcells| |].
  2:{ intros cg Hcg. by eapply selected_class_groups_subseteq. }
  2:{ intros cg d st et s t Hk.
      apply Hsub, elem_of_assignments in Hk
        as (cg' & d' & st' & et' & idx & s' & t' & Hin & Ha & Heq).
      simplify_eq. rewrite Forall_forall in Hcan.
      destruct (canonical_cases _ _ (Hcan _ Hin))
        as [(_ & _ & P)|(s0 & t0 & P & _ & _ & _ & Hs0 & Ht0)];
        unfold assigned in Ha; rewrite P in Ha; [done|]. by simplify_eq. }
  rewrite Hkeys, Hcells, grid_triples.
  rewrite Hcells, grid_triples in Hcan, Hfill.
  rewrite Forall_forall in Hcan, Hfill.
  assert (∀ T i, T ∈ triples S cgs → i ∈ [1; 2; 3] →
                 (T, i) ∈ triples S cgs ≫= three) as Hmem.
  { intros T i HT Hi. apply list_elem_of_bind. exists T. split; [|done].
    apply elem_of_three. by exists i. }
  destruct (place_triples post (triples S cgs) ∅) as [Ha Hb].
  - by apply triples_NoDup.
  - intros T T' i i' HT HT' Hi Hi' Heq.
    apply (current_key_inj m cgs) in Heq;
      [congruence|rewrite grid_triples; by apply Hmem..].
  - intros T i HT Hi. by apply Hcan, Hmem.
  - intros T HT. apply Hfill, Hmem; [done|set_solver].
  - intros T i _ _. apply lookup_empty.
  - split.
    + intros c (T & (i & Hi & ->)%elem_of_three & HT)%list_elem_of_bind.
      by apply Ha.
    + intros key Hkey.
      destruct (decide (Exists (fun c => key = current_key c)
                               (triples S cgs ≫= three))) as [He|He].
      { apply Exists_exists in He as (c & Hc & ->). by exists c. }
      exfalso. rewrite Hb, lookup_empty in Hkey; [by destruct Hkey|].
      intros T i HT Hi ->. apply He, Exists_exists.
      exists (T, i). split; [by apply Hmem|done].
Qed.

Lemma accepted_save_round_trips_witness :
  ∃ db' current,
    timetable_builder (school [] 1) scenario_B = Rendered db' None current
    ∧ (∀ c, c ∈ cells_of Normal (school [] 1) scenario_B →
            current !! current_key c = submitted (POST scenario_B) c)
    ∧ (∀ key, is_Some (current !! key) →
              ∃ c, c ∈ cells_of Normal (school [] 1) scenario_B
                   ∧ key = current_key c).
Proof.
  assert (validate Normal (school [] 1) (POST scenario_B) [1; 2] = None)
    as (Hpe & Hsc & Hjv)%validate_None by (by vm_compute).
  destruct (accepted_save_round_trips Normal (school [] 1) scenario_B)
    as (db' & current & Hr & Hrt).
  - split; [reflexivity|]. split; by vm_compute.
  - constructor.
  - compute_decide.
  - exact Hpe.
  - exact Hsc.
  - exact Hjv.
  - compute_decide.
  - exists db', current. split; [exact Hr|]. apply Hrt; compute_decide.
Defined.

(** C2, counterexample.  A save that fills only sub-index 2 of a cell
    meets the claim's conditions and is accepted, but the rebuilt map has
    the value at sub-index 1 and nothing at sub-index 2. *)
Lemma gap_in_sub_cells_is_not_reproduced :
  let db := school [] 1 in
  let post := POST save_second_sub_cell in
  let cells := cells_of Normal db save_second_sub_cell in
  ¬ slot_conflict post cells ∧ ¬ joint_violation db post cells
  ∧ timetable_builder db save_second_sub_cell
    = Rendered (school [ lesson 1 1 "Mon" (Time 8 0) (Time 8 40) [1] ] 2)
               None {[ "1_Mon_0800_0840_1" := "1-1" ]}
  ∧ get post "cell_1_Mon_0800_0840_1" = None
  ∧ get post "cell_1_Mon_0800_0840_2" = Some "1-1".
Proof.
  intros db post cells.
  assert (validate Normal db post [1] = None)
    as (_ & Hsc & Hjv)%validate_None by (by vm_compute).
  split; [exact Hsc|]. split; [exact Hjv|]. repeat split; by vm_compute.
Qed.

(** ** The merge of [remedial_stats] *)

Lemma merge_status_max (lessons : list LessonRecord) (a : agg) (st0 : string) :
  agg_status a = Some st0 →
  ∃ st, agg_status (foldl merge_agg a lessons) = Some st
        ∧ status_rank st0 ≤ status_rank st
        ∧ (st = st0 ∨ ∃ rec, rec ∈ lessons ∧ st = rec_status rec)
        ∧ ∀ rec, rec ∈ lessons → status_rank (rec_status rec) ≤ status_rank st.
Proof.
  revert a st0. induction lessons as [|rec l IH]; intros a st0 Ha.
  { exists st0. split; [done|]. split; [lia|]. split; [by left|].
    intros rec Hrec. by apply elem_of_nil in Hrec. }
  cbn [foldl].
  destruct (decide (status_rank st0 < status_rank (rec_status rec))) as [Hlt|Hge].
  - destruct (IH (merge_agg a rec) (rec_status rec)) as (st & Hst & Hle & Hor & Hall).
    { unfold merge_agg. cbn. rewrite Ha. fold (rec_status rec).
      by rewrite bool_decide_eq_true_2. }
    exists st. split; [done|]. split; [lia|]. split.
    + right. destruct Hor as [->|(r & Hr & ->)]; [exists rec|exists r];
        (split; [|done]); [left|by right].
    + intros r [->|Hr]%elem_of_cons; [done|by apply Hall].
  - destruct (IH (merge_agg a rec) st0) as (st & Hst & Hle & Hor & Hall).
    { unfold merge_agg. cbn. rewrite Ha. fold (rec_status rec).
      by rewrite bool_decide_eq_false_2. }
    exists st. split; [done|]. split; [done|]. split.
    + destruct Hor as [->|(r & Hr & ->)]; [by left|].
      right. exists r. split; [by right|done].
    + intros r [->|Hr]%elem_of_cons; [lia|by apply Hall].
Qed.

Lemma remedial_logical_map_key (lessons : list LessonRecord) (k : lkey)
    (M : gmap lkey agg) (rec : LessonRecord) :
  (∀ r, r ∈ rec :: lessons →
        ∃ row, lr_timetable r = Some row ∧ lkey_of row = k) →
  foldl remedial_merge M (rec :: lessons) !! k
  = Some (foldl merge_agg
            (default {| agg_teacher_id := k.1.1.1.1; agg_status := None;
                        agg_payment_status := None; agg_paid_amount := 0;
                        agg_unpaid_amount := 0 |} (M !! k))
            (rec :: lessons)).
Proof.
  revert M rec. induction lessons as [|rec' l IH]; intros M rec Hk.
  - destruct (Hk rec) as (row & Hrow & <-); [left|].
    cbn [foldl]. unfold remedial_merge. rewrite Hrow.
    fold (lkey_of row). by rewrite lookup_insert_eq.
  - cbn [foldl] in *.
    rewrite IH by (intros r Hr; apply Hk; by right).
    destruct (Hk rec) as (row & Hrow & <-); [left|].
    unfold remedial_merge at 1. rewrite Hrow. fold (lkey_of row).
    by rewrite lookup_insert_eq.
Qed.

(** For the records of one logical lesson, whatever their order,
    [remedial_stats] ends with the status of one of them, and no record has
    a status of higher rank (Attended 3, Not Attended 2, Pending 1). *)
Lemma remedial_status_is_highest (lessons : list LessonRecord) (k : lkey) :
  lessons ≠ [] →
  (∀ r, r ∈ lessons → ∃ row, lr_timetable r = Some row ∧ lkey_of row = k) →
  ∃ a st,
    remedial_logical_map lessons !! k = Some a ∧ agg_status a = Some st
    ∧ (∃ rec, rec ∈ lessons ∧ st = rec_status rec)
    ∧ ∀ rec, rec ∈ lessons → status_rank (rec_status rec) ≤ status_rank st.
Proof.
  destruct lessons as [|rec l]; [done|]. intros _ Hk.
  unfold remedial_logical_map.
  rewrite (remedial_logical_map_key l k ∅ rec Hk), lookup_empty.
  cbn [default foldl].
  edestruct (merge_status_max l) as (st & Hst & Hle & Hor & Hall).
  2:{ eexists _, st. split; [done|]. split; [exact Hst|]. split.
      - destruct Hor as [->|(r & Hr & ->)].
        + exists rec. split; [left|done].
        + exists r. split; [by right|done].
      - intros r [->|Hr]%elem_of_cons; [exact Hle|by apply Hall]. }
  done.
Qed.

Lemma payment_rank_nonneg (val : string) : 0 ≤ payment_rank val.
Proof.
  unfold payment_rank.
  repeat (destruct (bool_decide _); [lia|]). lia.
Qed.

Lemma merge_agg_payment (a : agg) (rec : LessonRecord) :
  agg_payment_status (merge_agg a rec)
  = if bool_decide (rec_payment rec = "") then agg_payment_status a
    else match agg_payment_status a with
         | None => Some (rec_payment rec)
         | Some old =>
             if bool_decide (payment_rank old < payment_rank (rec_payment rec))
             then Some (rec_payment rec) else Some old
         end.
Proof. done. Qed.

Lemma merge_payment_max (lessons : list LessonRecord) (a : agg) :
  let a' := foldl merge_agg a lessons in
  match agg_payment_status a with
  | Some p0 =>
      ∃ p, agg_payment_status a' = Some p
           ∧ payment_rank p0 ≤ payment_rank p
           ∧ (p = p0 ∨ ∃ rec, rec ∈ lessons ∧ p = rec_payment rec)
           ∧ ∀ rec, rec ∈ lessons →
                    payment_rank (rec_payment rec) ≤ payment_rank p
  | None =>
      (agg_payment_status a' = None
       ∧ ∀ rec, rec ∈ lessons → rec_payment rec = "")
      ∨ ∃ p, agg_payment_status a' = Some p
             ∧ (∃ rec, rec ∈ lessons ∧ p = rec_payment rec)
             ∧ ∀ rec, rec ∈ lessons →
                      payment_rank (rec_payment rec) ≤ payment_rank p
  end.
Proof.
  revert a. induction lessons as [|rec l IH]; intros a; cbn zeta.
  { cbn [foldl]. destruct (agg_payment_status a) as [p0|].
    - exists p0. split; [done|]. split; [lia|]. split; [by left|].
      intros rec Hrec. by apply elem_of_nil in Hrec.
    - left. split; [done|]. intros rec Hrec. by apply elem_of_nil in Hrec. }
  cbn [foldl]. specialize (IH (merge_agg a rec)). cbn zeta in IH.
  rewrite merge_agg_payment in IH.
  assert (∀ p, (p = rec_payment rec ∨ ∃ r', r' ∈ l ∧ p = rec_payment r') →
               ∃ r', r' ∈ rec :: l ∧ p = rec_payment r') as Hin.
  { intros p [->|(r' & Hr' & ->)]; [exists rec|exists r'];
      (split; [|done]); [left|by right]. }
  destruct (decide (rec_payment rec = "")) as [He|He].
  - rewrite bool_decide_eq_true_2 in IH by done.
    assert (∀ p, payment_rank (rec_payment rec) ≤ payment_rank p) as H0.
    { intros p. rewrite He. change (payment_rank "") with 0.
      apply payment_rank_nonneg. }
    destruct (agg_payment_status a) as [p0|].
    + destruct IH as (p & Hp & Hle & Hor & Hall). exists p.
      split; [done|]. split; [done|]. split.
      * destruct Hor as [->|(r & Hr & ->)]; [by left|].
        right. exists r. split; [by right|done].
      * intros r [->|Hr]%elem_of_cons; [done|by apply Hall].
    + destruct IH as [[Hn Hall]|(p & Hp & (r & Hr & ->) & Hall)].
      * left. split; [done|].
        intros r [->|Hr]%elem_of_cons; [done|by apply Hall].
      * right. eexists. split; [exact Hp|]. split.
        -- exists r. split; [by right|done].
        -- intros r' [->|Hr']%elem_of_cons; [done|by apply Hall].
  - rewrite bool_decide_eq_false_2 in IH by done.
    destruct (agg_payment_status a) as [p0|].
    + destruct (decide (payment_rank p0 < payment_rank (rec_payment rec)))
        as [Hlt|Hge].
      * rewrite bool_decide_eq_true_2 in IH by done.
        destruct IH as (p & Hp & Hle & Hor & Hall). exists p.
        split; [done|]. split; [lia|]. split; [right; by eapply Hin|].
        intros r [->|Hr]%elem_of_cons; [done|by apply Hall].
      * rewrite bool_decide_eq_false_2 in IH by done.
        destruct IH as (p & Hp & Hle & Hor & Hall). exists p.
        split; [done|]. split; [done|]. split.
        -- destruct Hor as [->|(r & Hr & ->)]; [by left|].
           right. exists r. split; [by right|done].
        -- intros r [->|Hr]%elem_of_cons; [lia|by apply Hall].
    + destruct IH as (p & Hp & Hle & Hor & Hall). right. exists p.
      split; [done|]. split; [by eapply Hin|].
      intros r [->|Hr]%elem_of_cons; [done|by apply Hall].
Qed.

(** The payment status merges the same way among the non-empty values:
    none when every record's is empty, otherwise the value of one record,
    of the highest rank (Paid 2, Unpaid 1, anything else 0). *)
Lemma remedial_payment_is_highest (lessons : list LessonRecord) (k : lkey) :
  lessons ≠ [] →
  (∀ r, r ∈ lessons → ∃ row, lr_timetable r = Some row ∧ lkey_of row = k) →
  ∃ a,
    remedial_logical_map lessons !! k = Some a
    ∧ ((agg_payment_status a = None
        ∧ ∀ rec, rec ∈ lessons → rec_payment rec = "")
       ∨ ∃ p, agg_payment_status a = Some p
              ∧ (∃ rec, rec ∈ lessons ∧ p = rec_payment rec)
              ∧ ∀ rec, rec ∈ lessons →
                       payment_rank (rec_payment rec) ≤ payment_rank p).
Proof.
  destruct lessons as [|rec l]; [done|]. intros _ Hk.
  unfold remedial_logical_map.
  rewrite (remedial_logical_map_key l k ∅ rec Hk), lookup_empty.
  eexists. split; [done|]. cbn [default].
  exact (merge_payment_max (rec :: l)
           {| agg_teacher_id := k.1.1.1.1; agg_status := None;
              agg_payment_status := None; agg_paid_amount := 0;
              agg_unpaid_amount := 0 |}).
Qed.

(** ** Sample evaluations of the primitives *)

Example int_examples :
  Py.int "12" = Some 12 ∧ Py.int " 007 " = Some 7 ∧ Py.int "-3" = Some (-3)
  ∧ Py.int "1_000" = Some 1000 ∧ Py.int "" = None ∧ Py.int "1_" = None
  ∧ Py.int "F2N" = None ∧ Py.int "+ 1" = None.
Proof. repeat split; by vm_compute. Qed.

(** [int] skips blanks and the no-break space but not the separators
    28-31, which [strip] removes; a literal of more than 4300 digits is
    refused. *)
Example int_white_space_and_limit :
  Py.int (String "028" "1") = None ∧ Py.strip (String "028" "1") = "1"
  ∧ Py.int (String "1" (String "031" "")) = None
  ∧ Py.int (String "160" "1") = Some 1
  ∧ Py.int (String "009" (String "1" (String "010" ""))) = Some 1
  ∧ Py.int (string_of_list_ascii (replicate 4300 "1"%char)) ≠ None
  ∧ Py.int (string_of_list_ascii (replicate 4301 "1"%char)) = None.
Proof. repeat split; by vm_compute. Qed.

Example parse_value_examples :
  parse_value "3-14" = Some (3, 14) ∧ parse_value "3--14" = Some (3, -14)
  ∧ parse_value "-3-14" = None ∧ parse_value "314" = None
  ∧ parse_value "a-b" = None ∧ parse_value " 03 - 14 " = Some (3, 14).
Proof. repeat split; by vm_compute. Qed.

Example field_name_example :
  field_name (12, "Mon", (Time 8 0, Time 8 40), 2) = "cell_12_Mon_0800_0840_2"
  ∧ current_key (12, "Sat", (Time 16 30, Time 17 30), 3)
    = "12_Sat_1630_1730_3".
Proof. split; by vm_compute. Qed.

Example rank_examples :
  status_rank "Attended" = 3 ∧ status_rank "not attended " = 2
  ∧ status_rank "Pending" = 1 ∧ status_rank "late" = 0
  ∧ payment_rank "Paid" = 2 ∧ payment_rank "Unpaid" = 1
  ∧ payment_rank "" = 0.
Proof. repeat split; by vm_compute. Qed.

(** ** The clear action and empty saves *)

Lemma builder_view_clear db request :
  is_clear request →
  let cgs := selected_class_groups db (selected_class_ids request) in
  timetable_builder db request
  = Rendered
      (set_Timetables db
         (kept_rows _fixed_timetable_structure cgs (Timetables db)))
      None ∅.
Proof.
  intros (Hm & Hids & Ha) cgs.
  unfold timetable_builder, builder_view, handle_action.
  rewrite bool_decide_eq_true_2 by done. rewrite Ha.
  rewrite (bool_decide_eq_true_2 (selected_class_ids request ≠ [])) by done.
  cbn [structure_of]. fold cgs. rewrite clear_rows_spec.
  f_equal. unfold build_current. cbn [Timetables set_Timetables].
  by rewrite query_current_kept.
Qed.

(** X1. A [clear] request to the normal builder with classes selected
    deletes exactly the rows of the normal structure that are attached to
    a selected class group, keeps every other row in place and order,
    creates nothing, sets no message and renders an empty [current]; a
    second clear changes nothing more. *)
Theorem clear_removes_the_selected_lessons (db : DB) (request : HttpRequest) :
  is_clear request →
  let S := _fixed_timetable_structure in
  let cgs := selected_class_groups db (selected_class_ids request) in
  ∃ db',
    timetable_builder db request = Rendered db' None ∅
    ∧ Timetables db'
      = filter (fun tt => ¬ (in_scope S tt
                             ∧ Exists (fun cg => cg ∈ class_groups tt) cgs))
               (Timetables db)
    ∧ next_pk db' = next_pk db
    ∧ timetable_builder db' request = Rendered db' None ∅.
Proof.
  intros Hc S cgs. eexists. split; [by apply builder_view_clear|].
  split; [done|]. split; [done|].
  rewrite builder_view_clear by done.
  cbn [ClassGroup_ids set_Timetables Timetables].
  f_equal. unfold set_Timetables. cbn.
  change (selected_class_groups _ (selected_class_ids request)) with cgs.
  by rewrite kept_rows_idemp.
Qed.

Lemma clear_removes_the_selected_lessons_witness :
  ∃ db',
    timetable_builder (school three_lessons 4) clear_F2 = Rendered db' None ∅
    ∧ Timetables db' = [ lesson 3 1 "Sat" (Time 7 0) (Time 8 0) [1] ].
Proof.
  destruct (clear_removes_the_selected_lessons (school three_lessons 4)
              clear_F2) as (db' & H1 & H2 & _).
  { repeat split; by vm_compute. }
  exists db'. split; [exact H1|]. rewrite H2. by vm_compute.
Defined.

Lemma create_rows_empty post cells s :
  (∀ c, c ∈ cells → cell_value post c = "") →
  create_rows post cells s = inl s.
Proof.
  induction cells as [|c cells IH]; intros H; [done|].
  cbn [create_rows]. unfold create_cell.
  destruct c as [[[cg d] [st et]] idx].
  rewrite (H (cg, d, (st, et), idx)) by left.
  rewrite bool_decide_eq_true_2 by done.
  apply IH. intros c Hc. apply H. by right.
Qed.

Lemma validate_empty m db post cgs :
  (∀ c, c ∈ grid (structure_of m) cgs → cell_value post c = "") →
  validate m db post cgs = None.
Proof.
  intros H. apply validate_None. split; [|split].
  - intros (c & Hc & Hne & _). by apply Hne, H.
  - intros (cg1 & cg2 & d & st & et & idx1 & idx2 & s1 & s2 & t
            & Hc1 & _ & Ha & _).
    unfold assigned in Ha. by rewrite (H _ Hc1), parse_value_empty in Ha.
  - intros (b & cg1 & cg2 & Hb & _). destruct b as [[[[t d] st] et] s].
    destruct Hb as (idx & Hc & Ha).
    unfold assigned in Ha. by rewrite (H _ Hc), parse_value_empty in Ha.
Qed.

(** X2. A save whose visited cells are all empty or missing is accepted,
    deletes the in-scope rows of the selected class groups, creates no row
    and renders an empty [current]; on the normal builder this is the
    response of a clear with the same selection. *)
Theorem empty_save_clears_the_selection (m : mode) (db : DB)
    (request : HttpRequest) :
  is_save request → all_cells_empty m db request →
  let cgs := selected_class_groups db (selected_class_ids request) in
  builder_view m db request
  = Rendered
      (set_Timetables db (kept_rows (structure_of m) cgs (Timetables db)))
      None ∅
  ∧ (m = Normal →
     ∀ request',
       is_clear request' →
       selected_class_ids request' = selected_class_ids request →
       timetable_builder db request' = timetable_builder db request).
Proof.
  intros Hs He cgs.
  assert (builder_view m db request
          = Rendered
              (set_Timetables db
                 (kept_rows (structure_of m) cgs (Timetables db)))
              None ∅) as Hview.
  { rewrite builder_view_save by done. cbn zeta. fold cgs.
    unfold save. rewrite validate_empty by exact He.
    rewrite create_rows_empty by exact He. cbn [sv_db sv_error].
    rewrite clear_rows_spec. f_equal. unfold build_current.
    cbn [Timetables set_Timetables]. by rewrite query_current_kept. }
  split; [exact Hview|].
  intros -> request' Hc Hsame.
  rewrite builder_view_clear by done. rewrite Hsame.
  unfold timetable_builder. by rewrite Hview.
Qed.

Lemma empty_save_clears_the_selection_witness :
  timetable_builder (school three_lessons 4) save_empty_normal
  = Rendered (school [ lesson 2 2 "Tue" (Time 8 0) (Time 8 40) [2];
                       lesson 3 1 "Sat" (Time 7 0) (Time 8 0) [1] ] 4)
             None ∅
  ∧ timetable_builder (school three_lessons 4) clear_F2N
    = timetable_builder (school three_lessons 4) save_empty_normal.
Proof.
  destruct (empty_save_clears_the_selection Normal (school three_lessons 4)
              save_empty_normal) as [H1 H2].
  { repeat split; by vm_compute. }
  { intros c Hc. revert c Hc. apply Forall_forall. compute_decide. }
  split.
  - unfold timetable_builder. rewrite H1. by vm_compute.
  - apply H2; [done| |done]. repeat split; by vm_compute.
Defined.

(** ** Field names and the order of the classes *)

(** X3. Two different cells of a builder grid never share a POST field
    name, whatever class groups are selected: the name determines the
    class group, the day, the slot and the sub-index. *)
Theorem field_names_are_distinct (m : mode) (cgs : list Z) (c c' : cell) :
  c ∈ grid (structure_of m) cgs → c' ∈ grid (structure_of m) cgs →
  field_name c = field_name c' → c = c'.
Proof.
  intros Hc Hc' H. apply (current_key_inj m cgs); [done|done|].
  destruct c as [[[cg d] [st et]] idx], c' as [[[cg' d'] [st' et']] idx'].
  unfold field_name in H. cbn [current_key]. by simplify_eq.
Qed.

Lemma field_names_are_distinct_witness :
  field_name (1, "Mon", (Time 8 0, Time 8 40), 1)
  = field_name (1, "Mon", (Time 8 0, Time 8 40), 1)
  ∧ (1, "Mon", (Time 8 0, Time 8 40), 1)
    = ((1, "Mon", (Time 8 0, Time 8 40), 1) : cell).
Proof.
  split; [reflexivity|].
  apply (field_names_are_distinct Normal [1; 2]); [compute_decide..|].
  reflexivity.
Defined.

Lemma in_block_ext post (cells cells' : list cell) b cg :
  (∀ c, c ∈ cells ↔ c ∈ cells') →
  in_block post cells b cg → in_block post cells' b cg.
Proof.
  intros H. destruct b as [[[[t d] st] et] s].
  intros (idx & Hc & Ha). exists idx. split; [by apply H|done].
Qed.

Lemma validate_None_ext m db post cgs cgs' :
  (∀ cg, cg ∈ cgs ↔ cg ∈ cgs') →
  validate m db post cgs = None → validate m db post cgs' = None.
Proof.
  intros Hcgs. rewrite !validate_None. cbn zeta.
  assert (∀ c, c ∈ grid (structure_of m) cgs' ↔ c ∈ grid (structure_of m) cgs)
    as Hg.
  { intros [[[cg d] slot] idx]. rewrite !elem_of_grid. by rewrite Hcgs. }
  intros (Hp & Hs & Hj). split; [|split].
  - intros (c & Hc & Hne & Hnone). apply Hp. exists c. by rewrite <- Hg.
  - intros (cg1 & cg2 & d & st & et & idx1 & idx2 & s1 & s2 & t
            & Hc1 & Hc2 & Ha1 & Ha2 & Hne).
    apply Hs. exists cg1, cg2, d, st, et, idx1, idx2, s1, s2, t.
    by rewrite <- !Hg.
  - intros (b & cg1 & cg2 & Hb1 & Hb2 & Hne & Hnot). apply Hj.
    exists b, cg1, cg2.
    split; [by eapply in_block_ext|]. split; [by eapply in_block_ext|].
    split; [done|]. intros [Hjs (tag & Htag)]. apply Hnot.
    split; [done|]. exists tag. intros cg Hcg. apply Htag.
    eapply in_block_ext; [|exact Hcg]. intros c. by rewrite Hg.
Qed.

(** X4. Whether a submission passes the pre-validation of a save does not
    depend on the order in which the selected class groups are visited,
    nor on one being listed twice: two lists with the same members accept
    the same submissions. *)
Theorem validation_ignores_class_order (m : mode) (db : DB) (post : QueryDict)
    (cgs cgs' : list Z) :
  (∀ cg, cg ∈ cgs ↔ cg ∈ cgs') →
  (validate m db post cgs = None ↔ validate m db post cgs' = None).
Proof.
  intros H. split; apply validate_None_ext; [done|]. intros cg. by rewrite H.
Qed.

Lemma validation_ignores_class_order_witness :
  validate Normal (school [] 1) (POST scenario_B) [1; 2] = None
  ↔ validate Normal (school [] 1) (POST scenario_B) [2; 1; 2] = None.
Proof.
  apply validation_ignores_class_order. intros cg.
  rewrite !elem_of_cons, !elem_of_nil. tauto.
Defined.

(** ** [Timetable.clean] and the slot invariant *)

(** X5. For a table with distinct primary keys and no empty day,
    [Timetable.clean] accepts every stored row exactly when no teacher has
    two different subjects in one (day, start, end) slot. *)
Theorem clean_accepts_all_iff_one_subject_per_slot (db : DB) :
  NoDup (pk <$> Timetables db) →
  (∀ tt, tt ∈ Timetables db → day tt ≠ "") →
  (∀ tt, tt ∈ Timetables db → Timetable_clean db tt = false)
  ↔ one_subject_per_slot db.
Proof.
  intros Hpk Hday. split.
  - intros Hclean t1 t2 H1 H2 Ht Hd Hs He.
    destruct (decide (pk t2 = pk t1)) as [Heq|Hne].
    { by rewrite (NoDup_fmap_inj_on pk _ t2 t1 Hpk H2 H1 Heq). }
    specialize (Hclean t1 H1). unfold Timetable_clean in Hclean.
    rewrite bool_decide_eq_false_2 in Hclean by by apply Hday.
    apply bool_decide_eq_false_1 in Hclean.
    destruct (decide (subject_fk_id t1 = subject_fk_id t2)) as [|Hsub];
      [done|].
    exfalso. apply Hclean. intros Hnil.
    assert (t2 ∈ @nil Timetable) as Hin; [|by apply elem_of_nil in Hin].
    rewrite <- Hnil. apply list_elem_of_filter. split; [congruence|].
    apply list_elem_of_filter. split; [|done]. by repeat split.
  - intros Hone t1 H1. unfold Timetable_clean.
    rewrite bool_decide_eq_false_2 by by apply Hday.
    apply bool_decide_eq_false_2. intros Hne. apply Hne.
    apply filter_none. intros t2 Hin Hsub.
    apply list_elem_of_filter in Hin as [(Ht & Hd & Hs & He & _) H2].
    apply Hsub. by apply Hone.
Qed.

Lemma clean_accepts_all_iff_one_subject_per_slot_witness :
  (∀ tt, tt ∈ three_lessons → Timetable_clean (school three_lessons 4) tt = false)
  ↔ one_subject_per_slot (school three_lessons 4).
Proof.
  apply (clean_accepts_all_iff_one_subject_per_slot (school three_lessons 4)).
  - compute_decide.
  - apply Forall_forall. compute_decide.
Defined.

(** ** What [current] can hold *)

Lemma place_lookup base v idxs (current : gmap string string) key x :
  place base v idxs current !! key = Some x →
  current !! key = Some x
  ∨ ∃ idx, idx ∈ idxs ∧ key = indexed_key base idx ∧ x = v.
Proof.
  induction idxs as [|idx idxs IH]; cbn [place]; [by left|].
  case_bool_decide as Hfree.
  - destruct (decide (key = indexed_key base idx)) as [->|Hne].
    + rewrite lookup_insert_eq. intros [= <-]. right. exists idx.
      split; [left|done].
    + rewrite lookup_insert_ne by done. by left.
  - intros [H|(i & Hi & -> & ->)]%IH; [by left|].
    right. exists i. split; [by right|done].
Qed.

Lemma build_current_sound S ids cgs db key value :
  build_current S ids cgs db !! key = Some value →
  ∃ cg tt, cg ∈ ids ∧ displayed_at S db cg tt key value.
Proof.
  unfold build_current.
  assert (∀ tt, tt ∈ query_current S cgs (Timetables db) →
                tt ∈ Timetables db ∧ in_scope S tt) as Hq.
  { intros tt. unfold query_current. rewrite list_elem_of_bind.
    intros (row & Hin & Hrow). case_bool_decide as Hsc; [|by apply elem_of_nil in Hin].
    apply list_elem_of_bind in Hin as (cg & Hin & _).
    case_bool_decide; [|by apply elem_of_nil in Hin].
    apply list_elem_of_singleton in Hin as ->. done. }
  revert Hq. generalize (query_current S cgs (Timetables db)). intros l.
  assert (∀ cur : gmap string string,
    (∀ tt, tt ∈ l → tt ∈ Timetables db ∧ in_scope S tt) →
    foldl (render_row ids) cur l !! key = Some value →
    cur !! key = Some value
    ∨ ∃ cg tt, cg ∈ ids ∧ displayed_at S db cg tt key value) as Hfold.
  { induction l as [|tt l IH]; intros cur Hl; cbn [foldl]; [by left|].
    intros [H|H]%IH; [|by right|intros r Hr; apply Hl; by right].
    destruct (Hl tt) as [Htt Hsc]; [left|].
    unfold render_row in H.
    destruct (subject_fk_id tt) as [subj_id|] eqn:Hsubj; [|by left].
    case_bool_decide as Hz; [by left|].
    assert (∀ (cls : list Z) (cur : gmap string string),
      (∀ cg, cg ∈ cls → cg ∈ class_groups tt) →
      foldl (fun current cg =>
               if bool_decide (cg ∈ ids)
               then place (base_key cg (day tt) (start_time tt) (end_time tt))
                          (Py.str subj_id +:+ "-" +:+ Py.str (teacher_id tt))
                          [1; 2; 3] current
               else current) cur cls !! key = Some value →
      cur !! key = Some value
      ∨ ∃ cg tt, cg ∈ ids ∧ displayed_at S db cg tt key value) as Hin.
    { clear H. induction cls as [|cg cls IHc]; intros cur' Hcls;
        cbn [foldl]; [by left|].
      intros [H|H]%IHc; [|by right|intros c Hc; apply Hcls; by right].
      case_bool_decide as Hsel; [|by left].
      apply place_lookup in H as [H|(idx & Hidx & -> & ->)]; [by left|].
      right. exists cg, tt. split; [done|].
      split; [done|]. split; [done|]. split; [apply Hcls; left|].
      by exists subj_id, idx. }
    by apply (Hin (class_groups tt)). }
  intros Hq H. apply Hfold in H as [H|H]; [|done|done].
  by rewrite lookup_empty in H.
Qed.

(** X6. Whatever the request, every entry of the [current] map a builder
    renders comes from a row stored when the page is rendered: a row inside
    the structure, with a subject, attached to a selected class group, at
    one of the three sub-indices of that class group's cell, with the value
    [{subject_id}-{teacher_id}] of the row. *)
Theorem current_shows_only_stored_lessons (m : mode) (db : DB)
    (request : HttpRequest) db' e current key value :
  builder_view m db request = Rendered db' e current →
  current !! key = Some value →
  ∃ cg tt, cg ∈ selected_class_ids request
           ∧ displayed_at (structure_of m) db' cg tt key value.
Proof.
  unfold builder_view. destruct (handle_action _ _ _ _ _) as [[db1 e1]|];
    [|done].
  intros [= <- <- <-]. case_bool_decide; [|by rewrite lookup_empty].
  apply build_current_sound.
Qed.

Lemma current_shows_only_stored_lessons_witness :
  ∃ cg tt, cg ∈ selected_class_ids get_F2N
           ∧ displayed_at _fixed_timetable_structure (school three_lessons 4)
               cg tt "1_Mon_0800_0840_1" "1-1".
Proof.
  apply (current_shows_only_stored_lessons Normal (school three_lessons 4)
           get_F2N (school three_lessons 4) None
           (build_current _fixed_timetable_structure [1] [1]
              (school three_lessons 4))).
  - by vm_compute.
  - by vm_compute.
Defined.

(** ** Rendered values parse back *)

Lemma digit_not_space c :
  is_Some (Py.digit_value c) →
  Py.is_space c = false ∧ c ≠ "-"%char ∧ c ≠ "+"%char.
Proof.
  intros [d Hd]. split; [|split; intros ->; by vm_compute in Hd].
  unfold Py.digit_value in Hd. unfold Py.is_space.
  destruct (_ && _) eqn:Hr in Hd; [|done].
  apply andb_true_iff in Hr as [H1%Z.leb_le H2%Z.leb_le].
  repeat (apply orb_false_iff; split);
    try (apply andb_false_iff; (left + right); apply Z.leb_gt; lia);
    apply Z.eqb_neq; lia.
Qed.

Lemma lstrip_digits s : all_digits s = true → Py.lstrip s = s.
Proof.
  destruct s as [|c s]; [done|]. cbn.
  intros [Hc%bool_decide_eq_true _]%andb_true_iff.
  by destruct (digit_not_space c Hc) as [-> _].
Qed.

Lemma rstrip_digits s : all_digits s = true → Py.rstrip s = s.
Proof.
  induction s as [|c s IH]; [done|]. cbn.
  intros [Hc%bool_decide_eq_true Hs]%andb_true_iff.
  destruct (digit_not_space c Hc) as [-> _]. cbn. by rewrite IH.
Qed.

Lemma strip_digits s : all_digits s = true → Py.strip s = s.
Proof.
  intros H. unfold Py.strip. rewrite lstrip_digits by done.
  by apply rstrip_digits.
Qed.


















(** ** The joint configuration of the templates *)

Lemma dict_set_keys {V} (k : string) (v : V) d :
  (dict_set k v d).*1 = (if bool_decide (k ∈ d.*1) then d.*1
                         else d.*1 ++ [k])%list.
Proof.
  induction d as [|[k' v'] d IH]; [done|]. cbn [dict_set].
  destruct (decide (k = k')) as [<-|Hk].
  - rewrite (bool_decide_eq_true_2 (k = k)) by done.
    rewrite bool_decide_eq_true_2 by (rewrite fmap_cons; left).
    by rewrite !fmap_cons.
  - rewrite (bool_decide_eq_false_2 (k = k')) by done.
    rewrite !fmap_cons, IH. cbn [fst].
    destruct (decide (k ∈ d.*1)) as [Hin|Hin].
    + rewrite !bool_decide_eq_true_2; [done|by right|done].
    + rewrite !bool_decide_eq_false_2; [done| |done].
      intros [?|?]%elem_of_cons; [by apply Hk|by apply Hin].
Qed.

Lemma dict_set_NoDup {V} (k : string) (v : V) d :
  NoDup d.*1 → NoDup (dict_set k v d).*1.
Proof.
  intros Hd. rewrite dict_set_keys. case_bool_decide as Hin; [done|].
  apply NoDup_app. split; [done|]. split; [|apply NoDup_singleton].
  intros x Hx ->%list_elem_of_singleton. by apply Hin.
Qed.

Lemma dict_set_elem_of {V} (k : string) (v : V) d k' v' :
  (k', v') ∈ dict_set k v d → (k' = k ∧ v' = v) ∨ (k', v') ∈ d.
Proof.
  induction d as [|[k0 v0] d IH]; cbn [dict_set].
  - intros [= -> ->]%list_elem_of_singleton. by left.
  - case_bool_decide as Hk.
    + intros [[= -> ->]|H]%elem_of_cons; [by left|]. right. by right.
    + intros [[= -> ->]|H]%elem_of_cons; [right; left|].
      apply IH in H as [H|H]; [by left|]. right. by right.
Qed.

Lemma dict_set_fresh {V} (k : string) (v : V) d :
  k ∉ d.*1 → dict_set k v d = (d ++ [(k, v)])%list.
Proof.
  induction d as [|[k0 v0] d IH]; [done|]. rewrite fmap_cons.
  intros Hk. cbn [dict_set].
  rewrite bool_decide_eq_false_2 by (intros ->; apply Hk; left).
  rewrite IH by (intros ?; apply Hk; by right). done.
Qed.

Lemma members_by_tag_spec (db : DB) :
  NoDup (members_by_tag db).*1
  ∧ ∀ tag ids, (tag, ids) ∈ members_by_tag db →
      (2 ≤ length ids)%nat
      ∧ ∃ g, g ∈ active_sets db ∧ jcgs_name g = tag
             ∧ jcgs_class_groups g = ids.
Proof.
  unfold members_by_tag. fold (active_sets db).
  induction (active_sets db) as [|g l IH] using rev_ind.
  { split; [constructor|]. intros tag ids H. by apply elem_of_nil in H. }
  destruct IH as [IH1 IH2]. rewrite foldl_app. cbn [foldl].
  assert (∀ tag ids,
    (tag, ids) ∈ foldl (fun d group_set =>
         if bool_decide (length (jcgs_class_groups group_set) < 2)%nat
         then d
         else dict_set (jcgs_name group_set) (jcgs_class_groups group_set) d)
       [] l →
    (2 ≤ length ids)%nat
    ∧ ∃ g0, g0 ∈ (l ++ [g])%list ∧ jcgs_name g0 = tag
            ∧ jcgs_class_groups g0 = ids) as IH2'.
  { intros tag ids H. destruct (IH2 tag ids H) as (Hlen & g0 & Hg0 & Hn).
    split; [done|]. exists g0. split; [|done].
    apply elem_of_app. by left. }
  case_bool_decide as Hlen; [done|].
  split; [by apply dict_set_NoDup|].
  intros tag ids [[-> ->]|H]%dict_set_elem_of; [|by apply IH2'].
  split; [lia|]. exists g. split; [|done].
  apply elem_of_app. right. left.
Qed.

Lemma joint_tags_fold (L : list (string * list Z)) (c : joint_config) cid tag :
  joint_class_group_tags
    (foldl (fun c item =>
              {| joint_group_members :=
                   <[item.1 := item.2]> (joint_group_members c);
                 joint_class_group_tags :=
                   foldl (fun tags cid => <[cid := item.1]> tags)
                         (joint_class_group_tags c) item.2 |}) c L)
  !! cid = Some tag →
  joint_class_group_tags c !! cid = Some tag
  ∨ ∃ ids, (tag, ids) ∈ L ∧ cid ∈ ids.
Proof.
  revert c. induction L as [|[t ids] L IH]; intros c; cbn [foldl];
    [by left|].
  intros [H|(ids' & Hin & Hcid)]%IH.
  - cbn [joint_class_group_tags fst snd] in H.
    assert (∀ (l : list Z) (tags : gmap Z string),
      foldl (fun tags cid => <[cid := t]> tags) tags l !! cid = Some tag →
      tags !! cid = Some tag ∨ (tag = t ∧ cid ∈ l)) as Hins.
    { induction l as [|x l IHl]; intros tags; cbn [foldl]; [by left|].
      intros [Hx|[-> Hx]]%IHl.
      - destruct (decide (x = cid)) as [->|Hne].
        + rewrite lookup_insert_eq in Hx. injection Hx as <-.
          right. split; [done|left].
        + rewrite lookup_insert_ne in Hx by done. by left.
      - right. split; [done|by right]. }
    apply Hins in H as [H|[-> H]]; [by left|].
    right. exists ids. split; [left|done].
  - right. exists ids'. split; [by right|done].
Qed.

Lemma joint_members_fold (L : list (string * list Z)) (c : joint_config)
    tag ids :
  NoDup L.*1 → (tag, ids) ∈ L →
  joint_group_members
    (foldl (fun c item =>
              {| joint_group_members :=
                   <[item.1 := item.2]> (joint_group_members c);
                 joint_class_group_tags :=
                   foldl (fun tags cid => <[cid := item.1]> tags)
                         (joint_class_group_tags c) item.2 |}) c L)
  !! tag = Some ids.
Proof.
  revert c. induction L as [|[t i0] L IH]; intros c Hnd Hin;
    [by apply elem_of_nil in Hin|].
  rewrite fmap_cons in Hnd. apply NoDup_cons in Hnd as [Hnotin Hnd].
  cbn [foldl]. apply elem_of_cons in Hin as [[= -> ->]|Hin];
    [|by apply IH].
  clear IH. cbn [fst snd].
  assert (∀ c : joint_config,
    t ∉ L.*1 → joint_group_members c !! t = Some i0 →
    joint_group_members
      (foldl (fun c item =>
                {| joint_group_members :=
                     <[item.1 := item.2]> (joint_group_members c);
                   joint_class_group_tags :=
                     foldl (fun tags cid => <[cid := item.1]> tags)
                           (joint_class_group_tags c) item.2 |}) c L)
    !! t = Some i0) as Hkeep.
  { clear. induction L as [|[t' i'] L IH]; intros c Hnotin Hc; [done|].
    rewrite fmap_cons in Hnotin. cbn [foldl]. apply IH.
    - intros ?. apply Hnotin. by right.
    - cbn [joint_group_members fst snd]. rewrite lookup_insert_ne; [done|].
      intros ->. apply Hnotin. left. }
  apply Hkeep; [done|]. cbn [joint_group_members].
  by rewrite lookup_insert_eq.
Qed.

(** X8. In the joint configuration a builder hands to its template, a
    class group that carries a tag is one of the members listed for that
    tag, the tag lists at least two members, and the tag and its member
    list are the name and the class groups of an active
    [JointClassGroupSet]. *)
Theorem tagged_class_is_listed_under_its_tag (db : DB) (cid : Z)
    (tag : string) :
  joint_class_group_tags (joint_configuration db) !! cid = Some tag →
  ∃ ids,
    joint_group_members (joint_configuration db) !! tag = Some ids
    ∧ cid ∈ ids ∧ (2 ≤ length ids)%nat
    ∧ ∃ g, g ∈ JointClassGroupSets db ∧ jcgs_active g = true
           ∧ jcgs_name g = tag ∧ jcgs_class_groups g = ids.
Proof.
  unfold joint_configuration.
  destruct (members_by_tag_spec db) as [Hnd Hall].
  intros [H|(ids & Hin & Hcid)]%joint_tags_fold.
  { cbn [joint_class_group_tags] in H. by rewrite lookup_empty in H. }
  exists ids. split; [by apply joint_members_fold|]. split; [done|].
  destruct (Hall tag ids Hin) as (Hlen & g & Hg & Hn & Hi).
  split; [done|]. exists g.
  apply list_elem_of_filter in Hg as [Ha Hg]. done.
Qed.

Lemma tagged_class_is_listed_under_its_tag_witness :
  ∃ ids,
    joint_group_members (joint_configuration (school [] 1)) !! "F2" = Some ids
    ∧ 2 ∈ ids ∧ (2 ≤ length ids)%nat
    ∧ ∃ g, g ∈ JointClassGroupSets (school [] 1) ∧ jcgs_active g = true
           ∧ jcgs_name g = "F2" ∧ jcgs_class_groups g = ids.
Proof.
  apply (tagged_class_is_listed_under_its_tag (school [] 1) 2 "F2").
  by vm_compute.
Defined.

Lemma members_by_tag_all (db : DB) :
  (∀ g, g ∈ active_sets db → (2 ≤ length (jcgs_class_groups g))%nat) →
  NoDup (jcgs_name <$> active_sets db) →
  members_by_tag db
  = (fun g => (jcgs_name g, jcgs_class_groups g)) <$> active_sets db.
Proof.
  unfold members_by_tag. fold (active_sets db).
  induction (active_sets db) as [|g l IH] using rev_ind; [done|].
  intros Hlen Hnd. rewrite foldl_app, fmap_app. cbn [foldl].
  rewrite fmap_app in Hnd. apply NoDup_app in Hnd as (Hnd & Hnotin & _).
  rewrite IH; [|intros g0 Hg0; apply Hlen, elem_of_app; by left|done].
  rewrite bool_decide_eq_false_2.
  2:{ assert (g ∈ (l ++ [g])%list) as Hg by (apply elem_of_app; right; left).
      specialize (Hlen g Hg). lia. }
  apply dict_set_fresh. rewrite <- list_fmap_compose.
  intros Hin. apply (Hnotin (jcgs_name g)); [done|]. left.
Qed.

Lemma joint_tags_closed_form (L : list (string * list Z)) (c : joint_config) :
  joint_class_group_tags
    (foldl (fun c item =>
              {| joint_group_members :=
                   <[item.1 := item.2]> (joint_group_members c);
                 joint_class_group_tags :=
                   foldl (fun tags cid => <[cid := item.1]> tags)
                         (joint_class_group_tags c) item.2 |}) c L)
  = foldl (fun tags item =>
             foldl (fun tags cid => <[cid := item.1]> tags) tags item.2)
          (joint_class_group_tags c) L.
Proof.
  revert c. induction L as [|item L IH]; intros c; [done|].
  cbn [foldl]. by rewrite IH.
Qed.

(** X9. When every active [JointClassGroupSet] has at least two class
    groups and no two active sets share a name, the class-to-tag map a
    builder hands to its template is the map its save validation uses. *)
Theorem template_tags_agree_with_validation (db : DB) :
  (∀ g, g ∈ JointClassGroupSets db → jcgs_active g = true →
        (2 ≤ length (jcgs_class_groups g))%nat) →
  NoDup (jcgs_name <$> active_sets db) →
  joint_class_group_tags (joint_configuration db) = class_to_tag db.
Proof.
  intros Hlen Hnd. unfold joint_configuration.
  rewrite joint_tags_closed_form. cbn [joint_class_group_tags].
  rewrite members_by_tag_all; [| |done].
  2:{ intros g Hg. apply list_elem_of_filter in Hg as [Ha Hg].
      by apply Hlen. }
  unfold class_to_tag. fold (active_sets db). clear Hlen Hnd.
  generalize (∅ : gmap Z string).
  induction (active_sets db) as [|g l IH]; intros tags; [done|].
  rewrite fmap_cons. cbn [foldl fst snd]. by rewrite IH.
Qed.

Lemma template_tags_agree_with_validation_witness :
  joint_class_group_tags (joint_configuration (school [] 1))
  = class_to_tag (school [] 1).
Proof.
  apply template_tags_agree_with_validation.
  - intros g Hg _. revert g Hg. apply Forall_forall. compute_decide.
  - compute_decide.
Defined.

(** ** The master timetables *)

Lemma master_add_lookup (grid : gmap string (list Timetable)) tt key :
  default [] (master_add grid tt !! key)
  = (default [] (grid !! key)
     ++ (cg ← class_groups tt;
         if bool_decide
              (key = base_key cg (day tt) (start_time tt) (end_time tt))
         then [tt] else []))%list.
Proof.
  unfold master_add. revert grid.
  induction (class_groups tt) as [|cg l IH]; intros grid.
  { cbn. by rewrite app_nil_r. }
  cbn [foldl]. rewrite IH, bind_cons, app_assoc. f_equal.
  case_bool_decide as Hk.
  - subst key. by rewrite lookup_insert_eq.
  - rewrite lookup_insert_ne by done. by rewrite app_nil_r.
Qed.

Lemma master_add_nonempty (grid : gmap string (list Timetable)) tt key :
  grid !! key ≠ Some [] → master_add grid tt !! key ≠ Some [].
Proof.
  unfold master_add. revert grid.
  induction (class_groups tt) as [|cg l IH]; intros grid H; [done|].
  cbn [foldl]. apply IH.
  destruct (decide (key = base_key cg (day tt) (start_time tt) (end_time tt)))
    as [->|Hne].
  - rewrite lookup_insert_eq. intros [= He].
    by apply app_eq_nil in He as [_ ?].
  - by rewrite lookup_insert_ne.
Qed.

Lemma master_fold_lookup (rows : list Timetable)
    (grid : gmap string (list Timetable)) key :
  default [] (foldl master_add grid rows !! key)
  = (default [] (grid !! key)
     ++ (tt ← rows; cg ← class_groups tt;
         if bool_decide
              (key = base_key cg (day tt) (start_time tt) (end_time tt))
         then [tt] else []))%list.
Proof.
  revert grid. induction rows as [|tt rows IH]; intros grid.
  { cbn. by rewrite app_nil_r. }
  cbn [foldl]. by rewrite IH, master_add_lookup, bind_cons, app_assoc.
Qed.

Lemma master_cell_elem_of S db key tt :
  tt ∈ master_cell S db key ↔
  tt ∈ Timetables db ∧ in_scope S tt
  ∧ ∃ cg, cg ∈ class_groups tt
          ∧ key = base_key cg (day tt) (start_time tt) (end_time tt).
Proof.
  unfold master_cell, master_grid.
  rewrite master_fold_lookup, lookup_empty. cbn [default app].
  rewrite list_elem_of_bind. split.
  - intros (row & Hin & [Hsc Hrow]%list_elem_of_filter).
    apply list_elem_of_bind in Hin as (cg & Hin & Hcg).
    case_bool_decide as Hk; [|by apply elem_of_nil in Hin].
    apply list_elem_of_singleton in Hin as ->. eauto.
  - intros (Hrow & Hsc & cg & Hcg & Hk). exists tt.
    split; [|by apply list_elem_of_filter].
    apply list_elem_of_bind. exists cg. split; [|done].
    rewrite bool_decide_eq_true_2 by done. left.
Qed.

(** X10. In the grid of either master timetable, the list under a key
    holds exactly the stored rows inside the view's structure that are
    attached to a class group [cg] with
    [{cg}_{day}_{HHMM}_{HHMM}] equal to the key; no key carries an empty
    list. *)
Theorem master_grid_holds_the_lessons_of_each_cell (m : mode) (db : DB)
    (key : string) :
  (∀ tt, tt ∈ master_cell (structure_of m) db key ↔
         tt ∈ Timetables db ∧ in_scope (structure_of m) tt
         ∧ ∃ cg, cg ∈ class_groups tt
                 ∧ key = base_key cg (day tt) (start_time tt) (end_time tt))
  ∧ master_grid (structure_of m) db !! key ≠ Some [].
Proof.
  split; [intros tt; apply master_cell_elem_of|].
  unfold master_grid.
  generalize (filter (in_scope (structure_of m)) (Timetables db)).
  intros rows.
  assert (∀ grid : gmap string (list Timetable),
            grid !! key ≠ Some [] →
            foldl master_add grid rows !! key ≠ Some []) as H.
  { induction rows as [|tt rows IH]; intros grid Hg; [done|].
    cbn [foldl]. by apply IH, master_add_nonempty. }
  apply H. by rewrite lookup_empty.
Qed.

(** X11. Every entry of the [current] map a builder renders is backed by
    the master timetable of the same structure: the entry's key is a cell
    key of the master grid followed by a sub-index, and the master grid
    lists under that cell key a row whose subject and teacher give the
    entry's value. *)
Theorem builder_entries_appear_in_master (m : mode) (db : DB)
    (request : HttpRequest) db' e current key value :
  builder_view m db request = Rendered db' e current →
  current !! key = Some value →
  ∃ base idx tt subj_id,
    key = indexed_key base idx ∧ idx ∈ [1; 2; 3]
    ∧ tt ∈ master_cell (structure_of m) db' base
    ∧ subject_fk_id tt = Some subj_id
    ∧ value = Py.str subj_id +:+ "-" +:+ Py.str (teacher_id tt).
Proof.
  unfold builder_view. destruct (handle_action _ _ _ _ _) as [[db1 e1]|];
    [|done].
  intros [= <- <- <-]. case_bool_decide; [|by rewrite lookup_empty].
  intros (cg & tt & Hcg & Htt & Hsc & Hin & subj_id & idx & Hs & Hidx & -> & ->)
    %build_current_sound.
  exists (base_key cg (day tt) (start_time tt) (end_time tt)), idx, tt, subj_id.
  split; [done|]. split; [done|]. split; [|done].
  apply master_cell_elem_of. eauto.
Qed.

Lemma builder_entries_appear_in_master_witness :
  ∃ base idx tt subj_id,
    "1_Mon_0800_0840_1" = indexed_key base idx ∧ idx ∈ [1; 2; 3]
    ∧ tt ∈ master_cell _fixed_timetable_structure (school three_lessons 4) base
    ∧ subject_fk_id tt = Some subj_id
    ∧ "1-1" = Py.str subj_id +:+ "-" +:+ Py.str (teacher_id tt).
Proof.
  apply (builder_entries_appear_in_master Normal (school three_lessons 4)
           get_F2N (school three_lessons 4) None
           (build_current _fixed_timetable_structure [1] [1]
              (school three_lessons 4))).
  - by vm_compute.
  - by vm_compute.
Defined.

(** ** Logical lessons of [remedial_stats], for any mix of records *)

Lemma remedial_merge_other (M : gmap lkey agg) rec k :
  ¬ has_lkey k rec → remedial_merge M rec !! k = M !! k.
Proof.
  unfold has_lkey, remedial_merge. destruct (lr_timetable rec) as [row|];
    [|done].
  cbn. intros Hne. fold (lkey_of row). rewrite lookup_insert_ne; [done|].
  intros Heq. apply Hne. by rewrite Heq.
Qed.

Lemma remedial_lookup_filter (lessons : list LessonRecord) (M M' : gmap lkey agg)
    (k : lkey) :
  M !! k = M' !! k →
  foldl remedial_merge M lessons !! k
  = foldl remedial_merge M' (filter (has_lkey k) lessons) !! k.
Proof.
  revert M M'. induction lessons as [|rec l IH]; intros M M' HM; [done|].
  cbn [foldl]. destruct (decide (has_lkey k rec)) as [Hk|Hk].
  - rewrite filter_cons_True by done. cbn [foldl]. apply IH.
    unfold has_lkey in Hk. unfold remedial_merge.
    destruct (lr_timetable rec) as [row|]; [|done].
    cbn in Hk. injection Hk as Hk. fold (lkey_of row). rewrite Hk.
    by rewrite !lookup_insert_eq, HM.
  - rewrite filter_cons_False by done. apply IH.
    by rewrite remedial_merge_other.
Qed.

(** X12. For any list of records, [remedial_stats] has an entry for a
    logical lesson exactly when some record belongs to it, and the entry
    carries the status of one of the lesson's records with no record of
    the lesson ranking higher (Attended 3, Not Attended 2, Pending 1, other
    0); its payment status is none when every record's is empty and
    otherwise that of one of the records, none of them ranking higher
    (Paid 2, Unpaid 1, other 0).  Records of other lessons and records
    without a timetable row do not matter. *)
Theorem remedial_lesson_keeps_its_highest_status
    (lessons : list LessonRecord) (k : lkey) :
  let recs := filter (has_lkey k) lessons in
  match remedial_logical_map lessons !! k with
  | None => recs = []
  | Some a =>
      (∃ st, agg_status a = Some st
             ∧ (∃ rec, rec ∈ recs ∧ st = rec_status rec)
             ∧ ∀ rec, rec ∈ recs →
                      status_rank (rec_status rec) ≤ status_rank st)
      ∧ match agg_payment_status a with
        | None => ∀ rec, rec ∈ recs → rec_payment rec = ""
        | Some p =>
            (∃ rec, rec ∈ recs ∧ p = rec_payment rec)
            ∧ ∀ rec, rec ∈ recs →
                     payment_rank (rec_payment rec) ≤ payment_rank p
        end
  end.
Proof.
  intros recs. unfold remedial_logical_map.
  rewrite (remedial_lookup_filter lessons ∅ ∅ k eq_refl). fold recs.
  assert (∀ r, r ∈ recs → ∃ row, lr_timetable r = Some row ∧ lkey_of row = k)
    as Hk.
  { intros r [Hr _]%list_elem_of_filter. unfold has_lkey in Hr.
    destruct (lr_timetable r) as [row|]; [|done].
    exists row. split; [done|]. cbn in Hr. congruence. }
  destruct recs as [|rec0 recs'] eqn:Hrecs;
    [cbn [foldl]; by rewrite lookup_empty|].
  destruct (remedial_status_is_highest (rec0 :: recs') k) as
    (a & st & Ha & Hst & Hin & Hmax); [done|done|].
  destruct (remedial_payment_is_highest (rec0 :: recs') k) as
    (a' & Ha' & Hpay); [done|done|].
  unfold remedial_logical_map in Ha, Ha'. rewrite Ha in Ha' |- *.
  injection Ha' as <-. split; [by exists st|].
  destruct Hpay as [[-> Hall]|(p & -> & Hp)]; done.
Qed.

(** ** Sums over the values of a map *)

Lemma sumZ_app {A} (f : A → Z) (l1 l2 : list A) :
  sumZ f (l1 ++ l2)%list = sumZ f l1 + sumZ f l2.
Proof.
  unfold sumZ. induction l1 as [|a l1 IH]; cbn; [done|]. rewrite IH. lia.
Qed.

Lemma sumZ_perm {A} (f : A → Z) (l1 l2 : list A) :
  l1 ≡ₚ l2 → sumZ f l1 = sumZ f l2.
Proof.
  unfold sumZ.
  induction 1 as [|a l1 l2 _ IH|a b l|l1 l2 l3 _ IH1 _ IH2]; cbn;
    [done|by rewrite IH|lia|congruence].
Qed.

Lemma sumZ_cons {A} (f : A → Z) (a : A) (l : list A) :
  sumZ f (a :: l) = f a + sumZ f l.
Proof. done. Qed.

Lemma sumZ_values_insert {K A} `{Countable K} (f : A → Z) (m : gmap K A)
    (k : K) (a : A) :
  sumZ f (values (<[k := a]> m))
  = sumZ f (values m) - from_option f 0 (m !! k) + f a.
Proof.
  unfold values. destruct (m !! k) as [a0|] eqn:Hk; cbn [from_option].
  - rewrite <- insert_delete_eq.
    rewrite (sumZ_perm f _ ((k, a) :: map_to_list (delete k m)).*2)
      by (apply fmap_Permutation, map_to_list_insert, lookup_delete_eq).
    rewrite (sumZ_perm f (map_to_list m).*2
               ((k, a0) :: map_to_list (delete k m)).*2)
      by (apply fmap_Permutation; symmetry; by apply map_to_list_delete).
    rewrite !fmap_cons, !sumZ_cons. cbn [snd]. lia.
  - rewrite (sumZ_perm f _ ((k, a) :: map_to_list m).*2)
      by (by apply fmap_Permutation, map_to_list_insert).
    rewrite fmap_cons, sumZ_cons. cbn [snd]. lia.
Qed.

Lemma length_values {K A} `{Countable K} (m : gmap K A) :
  length (values m) = size m.
Proof. unfold values. by rewrite length_fmap, length_map_to_list. Qed.

(** ** The totals of [remedial_stats] *)

Lemma count_agg_fold (l : list agg) (c : counters) :
  let c' := foldl count_agg c l in
  c_total c' = c_total c
  ∧ c_attended c' + c_not_attended c' + c_pending c'
    = c_attended c + c_not_attended c + c_pending c + Z.of_nat (length l)
  ∧ c_attended c ≤ c_attended c' ∧ c_not_attended c ≤ c_not_attended c'
  ∧ c_pending c ≤ c_pending c'
  ∧ c_paid c ≤ c_paid c' ∧ c_unpaid c ≤ c_unpaid c'
  ∧ c_paid c' + c_unpaid c' ≤ c_paid c + c_unpaid c + Z.of_nat (length l)
  ∧ c_paid_amount c' = c_paid_amount c + sumZ agg_paid_amount l
  ∧ c_unpaid_amount c' = c_unpaid_amount c + sumZ agg_unpaid_amount l.
Proof.
  revert c. induction l as [|a l IH]; intros c; cbn zeta.
  { cbn. repeat split; lia. }
  cbn [foldl]. specialize (IH (count_agg c a)). cbn zeta in IH.
  destruct IH as (H1 & H2 & H3 & H4 & H5 & H6 & H7 & H8 & H9 & H10).
  rewrite H1, H2, H9, H10, !sumZ_cons. cbn [length].
  unfold count_agg in *. cbn [c_total c_attended c_not_attended c_pending
    c_paid c_unpaid c_paid_amount c_unpaid_amount] in *.
  repeat case_bool_decide; repeat split; lia.
Qed.

Lemma dom_remedial_fold (lessons : list LessonRecord) (M : gmap lkey agg) :
  dom (foldl remedial_merge M lessons)
  = dom M ∪ list_to_set (lesson_keys lessons).
Proof.
  revert M. induction lessons as [|rec l IH]; intros M.
  { cbn. set_solver. }
  cbn [foldl]. rewrite IH.
  assert (lesson_keys (rec :: l)
          = match lr_timetable rec with
            | Some row => lkey_of row :: lesson_keys l
            | None => lesson_keys l
            end) as ->
    by (unfold lesson_keys; cbn; by destruct (lr_timetable rec)).
  unfold remedial_merge. destruct (lr_timetable rec) as [row|]; [|done].
  cbn zeta. rewrite dom_insert_L. fold (lkey_of row).
  rewrite list_to_set_cons. set_solver.
Qed.

(** X13. [remedial_stats] counts logical lessons, not records: [total] is
    the number of distinct (teacher, day, start, end, subject) keys among
    the records that have a timetable row; every logical lesson is counted
    in exactly one of attended, not attended and pending, so the three add
    up to [total]; paid and unpaid together never exceed it, and no count
    is negative. *)
Theorem remedial_totals_count_logical_lessons (lessons : list LessonRecord) :
  let t := remedial_totals (remedial_logical_map lessons) in
  c_total t = Z.of_nat (length (remove_dups (lesson_keys lessons)))
  ∧ c_attended t + c_not_attended t + c_pending t = c_total t
  ∧ c_paid t + c_unpaid t ≤ c_total t
  ∧ 0 ≤ c_attended t ∧ 0 ≤ c_not_attended t ∧ 0 ≤ c_pending t
  ∧ 0 ≤ c_paid t ∧ 0 ≤ c_unpaid t.
Proof.
  cbn zeta. unfold remedial_totals.
  pose proof (count_agg_fold (values (remedial_logical_map lessons))
                no_counts) as H.
  cbn zeta in H. destruct H as (H1 & H2 & H3 & H4 & H5 & H6 & H7 & H8 & _).
  rewrite length_values in H2, H8.
  assert (size (remedial_logical_map lessons)
          = length (remove_dups (lesson_keys lessons))) as Hsize.
  { rewrite <- (size_dom (D := gset lkey)). unfold remedial_logical_map.
    rewrite dom_remedial_fold, dom_empty_L, (left_id_L ∅ (∪)).
    rewrite <- (size_list_to_set (C := gset lkey) (remove_dups _))
      by apply NoDup_remove_dups.
    f_equal. apply set_eq. intros k.
    by rewrite !elem_of_list_to_set, elem_of_remove_dups. }
  rewrite <- Hsize.
  unfold set_total. cbn [c_total c_attended c_not_attended c_pending
    c_paid c_unpaid no_counts] in *.
  repeat split; lia.
Qed.

Lemma merge_agg_amounts (a : agg) (rec : LessonRecord) :
  agg_paid_amount (merge_agg a rec) = agg_paid_amount a + paid_part rec
  ∧ agg_unpaid_amount (merge_agg a rec)
    = agg_unpaid_amount a + unpaid_part rec.
Proof.
  unfold merge_agg, paid_part, unpaid_part, rec_payment.
  cbn [agg_paid_amount agg_unpaid_amount].
  repeat case_bool_decide; split; lia.
Qed.

Lemma remedial_merge_amounts (M : gmap lkey agg) (rec : LessonRecord) :
  sumZ agg_paid_amount (values (remedial_merge M rec))
  = sumZ agg_paid_amount (values M) + sumZ paid_part (with_timetable [rec])
  ∧ sumZ agg_unpaid_amount (values (remedial_merge M rec))
    = sumZ agg_unpaid_amount (values M)
      + sumZ unpaid_part (with_timetable [rec]).
Proof.
  unfold with_timetable, remedial_merge.
  destruct (lr_timetable rec) as [row|] eqn:Hrow.
  - rewrite filter_cons_True by (by rewrite Hrow). cbn zeta.
    rewrite !sumZ_values_insert.
    rewrite (proj1 (merge_agg_amounts _ rec)),
            (proj2 (merge_agg_amounts _ rec)).
    rewrite !sumZ_cons. destruct (M !! _) as [a0|]; cbn; split; lia.
  - rewrite filter_cons_False by (rewrite Hrow; by intros [? ?]).
    cbn. split; lia.
Qed.

Lemma remedial_amounts_fold (lessons : list LessonRecord) (M : gmap lkey agg) :
  let M' := foldl remedial_merge M lessons in
  sumZ agg_paid_amount (values M')
  = sumZ agg_paid_amount (values M) + sumZ paid_part (with_timetable lessons)
  ∧ sumZ agg_unpaid_amount (values M')
    = sumZ agg_unpaid_amount (values M)
      + sumZ unpaid_part (with_timetable lessons).
Proof.
  revert M. induction lessons as [|rec l IH]; intros M; cbn zeta.
  { cbn. split; lia. }
  cbn [foldl]. specialize (IH (remedial_merge M rec)). cbn zeta in IH.
  destruct IH as [IH1 IH2]. rewrite IH1, IH2. clear IH1 IH2.
  destruct (remedial_merge_amounts M rec) as [-> ->].
  change (rec :: l) with ([rec] ++ l)%list. unfold with_timetable.
  rewrite filter_app, !sumZ_app. split; lia.
Qed.

(** X14. Grouping affects the counts of [remedial_stats], not its sums:
    the total paid amount is the sum of the amounts of all records with a
    timetable row whose payment status is Paid (ignoring case and
    surrounding blanks), and the total unpaid amount that of the Unpaid
    ones, however many of them share a logical lesson. *)
Theorem remedial_amounts_are_summed_per_record (lessons : list LessonRecord) :
  let t := remedial_totals (remedial_logical_map lessons) in
  c_paid_amount t = sumZ paid_part (with_timetable lessons)
  ∧ c_unpaid_amount t = sumZ unpaid_part (with_timetable lessons).
Proof.
  cbn zeta. unfold remedial_totals, remedial_logical_map.
  pose proof (count_agg_fold (values (foldl remedial_merge ∅ lessons))
                no_counts) as H.
  cbn zeta in H. destruct H as (_ & _ & _ & _ & _ & _ & _ & _ & H9 & H10).
  pose proof (remedial_amounts_fold lessons ∅) as [Hp Hu].
  unfold set_total. cbn [c_paid_amount c_unpaid_amount no_counts] in *.
  rewrite H9, H10, Hp, Hu. unfold values. rewrite map_to_list_empty. cbn.
  split; lia.
Qed.

(** ** The per-teacher counters *)

Lemma count_teacher_fold (p : counters → Z) (l : list agg)
    (ptc : gmap Z counters) :
  p no_counts = 0 →
  (∀ c a, p (count_agg (set_total (c_total c + 1) c) a) = p c + part p a) →
  sumZ p (values (foldl count_teacher ptc l))
  = sumZ p (values ptc) + sumZ (part p) l.
Proof.
  intros H0 Hadd. revert ptc. induction l as [|a l IH]; intros ptc.
  { cbn. lia. }
  cbn [foldl]. rewrite IH, sumZ_cons. unfold count_teacher.
  rewrite sumZ_values_insert, Hadd.
  destruct (ptc !! agg_teacher_id a) as [c|]; cbn [from_option id]; lia.
Qed.

Lemma count_agg_part_fold (p : counters → Z) (l : list agg) (c : counters) :
  (∀ c a, p (count_agg c a) = p c + part p a) →
  p (foldl count_agg c l) = p c + sumZ (part p) l.
Proof.
  intros Hadd. revert c. induction l as [|a l IH]; intros c.
  { cbn. lia. }
  cbn [foldl]. rewrite IH, Hadd, sumZ_cons. lia.
Qed.

Lemma count_teacher_partition (l : list agg) (ptc : gmap Z counters) :
  (∀ tid c, ptc !! tid = Some c →
            c_attended c + c_not_attended c + c_pending c = c_total c
            ∧ 0 < c_total c) →
  ∀ tid c, foldl count_teacher ptc l !! tid = Some c →
           c_attended c + c_not_attended c + c_pending c = c_total c
           ∧ 0 < c_total c.
Proof.
  revert ptc. induction l as [|a l IH]; intros ptc Hptc; [done|].
  cbn [foldl]. apply IH. intros tid c. unfold count_teacher.
  destruct (decide (tid = agg_teacher_id a)) as [->|Hne].
  - rewrite lookup_insert_eq. intros [= <-].
    assert (c_attended (default no_counts (ptc !! agg_teacher_id a))
            + c_not_attended (default no_counts (ptc !! agg_teacher_id a))
            + c_pending (default no_counts (ptc !! agg_teacher_id a))
            = c_total (default no_counts (ptc !! agg_teacher_id a))
            ∧ 0 ≤ c_total (default no_counts (ptc !! agg_teacher_id a)))
      as [H1 H2].
    { destruct (ptc !! agg_teacher_id a) as [c0|] eqn:Hc0; [|done].
      destruct (Hptc _ _ Hc0). cbn [from_option id]. lia. }
    unfold count_agg, set_total.
    cbn [c_total c_attended c_not_attended c_pending].
    repeat case_bool_decide; lia.
  - rewrite lookup_insert_ne by done. apply Hptc.
Qed.

(** X15. The per-teacher counters of [remedial_stats] split the page
    totals: summed over the teachers, each of the eight counters (total,
    attended, not attended, pending, paid, unpaid, paid amount, unpaid
    amount) gives the page's own figure; and for every teacher listed,
    attended, not attended and pending add up to the teacher's total,
    which is at least one. *)
Theorem remedial_teacher_counters_add_up (logical_map : gmap lkey agg) :
  let t := remedial_totals logical_map in
  let per_teacher := remedial_per_teacher logical_map in
  sumZ c_total (values per_teacher) = c_total t
  ∧ sumZ c_attended (values per_teacher) = c_attended t
  ∧ sumZ c_not_attended (values per_teacher) = c_not_attended t
  ∧ sumZ c_pending (values per_teacher) = c_pending t
  ∧ sumZ c_paid (values per_teacher) = c_paid t
  ∧ sumZ c_unpaid (values per_teacher) = c_unpaid t
  ∧ sumZ c_paid_amount (values per_teacher) = c_paid_amount t
  ∧ sumZ c_unpaid_amount (values per_teacher) = c_unpaid_amount t
  ∧ ∀ tid c, per_teacher !! tid = Some c →
             c_attended c + c_not_attended c + c_pending c = c_total c
             ∧ 0 < c_total c.
Proof.
  cbn zeta. unfold remedial_totals, remedial_per_teacher, set_total.
  cbn [c_total c_attended c_not_attended c_pending c_paid c_unpaid
       c_paid_amount c_unpaid_amount].
  assert (sumZ (part c_total) (values logical_map)
          = Z.of_nat (size logical_map)) as Htotal.
  { rewrite <- length_values. generalize (values logical_map).
    induction l as [|a l IH]; [done|].
    rewrite sumZ_cons, IH. cbn [length]. unfold part. cbn. lia. }
  assert (sumZ c_total (values (∅ : gmap Z counters)) = 0
          ∧ sumZ c_attended (values (∅ : gmap Z counters)) = 0
          ∧ sumZ c_not_attended (values (∅ : gmap Z counters)) = 0
          ∧ sumZ c_pending (values (∅ : gmap Z counters)) = 0
          ∧ sumZ c_paid (values (∅ : gmap Z counters)) = 0
          ∧ sumZ c_unpaid (values (∅ : gmap Z counters)) = 0
          ∧ sumZ c_paid_amount (values (∅ : gmap Z counters)) = 0
          ∧ sumZ c_unpaid_amount (values (∅ : gmap Z counters)) = 0)
    as (E1 & E2 & E3 & E4 & E5 & E6 & E7 & E8).
  { unfold values. rewrite map_to_list_empty. done. }
  rewrite !count_teacher_fold, E1, E2, E3, E4, E5, E6, E7, E8, Htotal;
    try done;
    try (intros c a; unfold part, count_agg, set_total;
         cbn [c_total c_attended c_not_attended c_pending c_paid c_unpaid
              c_paid_amount c_unpaid_amount no_counts];
         repeat case_bool_decide; lia).
  rewrite !count_agg_part_fold;
    try (intros c a; unfold part, count_agg, set_total;
         cbn [c_total c_attended c_not_attended c_pending c_paid c_unpaid
              c_paid_amount c_unpaid_amount no_counts];
         repeat case_bool_decide; lia).
  cbn [no_counts c_attended c_not_attended c_pending c_paid c_unpaid
       c_paid_amount c_unpaid_amount].
  repeat (split; [lia|]).
  apply count_teacher_partition. intros tid c. by rewrite lookup_empty.
Qed.

(** ** The counts of [deputy_normal_stats] *)

Lemma count_status_sum (v : string) (l : list string) :
  count_status v l
  = sumZ (fun s => if bool_decide (lower s = v) then 1 else 0) l.
Proof.
  unfold count_status. induction l as [|s l IH]; [done|].
  rewrite sumZ_cons, <- IH. case_bool_decide.
  - rewrite filter_cons_True by done. cbn [length]. lia.
  - rewrite filter_cons_False by done. lia.
Qed.

Lemma deputy_count_teacher_fold (p : deputy_counts → Z)
    (l : list (nkey * string)) (ptc : gmap Z deputy_counts) :
  (∀ c status,
     p {| d_total := d_total c + 1;
          d_attended :=
            if bool_decide (lower status = "attended") then d_attended c + 1
            else d_attended c;
          d_not_attended :=
            if bool_decide (lower status = "attended") then d_not_attended c
            else if bool_decide (lower status = "not attended")
                 then d_not_attended c + 1 else d_not_attended c;
          d_pending :=
            if bool_decide (lower status = "attended") then d_pending c
            else if bool_decide (lower status = "not attended")
                 then d_pending c else d_pending c + 1 |}
     = p c + deputy_part p status) →
  p {| d_total := 0; d_attended := 0; d_not_attended := 0; d_pending := 0 |}
  = 0 →
  sumZ p (values (foldl deputy_count_teacher ptc l))
  = sumZ p (values ptc) + sumZ (deputy_part p) l.*2.
Proof.
  intros Hadd H0. revert ptc. induction l as [|[k status] l IH]; intros ptc.
  { cbn. lia. }
  cbn [foldl]. rewrite IH, fmap_cons, sumZ_cons. unfold deputy_count_teacher.
  cbn [fst snd]. rewrite sumZ_values_insert, Hadd.
  destruct (ptc !! _) as [c|]; cbn [from_option id]; lia.
Qed.

Lemma deputy_count_teacher_partition (l : list (nkey * string))
    (ptc : gmap Z deputy_counts) :
  (∀ tid c, ptc !! tid = Some c →
            d_attended c + d_not_attended c + d_pending c = d_total c) →
  ∀ tid c, foldl deputy_count_teacher ptc l !! tid = Some c →
           d_attended c + d_not_attended c + d_pending c = d_total c.
Proof.
  revert ptc. induction l as [|[k status] l IH]; intros ptc Hptc; [done|].
  cbn [foldl]. apply IH. intros tid c. unfold deputy_count_teacher.
  cbn [fst snd].
  destruct (decide (tid = k.1.1.1.1)) as [->|Hne].
  - rewrite lookup_insert_eq. intros [= <-].
    cbn [d_total d_attended d_not_attended d_pending].
    destruct (ptc !! k.1.1.1.1) as [c0|] eqn:Hc0; cbn [from_option id].
    + specialize (Hptc _ _ Hc0). repeat case_bool_decide; lia.
    + cbn. repeat case_bool_decide; lia.
  - rewrite lookup_insert_ne by done. apply Hptc.
Qed.

(** X16. In [deputy_normal_stats] the page counts attended, not attended
    and pending by exact (case-insensitive) status, so together they never
    exceed [total]; the per-teacher counters put every logical lesson that
    is neither attended nor not attended under pending, so for each teacher
    the three add up to the teacher's total, the teachers' totals, attended
    and not attended counts add up to the page's, and their pending counts
    add up to [total] minus the page's attended and not attended, which is
    at least the page's pending. *)
Theorem deputy_counts_add_up (logical_map : gmap nkey string) :
  let t := deputy_totals logical_map in
  let per_teacher := deputy_per_teacher logical_map in
  d_total t = Z.of_nat (size logical_map)
  ∧ d_attended t + d_not_attended t + d_pending t ≤ d_total t
  ∧ sumZ d_total (values per_teacher) = d_total t
  ∧ sumZ d_attended (values per_teacher) = d_attended t
  ∧ sumZ d_not_attended (values per_teacher) = d_not_attended t
  ∧ sumZ d_pending (values per_teacher)
    = d_total t - d_attended t - d_not_attended t
  ∧ ∀ tid c, per_teacher !! tid = Some c →
             d_attended c + d_not_attended c + d_pending c = d_total c.
Proof.
  cbn zeta. unfold deputy_totals, deputy_per_teacher.
  cbn [d_total d_attended d_not_attended d_pending].
  rewrite !count_status_sum.
  assert (∀ p : deputy_counts → Z,
            sumZ p (values (∅ : gmap Z deputy_counts)) = 0) as E.
  { intros p. unfold values. by rewrite map_to_list_empty. }
  rewrite !deputy_count_teacher_fold, !E;
    try done;
    try (intros c status; unfold deputy_part;
         cbn [d_total d_attended d_not_attended d_pending];
         repeat case_bool_decide; lia).
  fold (values logical_map). rewrite <- length_values.
  generalize (values logical_map). intros l.
  assert (sumZ (deputy_part d_total) l = Z.of_nat (length l)
          ∧ sumZ (deputy_part d_attended) l
            = sumZ (fun s => if bool_decide (lower s = "attended")
                             then 1 else 0) l
          ∧ sumZ (deputy_part d_not_attended) l
            = sumZ (fun s => if bool_decide (lower s = "not attended")
                             then 1 else 0) l
          ∧ sumZ (deputy_part d_pending) l
            = Z.of_nat (length l)
              - sumZ (fun s => if bool_decide (lower s = "attended")
                               then 1 else 0) l
              - sumZ (fun s => if bool_decide (lower s = "not attended")
                               then 1 else 0) l
          ∧ sumZ (fun s => if bool_decide (lower s = "attended")
                           then 1 else 0) l
            + sumZ (fun s => if bool_decide (lower s = "not attended")
                             then 1 else 0) l
            + sumZ (fun s => if bool_decide (lower s = "pending")
                             then 1 else 0) l
            ≤ Z.of_nat (length l)) as (H1 & H2 & H3 & H4 & H5).
  { induction l as [|s l (H1 & H2 & H3 & H4 & H5)]; [by cbn|].
    rewrite !sumZ_cons, H1, H2, H3, H4. cbn [length].
    unfold deputy_part. cbn [d_total d_attended d_not_attended d_pending].
    repeat case_bool_decide; try congruence; repeat split; lia. }
  rewrite H1, H2, H3, H4. repeat (split; [lia|]).
  apply deputy_count_teacher_partition. intros tid c. by rewrite lookup_empty.
Qed.

(** ** [get_or_create] *)

Section get_or_create.
Context {A K : Type} `{EqDecision K}.
Variable key : A → K.

Lemma get_or_create_found (k : K) (new row : A) (table : list A) :
  filter (fun r => key r = k) table = [row] →
  get_or_create key k new table = Some (table, row, false).
Proof. unfold get_or_create. by intros ->. Qed.

Lemma get_or_create_spec (k : K) (new : A) (table table' : list A)
    (obj : A) (created : bool) :
  key new = k →
  get_or_create key k new table = Some (table', obj, created) →
  filter (fun r => key r = k) table' = [obj]
  ∧ (if created
     then filter (fun r => key r = k) table = [] ∧ obj = new
          ∧ table' = (table ++ [new])%list
     else table' = table).
Proof.
  intros Hnew. unfold get_or_create.
  destruct (filter _ table) as [|row [|row' rest]] eqn:Hf; [| |done].
  - intros [= <- <- <-]. rewrite filter_app, Hf.
    rewrite filter_cons_True by done. by rewrite filter_nil.
  - by intros [= <- <- <-].
Qed.

Lemma get_or_create_keeps (k k' : K) (new : A) (table table' : list A)
    (obj : A) (created : bool) :
  key new = k →
  get_or_create key k new table = Some (table', obj, created) →
  filter (fun r => key r = k') table ≠ [] →
  filter (fun r => key r = k') table' = filter (fun r => key r = k') table.
Proof.
  intros Hnew Hg Hne.
  destruct (get_or_create_spec k new table table' obj created Hnew Hg)
    as [_ Hc].
  destruct created; [|by rewrite Hc].
  destruct Hc as (Hnil & -> & ->). rewrite filter_app.
  rewrite filter_cons_False, filter_nil, app_nil_r; [done|].
  intros Hk'. apply Hne. rewrite <- Hnil. apply filter_ext_in.
  intros r _. by rewrite <- Hk', Hnew.
Qed.
End get_or_create.

(** ** Generating the remedial lesson records *)

Lemma generate_record_spec w ls c tt ls' c' :
  generate_record w (ls, c) tt = inl (ls', c') →
  Weeks ls' = Weeks ls
  ∧ NormalLessonSlots ls' = NormalLessonSlots ls
  ∧ next_slot_pk ls' = next_slot_pk ls
  ∧ NormalLessonAttendances ls' = NormalLessonAttendances ls
  ∧ next_attendance_pk ls' = next_attendance_pk ls
  ∧ length (records_of ls' (pk tt) w) = 1%nat
  ∧ ((records_of ls (pk tt) w = []
      ∧ LessonRecords ls' = (LessonRecords ls ++ [new_record ls tt w])%list
      ∧ next_record_pk ls' = next_record_pk ls + 1 ∧ c' = c + 1)
     ∨ (records_of ls (pk tt) w ≠ [] ∧ ls' = ls ∧ c' = c)).
Proof.
  unfold generate_record.
  destruct (get_or_create _ _ _ _) as [[[rows obj] created]|] eqn:Hg; [|done].
  apply get_or_create_spec in Hg as [Hone Hc]; [|done].
  destruct created.
  - destruct Hc as (Hnil & -> & ->). intros [= <- <-].
    repeat (split; [done|]). split.
    { unfold records_of. cbn [LessonRecords set_LessonRecords].
      by rewrite Hone. }
    left. done.
  - subst rows. intros [= <- <-]. repeat (split; [done|]).
    split; [unfold records_of; by rewrite Hone|].
    right. split; [|done]. unfold records_of. by rewrite Hone.
Qed.

Lemma generate_record_keeps w ls c tt ls' c' tt_pk :
  generate_record w (ls, c) tt = inl (ls', c') →
  records_of ls tt_pk w ≠ [] →
  records_of ls' tt_pk w = records_of ls tt_pk w.
Proof.
  intros Hg Hne.
  apply generate_record_spec in Hg
    as (_ & _ & _ & _ & _ & _ & [(Hnil & Hrows & _)|(_ & -> & _)]); [|done].
  unfold records_of in *. rewrite Hrows, filter_app.
  rewrite filter_cons_False, filter_nil, app_nil_r; [done|].
  unfold record_key, new_record. cbn. intros [= Hpk].
  apply Hne. by rewrite <- Hpk.
Qed.

Lemma generate_loop_spec w tts ls c ls' c' :
  for_each (generate_record w) (ls, c) tts = inl (ls', c') →
  Weeks ls' = Weeks ls
  ∧ NormalLessonSlots ls' = NormalLessonSlots ls
  ∧ next_slot_pk ls' = next_slot_pk ls
  ∧ NormalLessonAttendances ls' = NormalLessonAttendances ls
  ∧ next_attendance_pk ls' = next_attendance_pk ls
  ∧ (∀ tt, tt ∈ tts → length (records_of ls' (pk tt) w) = 1%nat)
  ∧ (∀ tt_pk, records_of ls tt_pk w ≠ [] →
              records_of ls' tt_pk w = records_of ls tt_pk w)
  ∧ ∃ created,
      LessonRecords ls' = (LessonRecords ls ++ created)%list
      ∧ c' = c + Z.of_nat (length created)
      ∧ next_record_pk ls' = next_record_pk ls + Z.of_nat (length created)
      ∧ ∀ r, r ∈ created →
             lrr_week_id r = week_pk w ∧ lrr_status r = "Pending"
             ∧ lrr_payment_status r = "Unpaid" ∧ lrr_amount r = 40000
             ∧ ∃ tt, tt ∈ tts ∧ lrr_timetable_id r = pk tt
                     ∧ lrr_created_by_id r = teacher_id tt
                     ∧ lrr_teacher_id r = Some (teacher_id tt)
                     ∧ records_of ls (pk tt) w = [].
Proof.
  revert ls c. induction tts as [|tt tts IH]; intros ls c.
  { intros [= <- <-]. repeat (split; [done|]).
    split; [intros tt Htt; by apply elem_of_nil in Htt|].
    split; [done|]. exists []. rewrite app_nil_r. cbn [length].
    split; [done|]. split; [lia|]. split; [lia|].
    intros r Hr. by apply elem_of_nil in Hr. }
  cbn [for_each].
  destruct (generate_record w (ls, c) tt) as [[ls1 c1]|] eqn:Hg; [|done].
  intros Hloop.
  pose proof (fun tt_pk => generate_record_keeps _ _ _ _ _ _ tt_pk Hg)
    as Hkeep.
  apply generate_record_spec in Hg
    as (W1 & S1 & SP1 & A1 & AP1 & Hone & Hcase).
  apply IH in Hloop
    as (W2 & S2 & SP2 & A2 & AP2 & Hall & Hkeep2 & created & Hrows & Hc
        & Hnext & Hcreated).
  split; [congruence|]. split; [congruence|]. split; [congruence|].
  split; [congruence|]. split; [congruence|]. split.
  { intros t [->|Ht]%elem_of_cons; [|by apply Hall].
    rewrite Hkeep2; [done|]. intros Hnil. by rewrite Hnil in Hone. }
  split.
  { intros tt_pk Hne. rewrite Hkeep2; [by apply Hkeep|].
    by rewrite Hkeep. }
  assert (∀ r, r ∈ created →
            lrr_week_id r = week_pk w ∧ lrr_status r = "Pending"
            ∧ lrr_payment_status r = "Unpaid" ∧ lrr_amount r = 40000
            ∧ ∃ t, t ∈ tt :: tts ∧ lrr_timetable_id r = pk t
                   ∧ lrr_created_by_id r = teacher_id t
                   ∧ lrr_teacher_id r = Some (teacher_id t)
                   ∧ records_of ls (pk t) w = []) as Hcreated'.
  { intros r Hr.
    destruct (Hcreated r Hr) as (E1 & E2 & E3 & E4 & t & Ht & E5 & E6 & E7 & E8).
    repeat (split; [done|]). exists t. split; [by right|].
    repeat (split; [done|]).
    destruct (records_of ls (pk t) w) as [|r0 rs] eqn:Hrec; [done|].
    rewrite Hkeep in E8; [|by rewrite Hrec]. by rewrite Hrec in E8. }
  destruct Hcase as [(Hnil & Hrows1 & Hnext1 & ->)|(Hne & -> & ->)].
  - exists (new_record ls tt w :: created).
    rewrite Hrows, Hrows1, <- app_assoc. split; [done|].
    cbn [length]. split; [lia|]. split; [lia|].
    intros r [->|Hr]%elem_of_cons; [|by apply Hcreated'].
    repeat (split; [done|]). exists tt. split; [left|]. done.
  - exists created. done.
Qed.

Lemma generate_loop_replay w tts ls c :
  (∀ tt, tt ∈ tts → length (records_of ls (pk tt) w) = 1%nat) →
  for_each (generate_record w) (ls, c) tts = inl (ls, c).
Proof.
  induction tts as [|tt tts IH]; intros Hall; [done|].
  cbn [for_each]. unfold generate_record.
  assert (length (records_of ls (pk tt) w) = 1%nat) as Hone
    by (apply Hall; left).
  unfold records_of in Hone.
  destruct (filter _ (LessonRecords ls)) as [|row [|row' rest]] eqn:Hf;
    [done| |done].
  rewrite (get_or_create_found _ _ _ row) by done.
  apply IH. intros t Ht. apply Hall. by right.
Qed.

Lemma generation_view_page run ls request ls' w n :
  generation_view run ls request = GenerationPage ls' (Some w) (Some n) →
  ∃ week_id,
    method request = "POST" ∧ get (POST request) "week" = Some week_id
    ∧ week_id ≠ "" ∧ Week_get ls week_id = Some (Some w)
    ∧ run w ls = inl (ls', n).
Proof.
  unfold generation_view. case_bool_decide as Hm; [|done].
  destruct (get (POST request) "week") as [week_id|]; [|done].
  case_bool_decide as Hid; [done|].
  destruct (Week_get ls week_id) as [[w0|]|] eqn:Hw; [|done..].
  destruct (run w0 ls) as [[ls1 n1]|[ls1 n1]] eqn:Hrun; [|done].
  intros [= <- <- <-]. by exists week_id.
Qed.

Lemma generation_view_replay run ls request ls' w n :
  generation_view run ls request = GenerationPage ls' (Some w) (Some n) →
  Weeks ls' = Weeks ls →
  run w ls' = inl (ls', 0) →
  generation_view run ls' request = GenerationPage ls' (Some w) (Some 0).
Proof.
  intros (week_id & Hm & Hget & Hne & Hw & _)%generation_view_page HW Hrun.
  unfold generation_view. rewrite bool_decide_eq_true_2 by done.
  rewrite Hget, bool_decide_eq_false_2 by done.
  assert (Week_get ls' week_id = Some (Some w)) as ->
    by (unfold Week_get in *; by rewrite HW).
  by rewrite Hrun.
Qed.

(** X17. When [generate_remedial_week_lessons] completes for a selected
    week, the lesson records it leaves are the records it found followed
    by the created ones, [created_att] is the number created, each created
    record belongs to the selected week and to a timetable row that had no
    record for that week, with that row's teacher as [teacher] and
    [created_by], status Pending, payment Unpaid and amount 400.00; every
    timetable row then has exactly one record for the week, and no other
    table changes. *)
Theorem remedial_generation_covers_every_row (db : DB) (ls ls' : Lessons)
    (request : HttpRequest) (w : Week) (n : Z) :
  generate_remedial_week_lessons db ls request
  = GenerationPage ls' (Some w) (Some n) →
  (∀ tt, tt ∈ Timetables db → length (records_of ls' (pk tt) w) = 1%nat)
  ∧ (∃ created,
       LessonRecords ls' = (LessonRecords ls ++ created)%list
       ∧ n = Z.of_nat (length created)
       ∧ ∀ r, r ∈ created →
              lrr_week_id r = week_pk w ∧ lrr_status r = "Pending"
              ∧ lrr_payment_status r = "Unpaid" ∧ lrr_amount r = 40000
              ∧ ∃ tt, tt ∈ Timetables db ∧ lrr_timetable_id r = pk tt
                      ∧ lrr_created_by_id r = teacher_id tt
                      ∧ lrr_teacher_id r = Some (teacher_id tt)
                      ∧ records_of ls (pk tt) w = [])
  ∧ Weeks ls' = Weeks ls
  ∧ NormalLessonSlots ls' = NormalLessonSlots ls
  ∧ NormalLessonAttendances ls' = NormalLessonAttendances ls.
Proof.
  intros (week_id & _ & _ & _ & _ & Hrun)%generation_view_page.
  apply generate_loop_spec in Hrun
    as (W & S & _ & A & _ & Hall & _ & created & Hrows & Hc & _ & Hcreated).
  split; [done|]. split; [|done].
  exists created. split; [done|]. split; [lia|done].
Qed.

Lemma remedial_generation_covers_every_row_witness :
  ∃ ls',
    generate_remedial_week_lessons (school three_lessons 4) term
      generate_week_1
    = GenerationPage ls' (Some {| week_pk := 1; start_date := 100;
                                  end_date := 104 |}) (Some 3)
    ∧ ∀ tt, tt ∈ three_lessons →
            length (records_of ls' (pk tt)
                      {| week_pk := 1; start_date := 100; end_date := 104 |})
            = 1%nat.
Proof.
  eexists. split; [by vm_compute|].
  eapply (remedial_generation_covers_every_row (school three_lessons 4)
            term _ generate_week_1 _ 3).
  by vm_compute.
Defined.

(** X18. [generate_remedial_week_lessons] is idempotent, as its docstring
    says: once a run for a week has completed, running the same request
    again completes too, creates nothing ([created_att] is 0) and leaves
    every table as the first run left it. *)
Theorem remedial_generation_is_idempotent (db : DB) (ls ls' : Lessons)
    (request : HttpRequest) (w : Week) (n : Z) :
  generate_remedial_week_lessons db ls request
  = GenerationPage ls' (Some w) (Some n) →
  generate_remedial_week_lessons db ls' request
  = GenerationPage ls' (Some w) (Some 0).
Proof.
  intros H. pose proof H as (week_id & _ & _ & _ & _ & Hrun)%generation_view_page.
  apply generate_loop_spec in Hrun as (W & _ & _ & _ & _ & Hall & _).
  apply (generation_view_replay _ ls request ls' w n H W).
  by apply generate_loop_replay.
Qed.

Lemma remedial_generation_is_idempotent_witness :
  ∃ ls',
    generate_remedial_week_lessons (school three_lessons 4) term
      generate_week_1
    = GenerationPage ls' (Some {| week_pk := 1; start_date := 100;
                                  end_date := 104 |}) (Some 3)
    ∧ generate_remedial_week_lessons (school three_lessons 4) ls'
        generate_week_1
      = GenerationPage ls' (Some {| week_pk := 1; start_date := 100;
                                    end_date := 104 |}) (Some 0).
Proof.
  eexists. split; [by vm_compute|].
  apply (remedial_generation_is_idempotent (school three_lessons 4) term _
           generate_week_1 _ 3).
  by vm_compute.
Defined.



(** ** Generating the normal slots and attendance *)


(** ** Generating the normal slots and attendance *)

Lemma grows_refl ls : grows ls ls.
Proof. by repeat split. Qed.

Lemma grows_trans ls1 ls2 ls3 : grows ls1 ls2 → grows ls2 ls3 → grows ls1 ls3.
Proof.
  intros (W1 & R1 & S1 & A1) (W2 & R2 & S2 & A2).
  split; [congruence|]. split; [congruence|]. split.
  - intros slot Hne. rewrite S2, S1; [done..|]. by rewrite S1.
  - intros p d Hne. rewrite A2, A1; [done..|]. by rewrite A1.
Qed.

Lemma generate_slot_spec tt ls fs cg ls' fs' :
  generate_slot tt (ls, fs) cg = inl (ls', fs') →
  grows ls ls'
  ∧ NormalLessonAttendances ls' = NormalLessonAttendances ls
  ∧ ∃ subj_id row,
      subject_fk_id tt = Some subj_id
      ∧ slots_of ls' (slot_of tt subj_id cg) = [row]
      ∧ fs' = Some (default row fs).
Proof.
  unfold generate_slot. destruct (subject_fk_id tt) as [subj_id|]; [|done].
  destruct (get_or_create _ _ _ _) as [[[rows slot] created]|] eqn:Hg;
    [|done].
  pose proof (fun k' =>
                get_or_create_keeps srow_slot _ k' _ _ _ _ _ eq_refl Hg)
    as Hkeep.
  apply get_or_create_spec in Hg as [Hone Hc]; [|done].
  intros [= <- <-].
  assert (NormalLessonSlots
            (if created
             then set_NormalLessonSlots ls rows (next_slot_pk ls + 1)
             else ls) = rows) as Hrows.
  { destruct created; [done|]. by rewrite Hc. }
  split; [|split].
  - split; [by destruct created|]. split; [by destruct created|]. split.
    + intros s Hne. unfold slots_of in *. rewrite Hrows.
      apply Hkeep. exact Hne.
    + intros p d _. by destruct created.
  - by destruct created.
  - exists subj_id, slot. split; [done|]. split.
    + unfold slots_of. by rewrite Hrows.
    + by destruct fs.
Qed.

Lemma generate_slots_spec tt cgs ls fs ls' fs' :
  for_each (generate_slot tt) (ls, fs) cgs = inl (ls', fs') →
  grows ls ls'
  ∧ NormalLessonAttendances ls' = NormalLessonAttendances ls
  ∧ match cgs with
    | [] => fs' = fs
    | cg0 :: _ =>
        ∃ subj_id,
          subject_fk_id tt = Some subj_id
          ∧ (∀ cg, cg ∈ cgs →
                   length (slots_of ls' (slot_of tt subj_id cg)) = 1%nat)
          ∧ match fs with
            | Some first => fs' = Some first
            | None => ∃ row, slots_of ls' (slot_of tt subj_id cg0) = [row]
                             ∧ fs' = Some row
            end
    end.
Proof.
  revert ls fs. induction cgs as [|cg cgs IH]; intros ls fs.
  { intros [= <- <-]. split; [apply grows_refl|done]. }
  cbn [for_each].
  destruct (generate_slot tt (ls, fs) cg) as [[ls1 fs1]|] eqn:Hg; [|done].
  intros Hloop.
  apply generate_slot_spec in Hg as (G1 & A1 & subj_id & row & Hs & Hrow & ->).
  apply IH in Hloop as (G2 & A2 & Hrest).
  split; [by eapply grows_trans|]. split; [congruence|].
  exists subj_id. split; [done|].
  assert (slots_of ls' (slot_of tt subj_id cg) = [row]) as Hrow'.
  { destruct G2 as (_ & _ & S2 & _). rewrite S2; [done|]. by rewrite Hrow. }
  split.
  - intros c [->|Hc]%elem_of_cons; [by rewrite Hrow'|].
    destruct cgs as [|cg1 cgs]; [by apply elem_of_nil in Hc|].
    destruct Hrest as (subj' & Hs' & Hall & _).
    assert (subj' = subj_id) as -> by congruence. by apply Hall.
  - destruct cgs as [|cg1 cgs].
    + subst fs'. destruct fs; [done|]. by exists row.
    + destruct Hrest as (subj' & Hs' & _ & ->).
      destruct fs; [done|]. by exists row.
Qed.

Lemma generate_slots_replay tt subj_id cgs ls fs :
  subject_fk_id tt = Some subj_id →
  (∀ cg, cg ∈ cgs → length (slots_of ls (slot_of tt subj_id cg)) = 1%nat) →
  ∃ fs',
    for_each (generate_slot tt) (ls, fs) cgs = inl (ls, fs')
    ∧ match cgs with
      | [] => fs' = fs
      | cg0 :: _ =>
          match fs with
          | Some first => fs' = Some first
          | None => ∃ row, slots_of ls (slot_of tt subj_id cg0) = [row]
                           ∧ fs' = Some row
          end
      end.
Proof.
  intros Hs. revert fs. induction cgs as [|cg cgs IH]; intros fs Hall.
  { by exists fs. }
  cbn [for_each]. unfold generate_slot at 1. rewrite Hs.
  assert (length (slots_of ls (slot_of tt subj_id cg)) = 1%nat) as Hone
    by (apply Hall; left).
  unfold slots_of in Hone.
  destruct (filter _ (NormalLessonSlots ls)) as [|row [|row' rest]] eqn:Hf;
    [done| |done].
  rewrite (get_or_create_found _ _ _ row) by done.
  destruct (IH (Some (default row fs))) as (fs' & Hloop & Hfs).
  { intros c Hc. apply Hall. by right. }
  assert (match fs with Some first => Some first | None => Some row end
          = Some (default row fs)) as -> by by destruct fs.
  exists fs'. split; [done|].
  assert (fs' = Some (default row fs)) as ->.
  { by destruct cgs. }
  destruct fs; [done|]. exists row. split; [|done].
  unfold slots_of. by rewrite Hf.
Qed.

Lemma generate_attendance_spec w ls c tt ls' c' :
  generate_attendance w (ls, c) tt = inl (ls', c') →
  grows ls ls' ∧ covered ls' w tt ∧ c ≤ c'.
Proof.
  unfold generate_attendance.
  destruct (for_each (generate_slot tt) (ls, None) (class_groups tt))
    as [[ls1 fs1]|[ls1 fs1]] eqn:Hslots; [|done].
  apply generate_slots_spec in Hslots as (G1 & A1 & Hcgs).
  destruct (class_groups tt) as [|cg0 cgs] eqn:Hcl.
  { subst fs1. intros [= <- <-]. split; [done|]. split; [by left|lia]. }
  destruct Hcgs as (subj_id & Hs & Hall & row & Hrow & ->).
  destruct (get_or_create _ _ _ _) as [[[rows att] created]|] eqn:Hg; [|done].
  pose proof (fun k' =>
                get_or_create_keeps attendance_key _ k' _ _ _ _ _ eq_refl Hg)
    as Hkeep.
  apply get_or_create_spec in Hg as [Hone Hc]; [|done].
  intros [= Heq].
  assert (NormalLessonAttendances ls' = rows
          ∧ NormalLessonSlots ls' = NormalLessonSlots ls1
          ∧ Weeks ls' = Weeks ls1 ∧ LessonRecords ls' = LessonRecords ls1
          ∧ c ≤ c') as (Hrows & Hsl & HW & HR & Hle).
  { destruct created; injection Heq as <- <-; [by repeat split; try lia|].
    subst rows. repeat split; lia. }
  assert (grows ls1 ls') as G2.
  { split; [done|]. split; [done|]. split.
    - intros s _. unfold slots_of. by rewrite Hsl.
    - intros p d Hne. unfold attendances_of in *. rewrite Hrows.
      apply Hkeep. exact Hne. }
  split; [by eapply grows_trans|]. split; [|done].
  right. exists subj_id. split; [done|]. rewrite Hcl. split.
  - intros cg Hcg. unfold slots_of in *. rewrite Hsl. by apply Hall.
  - exists cg0, row. split; [done|]. split.
    + unfold slots_of in *. by rewrite Hsl.
    + unfold attendances_of. by rewrite Hrows, Hone.
Qed.

Lemma covered_grows ls ls' w tt : covered ls w tt → grows ls ls' → covered ls' w tt.
Proof.
  intros [Hnil|(subj_id & Hs & Hall & cg & row & Hhead & Hrow & Hatt)]
         (_ & _ & S & A); [by left|].
  right. exists subj_id. split; [done|]. split.
  - intros c Hc. rewrite S; [by apply Hall|].
    intros Hnil. specialize (Hall c Hc). by rewrite Hnil in Hall.
  - exists cg, row. split; [done|]. split.
    + rewrite S; [done|]. by rewrite Hrow.
    + rewrite A; [done|]. intros Hnil. by rewrite Hnil in Hatt.
Qed.

Lemma generate_attendances_spec w tts ls c ls' c' :
  for_each (generate_attendance w) (ls, c) tts = inl (ls', c') →
  grows ls ls' ∧ (∀ tt, tt ∈ tts → covered ls' w tt) ∧ c ≤ c'.
Proof.
  revert ls c. induction tts as [|tt tts IH]; intros ls c.
  { intros [= <- <-]. split; [apply grows_refl|]. split; [|lia].
    intros tt Htt. by apply elem_of_nil in Htt. }
  cbn [for_each].
  destruct (generate_attendance w (ls, c) tt) as [[ls1 c1]|] eqn:Hg; [|done].
  intros Hloop. apply generate_attendance_spec in Hg as (G1 & Hcov & Hle).
  apply IH in Hloop as (G2 & Hall & Hle').
  split; [by eapply grows_trans|]. split; [|lia].
  intros t [->|Ht]%elem_of_cons; [by eapply covered_grows|by apply Hall].
Qed.

Lemma generate_attendance_replay w ls c tt :
  covered ls w tt → generate_attendance w (ls, c) tt = inl (ls, c).
Proof.
  unfold generate_attendance.
  intros [Hnil|(subj_id & Hs & Hall & cg & row & Hhead & Hrow & Hatt)].
  { by rewrite Hnil. }
  destruct (generate_slots_replay tt subj_id (class_groups tt) ls None Hs Hall)
    as (fs' & -> & Hfs).
  destruct (class_groups tt) as [|cg0 cgs]; [done|].
  injection Hhead as ->. destruct Hfs as (row' & Hrow' & ->).
  assert (row' = row) as -> by congruence.
  unfold attendances_of in Hatt.
  destruct (filter _ (NormalLessonAttendances ls)) as [|a [|a' rest]] eqn:Hf;
    [done| |done].
  by rewrite (get_or_create_found _ _ _ a).
Qed.

Lemma generate_attendances_replay w tts ls c :
  (∀ tt, tt ∈ tts → covered ls w tt) →
  for_each (generate_attendance w) (ls, c) tts = inl (ls, c).
Proof.
  induction tts as [|tt tts IH]; intros Hall; [done|].
  cbn [for_each]. rewrite generate_attendance_replay by (apply Hall; left).
  apply IH. intros t Ht. apply Hall. by right.
Qed.

(** X20. When [generate_week_lessons] completes for a selected week,
    every stored row of the normal structure that has a class group has a
    subject, exactly one [NormalLessonSlot] for each of its class groups
    and exactly one [NormalLessonAttendance] dated on the week's first day
    for the slot of its first class group; slots and attendance that were
    found are left as they were, and weeks and lesson records do not
    change. *)
Theorem normal_generation_covers_every_row (db : DB) (ls ls' : Lessons)
    (request : HttpRequest) (w : Week) (n : Z) :
  generate_week_lessons db ls request = GenerationPage ls' (Some w) (Some n) →
  (∀ tt, tt ∈ Timetables db → in_scope _fixed_timetable_structure tt →
         covered ls' w tt)
  ∧ grows ls ls' ∧ 0 ≤ n.
Proof.
  intros (week_id & _ & _ & _ & _ & Hrun)%generation_view_page.
  apply generate_attendances_spec in Hrun as (G & Hall & Hle).
  split; [|done]. intros tt Htt Hsc. apply Hall.
  by apply list_elem_of_filter.
Qed.

Lemma normal_generation_covers_every_row_witness :
  ∃ ls',
    generate_week_lessons (school three_lessons 4) term generate_week_1
    = GenerationPage ls' (Some {| week_pk := 1; start_date := 100;
                                  end_date := 104 |}) (Some 2)
    ∧ covered ls' {| week_pk := 1; start_date := 100; end_date := 104 |}
              (lesson 1 1 "Mon" (Time 8 0) (Time 8 40) [1]).
Proof.
  eexists. split; [by vm_compute|].
  eapply (normal_generation_covers_every_row (school three_lessons 4)
            term _ generate_week_1 _ 2).
  - by vm_compute.
  - left.
  - compute_decide.
Defined.

(** X21. [generate_week_lessons] is idempotent, as its docstring says:
    once a run for a week has completed, running the same request again
    completes too, creates no slot and no attendance ([created_att] is 0)
    and leaves every table as the first run left it. *)
Theorem normal_generation_is_idempotent (db : DB) (ls ls' : Lessons)
    (request : HttpRequest) (w : Week) (n : Z) :
  generate_week_lessons db ls request = GenerationPage ls' (Some w) (Some n) →
  generate_week_lessons db ls' request = GenerationPage ls' (Some w) (Some 0).
Proof.
  intros H. pose proof H as (week_id & _ & _ & _ & _ & Hrun)%generation_view_page.
  apply generate_attendances_spec in Hrun as ((W & _) & Hall & _).
  apply (generation_view_replay _ ls request ls' w n H W).
  by apply generate_attendances_replay.
Qed.

Lemma normal_generation_is_idempotent_witness :
  ∃ ls',
    generate_week_lessons (school three_lessons 4) term generate_week_1
    = GenerationPage ls' (Some {| week_pk := 1; start_date := 100;
                                  end_date := 104 |}) (Some 2)
    ∧ generate_week_lessons (school three_lessons 4) ls' generate_week_1
      = GenerationPage ls' (Some {| week_pk := 1; start_date := 100;
                                    end_date := 104 |}) (Some 0).
Proof.
  eexists. split; [by vm_compute|].
  apply (normal_generation_is_idempotent (school three_lessons 4) term _
           generate_week_1 _ 2).
  by vm_compute.
Defined.

(** ** The grids of the teacher timetables *)

Section grids.
Context {R : Type}.
Variable S : structure.
Variable day_of : R → string.
Variable start_of : R → time.
Hypothesis days_NoDup : NoDup S.1.
Hypothesis starts_NoDup : NoDup (fst <$> S.2).

Lemma index_Some (st : time) (i : nat) :
  (fst <$> S.2) !! i = Some st → index st (fst <$> S.2) = Some i.
Proof.
  intros Hi. unfold index.
  destruct (list_find _ _) as [[j y]|] eqn:Hf.
  - apply list_find_Some in Hf as (Hj & -> & _). cbn.
    f_equal. by eapply NoDup_lookup.
  - apply list_find_None in Hf. rewrite Forall_forall in Hf.
    exfalso. apply (Hf st); [|done]. by eapply list_elem_of_lookup_2.
Qed.

Lemma index_lookup (st : time) (i : nat) :
  index st (fst <$> S.2) = Some i → (fst <$> S.2) !! i = Some st.
Proof.
  unfold index. destruct (list_find _ _) as [[j y]|] eqn:Hf; [|done].
  apply list_find_Some in Hf as (Hj & -> & _). by intros [= <-].
Qed.

Lemma empty_grid_shaped : shaped S (empty_grid (R := R) S).
Proof.
  intros d Hd. exists (replicate (length S.2) []).
  split; [|by rewrite length_replicate].
  unfold empty_grid. apply elem_of_list_to_map.
  - rewrite <- list_fmap_compose. cbn. by rewrite list_fmap_id.
  - apply list_elem_of_fmap. by exists d.
Qed.

Lemma grid_append_shaped d i x (grid : gmap string (list (list R))) :
  shaped S grid → shaped S (grid_append d i x grid).
Proof.
  intros Hs d' Hd'. destruct (Hs d' Hd') as (row & Hrow & Hlen).
  unfold grid_append. destruct (grid !! d) as [row0|] eqn:Hd; [|by eauto].
  destruct (decide (d = d')) as [->|Hne].
  - rewrite lookup_insert_eq. eexists. split; [done|].
    rewrite length_alter. congruence.
  - rewrite lookup_insert_ne by done. eauto.
Qed.

Lemma grid_cell_append d i x (grid : gmap string (list (list R))) d' i' :
  shaped S grid → d' ∈ S.1 → (i' < length S.2)%nat →
  grid_cell (grid_append d i x grid) d' i'
  = (grid_cell grid d' i'
     ++ if bool_decide (d = d' ∧ i = i') then [x] else [])%list.
Proof.
  intros Hs Hd' Hi'. destruct (Hs d' Hd') as (row & Hrow & Hlen).
  unfold grid_cell, grid_append.
  destruct (decide (d = d')) as [->|Hne].
  - rewrite Hrow, lookup_insert_eq. cbn.
    rewrite list_lookup_alter. case_decide as Hi.
    + subst i'. rewrite bool_decide_eq_true_2 by done.
      destruct (row !! i) as [cell|] eqn:Hcell; [done|].
      apply lookup_ge_None in Hcell. lia.
    + rewrite bool_decide_eq_false_2 by (by intros [_ ?]).
      by rewrite app_nil_r.
  - rewrite bool_decide_eq_false_2 by (by intros [? _]).
    rewrite app_nil_r. destruct (grid !! d); [|done].
    by rewrite lookup_insert_ne.
Qed.

Lemma grid_cell_build (items : list R) (d : string) (i : nat) (st : time) :
  d ∈ S.1 → (fst <$> S.2) !! i = Some st →
  grid_cell (build_grid S day_of start_of items) d i
  = filter (fun x => day_of x = d ∧ start_of x = st) items.
Proof.
  intros Hd Hi. unfold build_grid.
  assert (i < length S.2)%nat as Hlt.
  { apply lookup_lt_Some in Hi. by rewrite length_fmap in Hi. }
  assert (grid_cell (empty_grid S) d i = @nil R) as Hempty.
  { destruct (empty_grid_shaped d Hd) as (row & Hrow & Hlen).
    unfold grid_cell. rewrite Hrow. cbn.
    unfold empty_grid in Hrow. apply elem_of_list_to_map_2 in Hrow.
    apply list_elem_of_fmap in Hrow as (d0 & [= -> ->] & _).
    destruct (replicate (length S.2) [] !! i) as [c|] eqn:Hc; [|done].
    by apply lookup_replicate in Hc as [-> _]. }
  assert (∀ grid,
    shaped S grid →
    grid_cell
      (foldl (fun grid x =>
                match index (start_of x) (fst <$> S.2) with
                | Some time_index => grid_append (day_of x) time_index x grid
                | None => grid
                end) grid items) d i
    = (grid_cell grid d i
       ++ filter (fun x => day_of x = d ∧ start_of x = st) items)%list) as H.
  { induction items as [|x items IH]; intros grid Hs.
    { cbn. by rewrite app_nil_r. }
    cbn [foldl].
    destruct (index (start_of x) (fst <$> S.2)) as [j|] eqn:Hj.
    - rewrite IH by by apply grid_append_shaped.
      rewrite grid_cell_append by done. rewrite <- app_assoc. f_equal.
      apply index_lookup in Hj.
      case_bool_decide as Hc.
      + destruct Hc as [Hdx ->]. rewrite filter_cons_True; [done|].
        split; [done|]. congruence.
      + rewrite filter_cons_False; [done|]. intros [Hdx Hsx]. apply Hc.
        split; [done|]. eapply NoDup_lookup; [exact starts_NoDup|done|].
        by rewrite Hsx.
    - rewrite IH by done. rewrite filter_cons_False; [done|].
      intros [_ Hsx]. apply index_Some in Hi. congruence. }
  rewrite H by apply empty_grid_shaped. by rewrite Hempty.
Qed.

End grids.

(** ** The status map and the colours *)

Lemma rank_range (val : string) : 0 ≤ rank val ≤ 3.
Proof. unfold rank. repeat case_bool_decide; lia. Qed.

Lemma rank_step (r : Z) (st_val : string) :
  0 ≤ r →
  (if bool_decide (st_val = "") then r
   else
     let st_l := lower st_val in
     if bool_decide (st_l = "attended") then Z.max r 3
     else if bool_decide (st_l = "not attended") then Z.max r 2
     else if bool_decide (st_l = "pending") then Z.max r 1
     else r)
  = Z.max r (rank st_val).
Proof.
  intros Hr. destruct (decide (st_val = "")) as [->|Hs].
  - rewrite bool_decide_eq_true_2 by done. change (rank "") with 0. lia.
  - rewrite (bool_decide_eq_false_2 (st_val = "")) by done.
    unfold rank. cbn zeta. repeat case_bool_decide; lia.
Qed.

Section colours.
Context {R K : Type} `{Countable K}.
Variable key : R → K.

Lemma status_map_spec (entries : list (K * string)) (k : K) :
  match foldl status_map_update ∅ entries !! k with
  | None => ∀ e, e ∈ entries → e.1 ≠ k
  | Some s =>
      (∃ e, e ∈ entries ∧ e.1 = k ∧ s = entry_status e)
      ∧ ∀ e, e ∈ entries → e.1 = k → rank (entry_status e) ≤ rank s
  end.
Proof.
  induction entries as [|e entries IH] using rev_ind.
  { cbn. rewrite lookup_empty. intros e He. by apply elem_of_nil in He. }
  rewrite foldl_app. cbn [foldl].
  set (sm := foldl status_map_update ∅ entries) in *.
  unfold status_map_update. fold (entry_status e).
  destruct (decide (e.1 = k)) as [Hk|Hk].
  - rewrite Hk. destruct (sm !! k) as [cur|] eqn:Hcur.
    + destruct IH as [(e0 & He0 & Hk0 & ->) Hmax].
      case_bool_decide as Hlt.
      * rewrite lookup_insert_eq. split.
        -- exists e. split; [|done]. apply elem_of_app. right. left.
        -- intros e' [He'|He']%elem_of_app Hk'.
           ++ specialize (Hmax e' He' Hk'). lia.
           ++ apply list_elem_of_singleton in He' as ->. lia.
      * rewrite Hcur. split.
        -- exists e0. split; [|done]. apply elem_of_app. by left.
        -- intros e' [He'|He']%elem_of_app Hk'; [by apply Hmax|].
           apply list_elem_of_singleton in He' as ->. lia.
    + rewrite lookup_insert_eq. split.
      * exists e. split; [|done]. apply elem_of_app. right. left.
      * intros e' [He'|He']%elem_of_app Hk'; [by destruct (IH e' He')|].
        apply list_elem_of_singleton in He' as ->. lia.
  - assert (match sm !! e.1 with
            | Some current =>
                if bool_decide (rank current < rank (entry_status e))
                then <[e.1 := entry_status e]> sm else sm
            | None => <[e.1 := entry_status e]> sm
            end !! k = sm !! k) as ->.
    { destruct (sm !! e.1); [case_bool_decide|];
        by rewrite ?lookup_insert_ne. }
    destruct (sm !! k) as [cur|].
    + destruct IH as [(e0 & He0 & Hk0 & ->) Hmax]. split.
      * exists e0. split; [|done]. apply elem_of_app. by left.
      * intros e' [He'|He']%elem_of_app Hk'; [by apply Hmax|].
        apply list_elem_of_singleton in He' as ->. done.
    + intros e' [He'|He']%elem_of_app; [by apply IH|].
      by apply list_elem_of_singleton in He' as ->.
Qed.

Lemma cell_status_rank_fold (sm : gmap K string) (cell : list R) (r0 : Z) :
  0 ≤ r0 ≤ 3 →
  let r := foldl (fun r x =>
             match sm !! key x with
             | None => r
             | Some st_val =>
                 if bool_decide (st_val = "") then r
                 else
                   let st_l := lower st_val in
                   if bool_decide (st_l = "attended") then Z.max r 3
                   else if bool_decide (st_l = "not attended") then Z.max r 2
                   else if bool_decide (st_l = "pending") then Z.max r 1
                   else r
             end) r0 cell in
  r0 ≤ r ≤ 3
  ∧ (∀ x s, x ∈ cell → sm !! key x = Some s → rank s ≤ r)
  ∧ (r = r0 ∨ ∃ x s, x ∈ cell ∧ sm !! key x = Some s ∧ rank s = r).
Proof.
  revert r0. induction cell as [|x cell IH]; intros r0 Hr0; cbn zeta.
  { cbn. split; [lia|]. split; [|by left].
    intros x s Hx. by apply elem_of_nil in Hx. }
  cbn [foldl].
  set (r1 := match sm !! key x with
             | None => r0
             | Some st_val => _
             end).
  assert (r0 ≤ r1 ≤ 3
          ∧ (∀ s, sm !! key x = Some s → rank s ≤ r1)
          ∧ (r1 = r0 ∨ ∃ s, sm !! key x = Some s ∧ rank s = r1))
    as (Hr1 & Hge & Hor).
  { subst r1. destruct (sm !! key x) as [s|].
    - rewrite rank_step by lia. pose proof (rank_range s).
      split; [lia|]. split; [intros s' [= <-]; lia|].
      destruct (decide (rank s ≤ r0)); [left; lia|].
      right. exists s. split; [done|lia].
    - split; [lia|]. split; [done|by left]. }
  specialize (IH r1 ltac:(lia)). cbn zeta in IH.
  destruct IH as (IH1 & IH2 & IH3).
  split; [lia|]. split.
  - intros y s [->|Hy]%elem_of_cons Hs; [|by eapply IH2].
    specialize (Hge s Hs). lia.
  - destruct IH3 as [->|(y & s & Hy & Hs & Hr)].
    + destruct Hor as [->|(s & Hs & Hr)]; [by left|].
      right. exists x, s. split; [left|done].
    + right. exists y, s. split; [by right|done].
Qed.

Lemma cell_status_rank_spec (entries : list (K * string)) (cell : list R) :
  let r := cell_status_rank (foldl status_map_update ∅ entries) key cell in
  (r = 3 ↔ has_rank key entries cell 3)
  ∧ (r = 2 ↔ ¬ has_rank key entries cell 3 ∧ has_rank key entries cell 2).
Proof.
  cbn zeta. unfold cell_status_rank.
  set (sm := foldl status_map_update ∅ entries).
  destruct (cell_status_rank_fold sm cell 0 ltac:(lia)) as (Hr & Hge & Hor).
  cbn zeta in *.
  set (r := foldl _ 0 cell) in *.
  assert (∀ x s, x ∈ cell → sm !! key x = Some s →
                 ∃ e, e ∈ entries ∧ e.1 = key x ∧ s = entry_status e) as Hfrom.
  { intros x s Hx Hs. pose proof (status_map_spec entries (key x)) as Hsp.
    fold sm in Hsp. rewrite Hs in Hsp. by destruct Hsp. }
  assert (∀ n, has_rank key entries cell n → n ≤ r) as Hbound.
  { intros n (x & e & Hx & He & Hk & Hn).
    pose proof (status_map_spec entries (key x)) as Hsp. fold sm in Hsp.
    destruct (sm !! key x) as [s|] eqn:Hs.
    - destruct Hsp as [_ Hmax]. specialize (Hmax e He Hk).
      specialize (Hge x s Hx Hs). unfold entry_status in Hmax. lia.
    - by destruct (Hsp e He). }
  assert (0 < r → has_rank key entries cell r) as Hhas.
  { intros Hpos. destruct Hor as [?|(x & s & Hx & Hs & Hrs)]; [lia|].
    destruct (Hfrom x s Hx Hs) as (e & He & Hk & ->).
    by exists x, e. }
  split; split.
  - intros Hr3. rewrite <- Hr3. apply Hhas. lia.
  - intros H3. apply Hbound in H3. lia.
  - intros Hr2. split.
    + intros H3%Hbound. lia.
    + rewrite <- Hr2. apply Hhas. lia.
  - intros [Hn3 H2]. apply Hbound in H2.
    destruct (decide (r = 3)) as [Hr3|]; [|lia].
    exfalso. apply Hn3. rewrite <- Hr3. apply Hhas. lia.
Qed.

Lemma cell_colour_spec (selected_week : bool) (entries : list (K * string))
    (cell : list R) :
  let colour :=
    cell_colour selected_week (foldl status_map_update ∅ entries) key cell in
  (colour = "green" ↔
   cell ≠ [] ∧ (selected_week = false ∨ has_rank key entries cell 3))
  ∧ (colour = "red" ↔
     cell ≠ [] ∧ selected_week = true ∧ ¬ has_rank key entries cell 3
     ∧ has_rank key entries cell 2)
  ∧ (colour = "green" ∨ colour = "red" ∨ colour = "grey").
Proof.
  cbn zeta. unfold cell_colour.
  destruct cell as [|x cell].
  { split; [split; [done|by intros [? _]]|].
    split; [split; [done|by intros [? _]]|]. by right; right. }
  destruct selected_week; cbn [negb].
  - destruct (cell_status_rank_spec entries (x :: cell)) as [H3 H2].
    cbn zeta in *. case_bool_decide as Hr3; [|case_bool_decide as Hr2].
    + apply H3 in Hr3. split; [split; [by auto|done]|]. split; [|by left].
      split; [done|]. by intros (_ & _ & Hn & _).
    + pose proof Hr2 as [Hn3 Hh2]%H2. split.
      { split; [done|]. intros [_ [?|?]]; done. }
      split; [|by right; left]. split; [done|done].
    + split.
      { split; [done|]. intros [_ [?|Hh]]; [done|].
        exfalso. by apply Hr3, H3. }
      split; [|by right; right].
      split; [done|]. intros (_ & _ & Hn3 & Hh2). exfalso. by apply Hr2, H2.
  - split; [split; [by auto|done]|]. split; [|by left].
    split; [done|]. by intros (_ & ? & _).
Qed.

End colours.

Lemma color_grid_lookup {R K : Type} `{Countable K} (S : structure)
    (selected_week : bool) (sm : gmap K string) (key : R → K)
    (grid : gmap string (list (list R))) (d : string) (i : nat) :
  d ∈ S.1 → (i < length S.2)%nat →
  colour_at (color_grid S selected_week sm key grid) d i
  = Some (cell_colour selected_week sm key (grid_cell grid d i)).
Proof.
  intros Hd Hi. unfold colour_at, color_grid.
  assert (∀ (l : list string) (c0 : gmap string (list string)),
    d ∈ l →
    foldl (fun colors day_code =>
             <[day_code :=
                 (fun idx => cell_colour selected_week sm key
                               (grid_cell grid day_code idx))
                 <$> seq 0 (length S.2)]> colors) c0 l !! d
    = Some ((fun idx => cell_colour selected_week sm key (grid_cell grid d idx))
            <$> seq 0 (length S.2))) as Hfold.
  { induction l as [|d' l IH] using rev_ind; intros c0 Hin;
      [by apply elem_of_nil in Hin|].
    rewrite foldl_app. cbn [foldl].
    destruct (decide (d' = d)) as [->|Hne]; [by rewrite lookup_insert_eq|].
    rewrite lookup_insert_ne by done. apply IH.
    apply elem_of_app in Hin as [?|Hin]; [done|].
    by apply list_elem_of_singleton in Hin. }
  rewrite Hfold by done. cbn.
  rewrite list_lookup_fmap, lookup_seq_lt by done. done.
Qed.

Lemma cell_colour_means {R K : Type} `{Countable K} (key : R → K)
    (selected_week : bool) (entries : list (K * string)) (cell : list R) :
  colour_means key selected_week entries cell
    (cell_colour selected_week (foldl status_map_update ∅ entries) key cell).
Proof. apply cell_colour_spec. Qed.

(** X22. In [teacher_remedial_timetable], the cell of a day and a slot of
    the remedial structure holds the teacher's stored rows of that day and
    start time, in table order.  Its colour is grey when it holds none;
    with no week selected it is green; with a week selected it is green
    when some record of the teacher for that week, on a remedial row of the
    teacher, shares the logical lesson (teacher, day, start, end, subject)
    of a row of the cell and is Attended, red when none is Attended and one
    is Not Attended, and grey otherwise. *)
Theorem remedial_timetable_colours (db : DB) (ls : Lessons) (teacher : Z)
    (request : HttpRequest) (page : timetable_page Timetable)
    (d : string) (i : nat) (st et : time) :
  teacher_remedial_timetable db ls teacher request = Some page →
  d ∈ _fixed_remedial_structure.1 →
  _fixed_remedial_structure.2 !! i = Some (st, et) →
  let cell := filter (fun tt => teacher_id tt = teacher ∧ day tt = d
                                ∧ start_time tt = st) (Timetables db) in
  grid_cell (tp_grid page) d i = cell
  ∧ ∃ selected_week colour,
      selected_week_of ls request = Some selected_week
      ∧ colour_at (tp_color_grid page) d i = Some colour
      ∧ colour_means lkey_of (bool_decide (is_Some selected_week))
          (from_option (remedial_entries db ls teacher) [] selected_week)
          cell colour.
Proof.
  unfold teacher_remedial_timetable.
  destruct (selected_week_of ls request) as [selected_week|] eqn:Hw; [|done].
  intros Hpage Hd Hi. cbn [mbind option_bind] in Hpage. cbv zeta in Hpage.
  injection Hpage as <-. cbn [tp_grid tp_color_grid].
  assert ((fst <$> _fixed_remedial_structure.2) !! i = Some st) as Hst
    by (by rewrite list_lookup_fmap, Hi).
  assert (grid_cell
            (build_grid _fixed_remedial_structure day start_time
               (remedial_qs db teacher)) d i
          = filter (fun tt => teacher_id tt = teacher ∧ day tt = d
                              ∧ start_time tt = st) (Timetables db))
    as Hcell.
  { rewrite (grid_cell_build _fixed_remedial_structure day start_time
               ltac:(compute_decide) ltac:(compute_decide) _ d i st Hd Hst).
    unfold remedial_qs. rewrite list_filter_filter.
    apply filter_ext_in. intros tt _. split; [naive_solver|].
    intros (Ht & Hday & Hstart). repeat split; try done.
    - by rewrite Hday.
    - rewrite Hstart. by eapply list_elem_of_lookup_2. }
  split; [exact Hcell|].
  exists selected_week. eexists. split; [done|]. split.
  { apply color_grid_lookup; [done|]. by eapply lookup_lt_Some. }
  rewrite Hcell. destruct selected_week as [w|]; apply cell_colour_means.
Qed.

Lemma remedial_timetable_colours_witness :
  ∃ page,
    teacher_remedial_timetable (school remedial_rows 4) marked_term 1
      get_week_1 = Some page
    ∧ grid_cell (tp_grid page) "Mon" 0
      = [ lesson 1 1 "Mon" (Time 16 30) (Time 17 30) [1];
          lesson 2 1 "Mon" (Time 16 30) (Time 17 30) [2] ]
    ∧ colour_at (tp_color_grid page) "Mon" 0 = Some "green"
    ∧ colour_at (tp_color_grid page) "Tue" 0 = Some "grey".
Proof.
  eexists. split; [by vm_compute|].
  split; [|split; by vm_compute].
  refine (proj1 (remedial_timetable_colours (school remedial_rows 4)
                   marked_term 1 get_week_1 _ "Mon" 0 (Time 16 30)
                   (Time 17 30) _ _ _));
    [by vm_compute|compute_decide|done].
Defined.

(** X23. In [teacher_normal_timetable], the cell of a day and a slot of
    the normal structure holds the teacher's slots of that day and start
    time, in table order.  Its colour is grey when it holds none; with no
    week selected it is green; with a week selected it is green when some
    attendance dated inside the week, of a slot of the teacher, shares the
    (day, start, end, subject) of a slot of the cell and is Attended, red
    when none is Attended and one is Not Attended, and grey otherwise. *)
Theorem normal_timetable_colours (ls : Lessons) (teacher : Z)
    (request : HttpRequest) (page : timetable_page SlotRow)
    (d : string) (i : nat) (st et : time) :
  teacher_normal_timetable ls teacher request = Some page →
  d ∈ _fixed_timetable_structure.1 →
  _fixed_timetable_structure.2 !! i = Some (st, et) →
  let cell := filter (fun r => slot_teacher_id (srow_slot r) = teacher
                               ∧ slot_day (srow_slot r) = d
                               ∧ slot_start_time (srow_slot r) = st)
                     (NormalLessonSlots ls) in
  grid_cell (tp_grid page) d i = cell
  ∧ ∃ selected_week colour,
      selected_week_of ls request = Some selected_week
      ∧ colour_at (tp_color_grid page) d i = Some colour
      ∧ colour_means skey_of (bool_decide (is_Some selected_week))
          (from_option (normal_entries ls teacher) [] selected_week)
          cell colour.
Proof.
  unfold teacher_normal_timetable.
  destruct (selected_week_of ls request) as [selected_week|] eqn:Hw; [|done].
  intros Hpage Hd Hi. cbn [mbind option_bind] in Hpage. cbv zeta in Hpage.
  injection Hpage as <-. cbn [tp_grid tp_color_grid].
  assert ((fst <$> _fixed_timetable_structure.2) !! i = Some st) as Hst
    by (by rewrite list_lookup_fmap, Hi).
  assert (grid_cell
            (build_grid _fixed_timetable_structure
               (fun r => slot_day (srow_slot r))
               (fun r => slot_start_time (srow_slot r))
               (slots_qs ls teacher)) d i
          = filter (fun r => slot_teacher_id (srow_slot r) = teacher
                             ∧ slot_day (srow_slot r) = d
                             ∧ slot_start_time (srow_slot r) = st)
                   (NormalLessonSlots ls))
    as Hcell.
  { rewrite (grid_cell_build _fixed_timetable_structure
               (fun r => slot_day (srow_slot r))
               (fun r => slot_start_time (srow_slot r))
               ltac:(compute_decide) ltac:(compute_decide) _ d i st Hd Hst).
    unfold slots_qs. rewrite list_filter_filter.
    apply filter_ext_in. intros r _. split; [naive_solver|].
    intros (Ht & Hday & Hstart). repeat split; try done.
    - by rewrite Hday.
    - rewrite Hstart. by eapply list_elem_of_lookup_2. }
  split; [exact Hcell|].
  exists selected_week. eexists. split; [done|]. split.
  { apply color_grid_lookup; [done|]. by eapply lookup_lt_Some. }
  rewrite Hcell. destruct selected_week as [w|]; apply cell_colour_means.
Qed.

Lemma normal_timetable_colours_witness :
  ∃ page,
    teacher_normal_timetable marked_term 1 get_week_1 = Some page
    ∧ grid_cell (tp_grid page) "Mon" 0 = NormalLessonSlots marked_term
    ∧ colour_at (tp_color_grid page) "Mon" 0 = Some "red"
    ∧ colour_at (tp_color_grid page) "Mon" 1 = Some "grey".
Proof.
  eexists. split; [by vm_compute|].
  split; [|split; by vm_compute].
  refine (proj1 (normal_timetable_colours marked_term 1 get_week_1 _ "Mon" 0
                   (Time 8 0) (Time 8 40) _ _ _));
    [by vm_compute|compute_decide|done].
Defined.

(** ** The payment overview *)

Lemma Sum_default {A : Type} (field : A → Z) (qs : list A) :
  default 0 (Sum field qs) = sumZ field qs.
Proof. by destruct qs. Qed.

Lemma count_filter_split {A : Type} (P : A → Prop) `{∀ x, Decision (P x)}
    (l : list A) :
  count l = count (filter P l) + count (filter (fun x => ¬ P x) l).
Proof.
  unfold count. induction l as [|a l IH]; [done|].
  rewrite !filter_cons. destruct (decide (P a)), (decide (¬ P a));
    try done; cbn [length] in *; lia.
Qed.

Lemma count_filter_ext {A : Type} (P Q : A → Prop) `{∀ x, Decision (P x)}
    `{∀ x, Decision (Q x)} (l : list A) :
  (∀ x, x ∈ l → P x ↔ Q x) → count (filter P l) = count (filter Q l).
Proof.
  intros HPQ. unfold count. f_equal. f_equal.
  induction l as [|a l IH]; [done|].
  rewrite !filter_cons.
  pose proof (HPQ a ltac:(left)) as Ha.
  rewrite IH by (intros x Hx; apply HPQ; by right).
  destruct (decide (P a)), (decide (Q a)); tauto || done.
Qed.

Lemma count_nonneg {A : Type} (l : list A) : 0 ≤ count l.
Proof. unfold count. lia. Qed.

Lemma admin_payments_students (db : DB) (Students : list Student)
    (request : HttpRequest) (page : payments_page) :
  admin_payments db Students request = Some page →
  let l := students page in
  total_students page = count l
  ∧ total_paid page = sumZ amount_paid l
  ∧ total_fees page = sumZ term_fee l
  ∧ total_unpaid page = sumZ term_fee l - sumZ amount_paid l
  ∧ fully_paid page = count (filter (fun s => term_fee s ≤ amount_paid s) l)
  ∧ unpaid page = count (filter (fun s => amount_paid s = 0) l)
  ∧ partial page = total_students page - fully_paid page - unpaid page
  ∧ class_stats page = annotate Students <$> ClassGroup_ids db
  ∧ (students page = Students
     ∨ ∃ c, selected_class_obj page = Some c
            ∧ students page = filter (fun s => class_group_id s = c) Students).
Proof.
  unfold admin_payments. intros Hpage.
  apply bind_Some in Hpage as (obj & _ & Hpage).
  cbv zeta in Hpage. injection Hpage as <-.
  cbn [students total_students total_paid total_fees total_unpaid fully_paid
       unpaid partial class_stats selected_class_obj].
  rewrite !Sum_default. repeat split; try done.
  destruct obj as [c|]; [right; by exists c|by left].
Qed.

Lemma sumZ_balance (l : list Student) :
  sumZ balance l = sumZ term_fee l - sumZ amount_paid l.
Proof.
  induction l as [|s l IH]; [done|].
  rewrite !sumZ_cons, IH. unfold balance. lia.
Qed.

(** X24. On the page of [admin_payments], [partial] is the number of
    listed students who paid something other than zero and less than their
    fee, minus the number of those counted twice, as fully paid and as
    unpaid (paid zero on a fee that is not positive); so when every listed
    student has a positive fee, [partial] is exactly the number who paid a
    non-zero amount below the fee, and the three counts are not negative.
    [total_unpaid] is the sum of the listed students' [balance]. *)
Theorem partial_counts_part_payers (db : DB) (Students : list Student)
    (request : HttpRequest) (page : payments_page) :
  admin_payments db Students request = Some page →
  let part_payers :=
    filter (fun s => amount_paid s ≠ 0 ∧ amount_paid s < term_fee s)
           (students page) in
  let counted_twice :=
    filter (fun s => amount_paid s = 0 ∧ term_fee s ≤ 0) (students page) in
  partial page = count part_payers - count counted_twice
  ∧ total_unpaid page = sumZ balance (students page)
  ∧ (Forall (fun s => 0 < term_fee s) (students page) →
     partial page = count part_payers
     ∧ fully_paid page + unpaid page + partial page = total_students page
     ∧ 0 ≤ fully_paid page ∧ 0 ≤ unpaid page ∧ 0 ≤ partial page).
Proof.
  intros Hpage.
  destruct (admin_payments_students _ _ _ _ Hpage)
    as (Htot & _ & _ & Hun & Hfull & Hzero & Hpart & _).
  cbv zeta in *. set (l := students page) in *.
  assert (partial page
          = count (filter (fun s => amount_paid s ≠ 0
                                    ∧ amount_paid s < term_fee s) l)
            - count (filter (fun s => amount_paid s = 0 ∧ term_fee s ≤ 0) l))
    as Hgen.
  { rewrite Hpart, Htot, Hfull, Hzero. clear. unfold count.
    induction l as [|s l IH]; [done|].
    rewrite !filter_cons.
    repeat (destruct (decide _)); cbn [length] in *; lia. }
  split; [exact Hgen|]. split; [by rewrite sumZ_balance|].
  intros Hfee.
  assert (count (filter (fun s => amount_paid s = 0 ∧ term_fee s ≤ 0) l) = 0)
    as Hnone.
  { unfold count. rewrite filter_none; [done|].
    intros s Hs [_ Hle]. rewrite Forall_forall in Hfee.
    specialize (Hfee s Hs). lia. }
  rewrite Hgen, Hnone, Hfull, Hzero, Htot.
  pose proof (count_nonneg (filter (fun s => amount_paid s ≠ 0
                                      ∧ amount_paid s < term_fee s) l)).
  pose proof (count_nonneg (filter (fun s => term_fee s ≤ amount_paid s) l)).
  pose proof (count_nonneg (filter (fun s => amount_paid s = 0) l)).
  rewrite Hpart, Htot, Hfull, Hzero, Hnone in Hgen. lia.
Qed.

Lemma partial_counts_part_payers_witness :
  ∃ page,
    admin_payments (school [] 4) four_students (get_class "1") = Some page
    ∧ partial page = 1
    ∧ total_unpaid page = 250000.
Proof.
  eexists. split; [by vm_compute|].
  destruct (partial_counts_part_payers (school [] 4) four_students
              (get_class "1") _ eq_refl) as (Hp & Hu & _).
  split; (etrans; [eassumption|by vm_compute]).
Defined.

Lemma count_sumZ {A : Type} (l : list A) : count l = sumZ (fun _ => 1) l.
Proof.
  unfold count. induction l as [|a l IH]; [done|].
  rewrite sumZ_cons, <- IH. cbn [length]. lia.
Qed.

Lemma sumZ_ext {A : Type} (f g : A → Z) (l : list A) :
  (∀ x, x ∈ l → f x = g x) → sumZ f l = sumZ g l.
Proof.
  induction l as [|a l IH]; intros Hfg; [done|].
  rewrite !sumZ_cons, IH by (intros x Hx; apply Hfg; by right).
  by rewrite (Hfg a) by left.
Qed.

Lemma sumZ_one_class (x : Z) (v : Z) (h : Z → Z) (cs : list Z) :
  NoDup cs → x ∈ cs →
  sumZ (fun c => if decide (x = c) then v + h c else h c) cs
  = v + sumZ h cs.
Proof.
  induction cs as [|c cs IH]; intros Hnd Hin; [by apply elem_of_nil in Hin|].
  apply NoDup_cons in Hnd as [Hc Hnd]. rewrite !sumZ_cons.
  destruct (decide (x = c)) as [->|Hne].
  - rewrite (sumZ_ext _ h); [lia|].
    intros y Hy. destruct (decide (c = y)) as [->|]; done.
  - rewrite IH; [lia|done|]. apply elem_of_cons in Hin as [?|?]; done.
Qed.

Lemma sumZ_by_class (f : Student → Z) (cs : list Z) (l : list Student) :
  NoDup cs → (∀ s, s ∈ l → class_group_id s ∈ cs) →
  sumZ (fun c => sumZ f (filter (fun s => class_group_id s = c) l)) cs
  = sumZ f l.
Proof.
  intros Hnd. induction l as [|s l IH]; intros Hin.
  - clear. induction cs as [|c cs IH]; [done|]. by rewrite sumZ_cons, IH.
  - rewrite sumZ_cons, <- IH by (intros x Hx; apply Hin; by right).
    rewrite <- (sumZ_one_class (class_group_id s) (f s) _ cs Hnd)
      by (apply Hin; left).
    apply sumZ_ext. intros c _. rewrite filter_cons.
    destruct (decide (class_group_id s = c)); by rewrite ?sumZ_cons.
Qed.

Lemma ClassGroup_get_Some (db : DB) (id : string) (c : Z) :
  ClassGroup_get db id = Some (Some c) → c ∈ ClassGroup_ids db.
Proof.
  unfold ClassGroup_get. intros H.
  apply bind_Some in H as (i & _ & H).
  destruct (filter (fun c0 => c0 = i) (ClassGroup_ids db))
    as [|c0 [|? ?]] eqn:Hf; try done.
  injection H as ->.
  assert (c ∈ filter (fun c0 => c0 = i) (ClassGroup_ids db)) as Hin
    by (rewrite Hf; left).
  by apply list_elem_of_filter in Hin as [_ ?].
Qed.

(** X25. The summary table of [admin_payments] has one row per class
    group, whatever is selected.  When a class is selected, the page's
    student count and its paid and fee totals are those of the class's
    summary row (an empty sum read as 0).  When none is selected (no or
    empty parameter, or an id that matches no class) and class ids are
    distinct and every student's class exists, the rows' student counts,
    paid totals and fee totals add up to the page's totals. *)
Theorem class_stats_agree_with_totals (db : DB) (Students : list Student)
    (request : HttpRequest) (page : payments_page) :
  admin_payments db Students request = Some page →
  (cs_class_group <$> class_stats page) = ClassGroup_ids db
  ∧ (∀ c, selected_class_obj page = Some c →
       ∃ row, row ∈ class_stats page ∧ cs_class_group row = c
              ∧ total_students page = cs_total_students row
              ∧ total_paid page = default 0 (cs_total_paid row)
              ∧ total_fees page = default 0 (cs_total_fees row))
  ∧ (selected_class_obj page = None →
     NoDup (ClassGroup_ids db) →
     (∀ s, s ∈ Students → class_group_id s ∈ ClassGroup_ids db) →
     sumZ cs_total_students (class_stats page) = total_students page
     ∧ sumZ (fun row => default 0 (cs_total_paid row)) (class_stats page)
       = total_paid page
     ∧ sumZ (fun row => default 0 (cs_total_fees row)) (class_stats page)
       = total_fees page).
Proof.
  intros Hpage.
  destruct (admin_payments_students _ _ _ _ Hpage)
    as (Htot & Hpaid & Hfees & _ & _ & _ & _ & Hstats & Hsel).
  cbv zeta in *. split; [|split].
  - rewrite Hstats, <- list_fmap_compose. apply list_fmap_id.
  - intros c Hc. exists (annotate Students c).
    assert (c ∈ ClassGroup_ids db) as Hin.
    { revert Hpage Hc. unfold admin_payments. intros Hpage.
      apply bind_Some in Hpage as (obj & Hobj & Hpage).
      cbv zeta in Hpage. injection Hpage as <-. cbn [selected_class_obj].
      intros ->. destruct (get (GET request) "class") as [id|]; [|done].
      destruct (bool_decide (id = "")); [done|].
      by eapply ClassGroup_get_Some. }
    assert (students page
            = filter (fun s => class_group_id s = c) Students) as Hl.
    { revert Hpage Hc. unfold admin_payments. intros Hpage.
      apply bind_Some in Hpage as (obj & Hobj & Hpage).
      cbv zeta in Hpage. injection Hpage as <-.
      cbn [selected_class_obj students]. by intros ->. }
    split; [rewrite Hstats; by apply list_elem_of_fmap_2|].
    split; [done|]. rewrite Htot, Hpaid, Hfees, Hl.
    cbn [annotate cs_total_students cs_total_paid cs_total_fees].
    by rewrite !Sum_default.
  - intros Hnone Hnd Hin.
    assert (students page = Students) as Hl.
    { destruct Hsel as [?|(c & Hc & _)]; [done|congruence]. }
    rewrite Htot, Hpaid, Hfees, Hstats, Hl. clear -Hnd Hin.
    assert (∀ (g : class_stat → Z) (f : Student → Z),
      (∀ c, g (annotate Students c)
            = sumZ f (filter (fun s => class_group_id s = c) Students)) →
      sumZ g (annotate Students <$> ClassGroup_ids db) = sumZ f Students)
      as Hsum.
    { intros g f Hg. rewrite <- (sumZ_by_class f _ _ Hnd Hin).
      generalize (ClassGroup_ids db). intros cs.
      induction cs as [|c cs IH]; [done|].
      rewrite fmap_cons, !sumZ_cons, IH. by rewrite Hg. }
    split; [|split].
    + rewrite count_sumZ. apply Hsum. intros c.
      cbn [annotate cs_total_students]. apply count_sumZ.
    + apply Hsum. intros c. cbn [annotate cs_total_paid].
      apply Sum_default.
    + apply Hsum. intros c. cbn [annotate cs_total_fees].
      apply Sum_default.
Qed.

Lemma class_stats_agree_with_totals_witness :
  ∃ page,
    admin_payments (school [] 4) four_students get_plain = Some page
    ∧ (cs_total_students <$> class_stats page) = [3; 1]
    ∧ total_students page = 4.
Proof.
  eexists. split; [by vm_compute|].
  destruct (class_stats_agree_with_totals (school [] 4) four_students
              get_plain _ eq_refl) as (_ & _ & Hsum).
  destruct Hsum as (Hn & _ & _);
    [by vm_compute|compute_decide|
     intros s Hs; repeat (apply elem_of_cons in Hs as [->|Hs];
                          [compute_decide|]); by apply elem_of_nil in Hs|].
  split; by vm_compute.
Defined.
